(** * PingDao uptime client

    A shallow embedding of the agent's connectivity manager
    ([services/websocket.js]), telemetry pipeline and task scheduler
    ([services/monitor.js]) and bootstrap ([index.js]), with the properties
    of the specification stated against it.

    Conventions.
    - Timestamps ([Date.now()]) are integers ([Z]), milliseconds.
    - Other JavaScript numbers are exact rationals extended with the two
      infinities and NaN ([JsNum.jsnum]); division by zero and
      [undefined] operands are modelled, rounding is not.  The reward
      evaluator compares a computed percentage with a threshold, where
      rounding decides: it is also given in IEEE 754 double precision
      ([Binary64], [Rewards]).
    - Module-level variables become the fields of a state record that every
      function takes and returns.
    - What the environment decides (clock, random draw, outcome of a
      transport write, host readings) is an explicit argument. *)

From Stdlib Require Import ZArith QArith Qminmax Qround Qpower.
From Stdlib Require Import List String Bool Lia Lqa.
From Stdlib Require SpecFloat.
Import ListNotations.
Local Open Scope Z_scope.

(* ------------------------------------------------------------------ *)
(** ** JavaScript numbers *)

Module JsNum.

Inductive jsnum : Type :=
| Fin (q : Q)
| Inf (negative : bool)
| NaN.

Definition of_Z (z : Z) : jsnum := Fin (inject_Z z).

Definition is_zero (q : Q) : bool := Qeq_bool q 0.

Definition is_neg (q : Q) : bool :=
  match (q ?= 0)%Q with Lt => true | _ => false end.

Definition mul (a b : jsnum) : jsnum :=
  match a, b with
  | NaN, _ | _, NaN => NaN
  | Fin p, Fin q => Fin (p * q)
  | Fin p, Inf s | Inf s, Fin p =>
      if is_zero p then NaN else Inf (xorb s (is_neg p))
  | Inf s, Inf t => Inf (xorb s t)
  end.

Definition div (a b : jsnum) : jsnum :=
  match a, b with
  | NaN, _ | _, NaN => NaN
  | Fin p, Fin q =>
      if is_zero q
      then (if is_zero p then NaN else Inf (is_neg p))
      else Fin (p / q)
  | Fin _, Inf _ => Fin 0
  | Inf s, Fin q => Inf (xorb s (is_neg q))
  | Inf _, Inf _ => NaN
  end.

(** [a >= b]; every comparison with NaN is false. *)
Definition geb (a b : jsnum) : bool :=
  match a, b with
  | NaN, _ | _, NaN => false
  | Fin p, Fin q => Qle_bool q p
  | Inf s, Fin _ => negb s
  | Fin _, Inf t => t
  | Inf s, Inf t => negb s || t
  end.

(** Truthiness of a number: 0 and NaN are falsy. *)
Definition truthy (a : jsnum) : bool :=
  match a with
  | Fin q => negb (is_zero q)
  | Inf _ => true
  | NaN => false
  end.

(** A property read from an object that may lack it: [undefined]
    behaves as NaN in arithmetic. *)
Definition of_undefined (o : option jsnum) : jsnum :=
  match o with Some a => a | None => NaN end.

End JsNum.
Import JsNum.

(** Truthiness of an integer timestamp that may be [null]. *)
Definition truthyTime (t : option Z) : bool :=
  match t with
  | Some z => negb (z =? 0)
  | None => false
  end.

(** [s.includes(k)] *)
Fixpoint includes (k s : string) : bool :=
  if String.prefix k s then true
  else match s with
       | EmptyString => false
       | String _ s' => includes k s'
       end.

(* ------------------------------------------------------------------ *)
(** ** Data model *)

Inductive Priority : Type := high | normal | low.

Definition is_high (p : Priority) : bool :=
  match p with high => true | _ => false end.

(** The value of a metric domain in a snapshot: the empty object [{}] it
    starts as, an error marker [{ error }], or readings. *)
Inductive Domain (A : Type) : Type :=
| NoReading
| ErrorMarker (message : string)
| Reading (a : A).
Arguments NoReading {A}.
Arguments ErrorMarker {A} message.
Arguments Reading {A} a.

Record CpuInfo : Type := { ci_model : string; ci_speed : Z }.

Record CpuReading : Type :=
  { cpu_usage : jsnum; cpu_cores : nat; cpu_model : string; cpu_speed : Z }.

Record MemoryReading : Type :=
  { mem_total : Z; mem_free : Z; mem_used : Z; mem_usagePercentage : jsnum }.

(** An entry of [si.fsSize()] and what collectMetrics keeps of it. *)
Record FsSize : Type :=
  { fs_fs : string; fs_type : string; fs_size : Z; fs_used : Z;
    fs_available : Z; fs_use : Q }.

Record DiskReading : Type :=
  { dk_fs : string; dk_type : string; dk_size : Z; dk_used : Z;
    dk_available : Z; dk_usagePercentage : Q }.

(** An entry of [si.networkStats()] and what collectMetrics keeps of it. *)
Record NetStat : Type :=
  { ns_iface : string; ns_rx_bytes : Z; ns_tx_bytes : Z;
    ns_rx_errors : Z; ns_tx_errors : Z }.

Record NetReading : Type :=
  { nt_interface : string; nt_rxBytes : Z; nt_txBytes : Z;
    nt_rxErrors : Z; nt_txErrors : Z }.

Record UptimeReading : Type :=
  { up_system : Q; up_process : Q; up_client : Q }.

Record SystemInfo : Type :=
  { sys_platform : string; sys_arch : string; sys_hostname : string;
    sys_uptime : Q }.

Inductive TaskType : Type :=
| http | ping | tcp | dns
| otherType (name : string).

Record TaskResult : Type :=
  { r_success : bool;
    r_statusCode : option Z;
    r_responseTime : option Z;
    r_contentValid : option bool;
    r_responseTimeValid : option bool;
    r_error : option string;
    r_timestamp : Z }.

(** [task.interval]: a number of milliseconds or a cron expression. *)
Inductive Interval : Type :=
| IntervalMs (ms : Q)
| IntervalCron (expr : string).

Record Task : Type :=
  { t_id : option string;
    t_name : option string;
    t_type : TaskType;
    t_target : string;
    t_interval : Interval;
    t_validStatusCodes : option (list Z);
    t_keyword : option string;
    t_maxResponseTime : option Z;
    t_lastRunTime : option Z;
    t_lastResult : option TaskResult }.

(** The per-task summary collectMetrics adds to a snapshot. *)
Record TaskStatus : Type :=
  { ts_id : option string;
    ts_name : option string;
    ts_type : TaskType;
    ts_target : string;
    ts_lastRunTime : option Z;
    ts_lastResult : option (bool * Z) }.

(** A snapshot as collectMetrics builds it.  [m_uptime] and [m_tasks] are
    properties the object only has when they were assigned. *)
Record Metrics : Type :=
  { m_timestamp : Z;
    m_system : SystemInfo;
    m_cpu : Domain CpuReading;
    m_memory : Domain MemoryReading;
    m_disk : Domain (list DiskReading);
    m_network : Domain (list NetReading);
    m_uptime : option UptimeReading;
    m_tasks : option (list TaskStatus) }.

Record HistoryPoint : Type :=
  { h_timestamp : Z;
    h_cpu : option jsnum;
    h_memory : option jsnum;
    h_uptime : Q }.

(** [userService]'s record, as far as the core reads it. *)
Record UserData : Type :=
  { registered : bool; nodeId : option string; publicKey : option string }.

(** What the remote side may ask for in a [task] message. *)
Inductive RemoteTask : Type :=
| RtCollectMetrics (collected : Metrics + string)
| RtCheckEndpoint
| RtUpdateConfig (hasConfig : bool)
| RtOther (name : string).

Record RemoteTaskResult : Type :=
  { rt_taskId : option string;
    rt_nodeId : option string;
    rt_success : bool;
    rt_result : option Metrics;
    rt_error : option string }.

(** The [data] of an outbound message. *)
Inductive Payload : Type :=
| PPing (node : option string) (timestamp : Z)
| PAuthenticate (node key : option string)
| PMetrics (node key : option string) (metrics : Metrics)
| PTaskResult (taskId : option string) (taskType : TaskType)
    (target : string) (result : TaskResult) (timestamp : Z)
| PTaskError (taskId : option string) (taskType : TaskType)
    (target : string) (error : string) (timestamp : Z)
| PRemoteTaskResult (r : RemoteTaskResult)
| PDisconnect (node : option string) (reason : string)
| POther (description : string).

Record Message : Type :=
  { msg_type : string;
    msg_data : Payload;
    msg_timestamp : Z;
    msg_priority : Priority }.

(* ------------------------------------------------------------------ *)
(** ** Configuration ([config/default.js]) *)

Record MetricFlags : Type :=
  { f_cpu : bool; f_memory : bool; f_disk : bool; f_network : bool;
    f_uptime : bool }.

Record Config : Type :=
  { monitoring_interval : Q;
    monitoring_metrics : MetricFlags;
    solana_rewardAmount : Q;
    solana_rewardInterval : Z;
    user_statusUpdateInterval : Q;
    websocket_reconnectInterval : Q;
    websocket_maxReconnectAttempts : Z }.

Definition default_config : Config :=
  {| monitoring_interval := 60000;
     monitoring_metrics :=
       {| f_cpu := true; f_memory := true; f_disk := true;
          f_network := true; f_uptime := true |};
     solana_rewardAmount := 1 # 10;
     solana_rewardInterval := 86400000;
     user_statusUpdateInterval := 300000;
     websocket_reconnectInterval := 5000;
     websocket_maxReconnectAttempts := 10 |}.

(* ------------------------------------------------------------------ *)
(** ** Connectivity manager ([services/websocket.js]) *)

Module Websocket.

Inductive TimerKind : Type :=
| Backoff   (** the callback reconnects *)
| Cooldown. (** the callback resets [reconnectAttempts], then reconnects *)

(** A handle returned by [setTimeout].  It stays in the variable after the
    timer fired or was cleared; [tm_live] tells whether it is still armed. *)
Record Timer : Type :=
  { tm_kind : TimerKind; tm_delay : Q; tm_live : bool }.

Inductive Level : Type := debug | info | warn | error.

(** The module's variables, and what it did to the outside: the messages
    the transport accepted ([wire], oldest first) and the log.
    [transport] lists the fate of the coming [ws.send] calls, [false] for
    one that throws; once the list is used up, writes succeed. *)
Record State : Type :=
  { ws : bool;
    isConnected : bool;
    reconnectAttempts : Z;
    reconnectTimeout : option Timer;
    pingInterval : bool;
    pendingMessages : list Message;
    connectionStartTime : option Z;
    wire : list Message;
    log : list (Level * string);
    transport : list bool }.

Definition initial : State :=
  {| ws := false; isConnected := false; reconnectAttempts := 0;
     reconnectTimeout := None; pingInterval := false;
     pendingMessages := []; connectionStartTime := None;
     wire := []; log := []; transport := [] |}.

(** What the environment supplies to one callback. *)
Record Env : Type :=
  { now : Z;                 (** [Date.now()] *)
    random : Q;              (** [Math.random()] *)
    socketCtorThrows : bool; (** [new WebSocket(url)] throws *)
    user : UserData }.

Definition set_ws (v : bool) (s : State) : State :=
  {| ws := v; isConnected := isConnected s;
     reconnectAttempts := reconnectAttempts s;
     reconnectTimeout := reconnectTimeout s;
     pingInterval := pingInterval s;
     pendingMessages := pendingMessages s;
     connectionStartTime := connectionStartTime s;
     wire := wire s; log := log s; transport := transport s |}.

Definition set_isConnected (v : bool) (s : State) : State :=
  {| ws := ws s; isConnected := v;
     reconnectAttempts := reconnectAttempts s;
     reconnectTimeout := reconnectTimeout s;
     pingInterval := pingInterval s;
     pendingMessages := pendingMessages s;
     connectionStartTime := connectionStartTime s;
     wire := wire s; log := log s; transport := transport s |}.

Definition set_reconnectAttempts (v : Z) (s : State) : State :=
  {| ws := ws s; isConnected := isConnected s;
     reconnectAttempts := v;
     reconnectTimeout := reconnectTimeout s;
     pingInterval := pingInterval s;
     pendingMessages := pendingMessages s;
     connectionStartTime := connectionStartTime s;
     wire := wire s; log := log s; transport := transport s |}.

Definition set_reconnectTimeout (v : option Timer) (s : State) : State :=
  {| ws := ws s; isConnected := isConnected s;
     reconnectAttempts := reconnectAttempts s;
     reconnectTimeout := v;
     pingInterval := pingInterval s;
     pendingMessages := pendingMessages s;
     connectionStartTime := connectionStartTime s;
     wire := wire s; log := log s; transport := transport s |}.

Definition set_pingInterval (v : bool) (s : State) : State :=
  {| ws := ws s; isConnected := isConnected s;
     reconnectAttempts := reconnectAttempts s;
     reconnectTimeout := reconnectTimeout s;
     pingInterval := v;
     pendingMessages := pendingMessages s;
     connectionStartTime := connectionStartTime s;
     wire := wire s; log := log s; transport := transport s |}.

Definition set_pendingMessages (v : list Message) (s : State) : State :=
  {| ws := ws s; isConnected := isConnected s;
     reconnectAttempts := reconnectAttempts s;
     reconnectTimeout := reconnectTimeout s;
     pingInterval := pingInterval s;
     pendingMessages := v;
     connectionStartTime := connectionStartTime s;
     wire := wire s; log := log s; transport := transport s |}.

Definition set_connectionStartTime (v : option Z) (s : State) : State :=
  {| ws := ws s; isConnected := isConnected s;
     reconnectAttempts := reconnectAttempts s;
     reconnectTimeout := reconnectTimeout s;
     pingInterval := pingInterval s;
     pendingMessages := pendingMessages s;
     connectionStartTime := v;
     wire := wire s; log := log s; transport := transport s |}.

Definition set_wire (v : list Message) (s : State) : State :=
  {| ws := ws s; isConnected := isConnected s;
     reconnectAttempts := reconnectAttempts s;
     reconnectTimeout := reconnectTimeout s;
     pingInterval := pingInterval s;
     pendingMessages := pendingMessages s;
     connectionStartTime := connectionStartTime s;
     wire := v; log := log s; transport := transport s |}.

Definition set_log (v : list (Level * string)) (s : State) : State :=
  {| ws := ws s; isConnected := isConnected s;
     reconnectAttempts := reconnectAttempts s;
     reconnectTimeout := reconnectTimeout s;
     pingInterval := pingInterval s;
     pendingMessages := pendingMessages s;
     connectionStartTime := connectionStartTime s;
     wire := wire s; log := v; transport := transport s |}.

Definition set_transport (v : list bool) (s : State) : State :=
  {| ws := ws s; isConnected := isConnected s;
     reconnectAttempts := reconnectAttempts s;
     reconnectTimeout := reconnectTimeout s;
     pingInterval := pingInterval s;
     pendingMessages := pendingMessages s;
     connectionStartTime := connectionStartTime s;
     wire := wire s; log := log s; transport := v |}.

Definition logger (l : Level) (text : string) (s : State) : State :=
  set_log (log s ++ [(l, text)]) s.

Definition enqueue (m : Message) (s : State) : State :=
  set_pendingMessages (pendingMessages s ++ [m]) s.

Definition transmit (m : Message) (s : State) : State :=
  set_wire (wire s ++ [m]) s.

(** [ws.send(JSON.stringify(message))] inside a [try]: [true] when the
    transport took the message, [false] when the call threw. *)
Definition wsSend (m : Message) (s : State) : bool * State :=
  match transport s with
  | [] => (true, transmit m s)
  | true :: rest => (true, transmit m (set_transport rest s))
  | false :: rest => (false, set_transport rest s)
  end.

Definition clearTimeout (t : option Timer) : option Timer :=
  match t with
  | Some tm =>
      Some {| tm_kind := tm_kind tm; tm_delay := tm_delay tm;
              tm_live := false |}
  | None => None
  end.

Section WithConfig.
Variable cfg : Config.

(** The delay computed in the first branch of scheduleReconnect, for the
    value [attempts] of the counter after its increment and the draw
    [r] of [Math.random()]. *)
Definition backoffDelay (attempts : Z) (r : Q) : Q :=
  let baseDelay := websocket_reconnectInterval cfg in
  let maxDelay := Qmin 30000 (baseDelay * 2 ^ (attempts - 1)) in
  let jitter := (r * (3 # 10) * maxDelay)%Q in
  Qmin (maxDelay + jitter) 60000.

Definition scheduleReconnect (env : Env) (s : State) : State :=
  let s := set_reconnectTimeout (clearTimeout (reconnectTimeout s)) s in
  let s := set_reconnectAttempts (reconnectAttempts s + 1) s in
  if reconnectAttempts s <=? websocket_maxReconnectAttempts cfg then
    let delay := backoffDelay (reconnectAttempts s) (random env) in
    let s := logger info "Scheduling reconnection attempt" s in
    set_reconnectTimeout
      (Some {| tm_kind := Backoff; tm_delay := delay; tm_live := true |})
      s
  else
    let s :=
      logger error
        "Maximum reconnection attempts reached, will try again in 5 minutes"
        s in
    set_reconnectTimeout
      (Some {| tm_kind := Cooldown; tm_delay := 300000; tm_live := true |})
      s.

(** [connect()].  Terminating the previous socket changes none of the
    module's variables; its close event arrives later, as an event of
    its own. *)
Definition connect (env : Env) (s : State) : State :=
  let s :=
    logger info "Connecting to main application WebSocket server" s in
  let s := set_connectionStartTime (Some (now env)) s in
  if socketCtorThrows env then
    scheduleReconnect env
      (logger error
         "Failed to connect to main application WebSocket server" s)
  else set_ws true s.

Definition pingData (env : Env) : Payload :=
  PPing (if registered (user env) then nodeId (user env) else None)
        (now env).

(** [checkConnection()], with the [sendPing] it calls as an argument.
    [send] catches what the transport throws, so sendPing returns as long
    as a write is taken after finitely many refusals.  The [catch] branch
    of checkConnection (clear [isConnected], terminate the socket,
    scheduleReconnect) runs when sendPing throws, which takes a write
    refused until the stack is exhausted; that branch is not
    represented, see [sendFrom]. *)
Definition checkConnectionWith (sendPing : State -> State)
    (env : Env) (s : State) : bool * State :=
  if negb (isConnected s) then
    let s := logger info "Connection check: WebSocket is disconnected" s in
    match reconnectTimeout s with
    | None =>
        (false,
         connect env
           (logger info "No reconnection scheduled, connecting now" s))
    | Some _ => (false, s)
    end
  else (true, sendPing s).

(** [send(type, data, priority)].  A write that throws makes send call
    checkConnection, which pings through send again: the recursion is
    on the fates [outs] left for the transport.  A transport whose writes
    throw for ever, on which this mutual recursion exhausts the stack, is
    not represented. *)
Fixpoint sendFrom (outs : list bool) (env : Env) (type : string)
    (data : Payload) (priority : Priority) (s : State) {struct outs}
    : bool * State :=
  let message :=
    {| msg_type := type; msg_data := data; msg_timestamp := now env;
       msg_priority := priority |} in
  if negb (isConnected s) then
    let s := logger warn "Cannot send message: WebSocket not connected" s in
    if is_high priority then
      (false,
       enqueue message
         (logger info "Queuing high priority message for later sending" s))
    else (false, s)
  else
    match outs with
    | [] => (true, transmit message s)
    | true :: rest => (true, transmit message (set_transport rest s))
    | false :: rest =>
        let s := set_transport rest s in
        let s := logger error "Failed to send WebSocket message" s in
        let s :=
          if is_high priority then
            enqueue message
              (logger info
                 "Queuing high priority message after send failure" s)
          else s in
        (false,
         snd (checkConnectionWith
                (fun s' =>
                   snd (sendFrom rest env "ping" (pingData env) low s'))
                env s))
    end.

Definition send (env : Env) (type : string) (data : Payload)
    (priority : Priority) (s : State) : bool * State :=
  sendFrom (transport s) env type data priority s.

Definition sendPing (env : Env) (s : State) : State :=
  snd (send env "ping" (pingData env) low s).

Definition checkConnection (env : Env) (s : State) : bool * State :=
  checkConnectionWith (sendPing env) env s.

Definition authenticate (env : Env) (node key : option string)
    (s : State) : State :=
  let s :=
    logger info
      "Authenticating WebSocket connection with main application" s in
  snd (send env "authenticate" (PAuthenticate node key) high s).

Definition sendMetrics (env : Env) (metrics : Metrics) (s : State)
    : bool * State :=
  if negb (registered (user env)) then
    (false, logger debug "Not sending metrics: User not registered" s)
  else
    send env "metrics"
      (PMetrics (nodeId (user env)) (publicKey (user env)) metrics)
      normal s.

Definition isSocketConnected (s : State) : bool := isConnected s.

(** The body of the [forEach] over the cloned queue in handleOpen. *)
Definition flushOne (s : State) (message : Message) : State :=
  let '(ok, s) := wsSend message s in
  if ok then logger debug "Sent pending message" s
  else
    let s := logger error "Failed to send pending message" s in
    if is_high (msg_priority message) then enqueue message s else s.

Definition flushPending (s : State) : State :=
  match pendingMessages s with
  | [] => s
  | _ :: _ =>
      let s := logger info "Sending pending messages" s in
      let messagesToSend := pendingMessages s in
      let s := set_pendingMessages [] s in
      fold_left flushOne messagesToSend s
  end.

Definition handleOpen (env : Env) (s : State) : State :=
  let s :=
    logger info "Connected to main application WebSocket server" s in
  let s := set_isConnected true s in
  let s := set_reconnectAttempts 0 s in
  let s :=
    match reconnectTimeout s with
    | Some _ => set_reconnectTimeout None s
    | None => s
    end in
  let s := set_pingInterval true s in
  let s :=
    if registered (user env)
    then authenticate env (nodeId (user env)) (publicKey (user env)) s
    else s in
  flushPending s.

Definition handleError (env : Env) (s : State) : State :=
  let s := logger error "WebSocket error" s in
  match connectionStartTime s with
  | Some t0 =>
      if negb (t0 =? 0) && (now env - t0 <? 5000)
      then set_reconnectAttempts (reconnectAttempts s + 2) s
      else s
  | None => s
  end.

Definition handleClose (env : Env) (s : State) : State :=
  let s := logger warn "WebSocket connection closed" s in
  let s := set_isConnected false s in
  let s := set_pingInterval false s in
  scheduleReconnect env s.

(** The callback of the timer held in [reconnectTimeout]. *)
Definition timerFired (env : Env) (s : State) : State :=
  match reconnectTimeout s with
  | Some tm =>
      if tm_live tm then
        let s := set_reconnectTimeout (clearTimeout (Some tm)) s in
        match tm_kind tm with
        | Backoff =>
            connect env
              (logger info "Attempting to reconnect to main application" s)
        | Cooldown =>
            let s := set_reconnectAttempts 0 s in
            connect env
              (logger info "Retrying connection after cooldown period" s)
        end
      else s
  | None => s
  end.

(** The callback of the interval set in handleOpen. *)
Definition pingTick (env : Env) (s : State) : State :=
  if isConnected s then sendPing env s else s.

(** An inbound frame, after [JSON.parse].  For a metrics request,
    [collected] is the snapshot once the collection has returned; [None]
    stands for a collection that throws or never returns, after which
    the handler sends nothing (its rejection is handled by nobody). *)
Inductive Inbound : Type :=
| InAuthResponse (success : bool) (err : option string)
| InPong
| InRequestMetrics (collected : option Metrics)
| InReward (txId : option string)
| InTask (taskId : option string) (task : RemoteTask)
| InServerShutdown
| InUnknown (type : option string)
| InMalformed.

Definition remoteTaskResult (env : Env) (taskId : option string)
    (task : RemoteTask) : RemoteTaskResult :=
  let blank ok res err :=
    {| rt_taskId := taskId; rt_nodeId := nodeId (user env);
       rt_success := ok; rt_result := res; rt_error := err |} in
  match task with
  | RtCollectMetrics (inl m) => blank true (Some m) None
  | RtCollectMetrics (inr e) => blank false None (Some e)
  | RtCheckEndpoint => blank false None None
  | RtUpdateConfig hasConfig => blank hasConfig None None
  | RtOther name =>
      blank false None (Some ("Unknown task type: " ++ name)%string)
  end.

Definition handleMessage (env : Env) (data : Inbound) (s : State)
    : State :=
  match data with
  | InMalformed =>
      logger error "Failed to process WebSocket message" s
  | InUnknown _ =>
      logger warn "Unknown message type"
        (logger debug "Received WebSocket message" s)
  | InAuthResponse true _ =>
      logger info "Authentication successful with main application"
        (logger debug "Received WebSocket message" s)
  | InAuthResponse false _ =>
      logger error "Authentication failed with main application"
        (logger debug "Received WebSocket message" s)
  | InPong =>
      logger debug "Received pong from main application"
        (logger debug "Received WebSocket message" s)
  | InRequestMetrics collected =>
      let s :=
        logger info "Received metrics request from main application"
          (logger debug "Received WebSocket message" s) in
      match collected with
      | Some metrics => snd (sendMetrics env metrics s)
      | None => s
      end
  | InReward _ =>
      logger info "Received reward notification from main application"
        (logger debug "Received WebSocket message" s)
  | InTask taskId task =>
      snd (send env "taskResult"
             (PRemoteTaskResult (remoteTaskResult env taskId task)) high
             (logger info
                "Received task assignment from main application"
                (logger debug "Received WebSocket message" s)))
  | InServerShutdown =>
      let s :=
        logger warn "Main application server is shutting down"
          (logger debug "Received WebSocket message" s) in
      set_reconnectAttempts (Z.max (reconnectAttempts s) 5) s
  end.

(** Everything that can run code of this module: the transport's
    signals, the timers, and the calls of its exported functions. *)
Inductive Event : Type :=
| EvOpen
| EvMessage (data : Inbound)
| EvError
| EvClose
| EvReconnectTimer
| EvPingInterval
| EvCheckInterval
| EvConnect
| EvCheckConnection
| EvSend (type : string) (data : Payload) (priority : Priority)
| EvSendMetrics (metrics : Metrics)
| EvTransport (outs : list bool).

Definition step (env : Env) (ev : Event) (s : State) : State :=
  match ev with
  | EvOpen => handleOpen env s
  | EvMessage data => handleMessage env data s
  | EvError => handleError env s
  | EvClose => handleClose env s
  | EvReconnectTimer => timerFired env s
  | EvPingInterval => pingTick env s
  | EvCheckInterval => snd (checkConnection env s)
  | EvConnect => connect env s
  | EvCheckConnection => snd (checkConnection env s)
  | EvSend type data priority => snd (send env type data priority s)
  | EvSendMetrics metrics => snd (sendMetrics env metrics s)
  | EvTransport outs => set_transport outs s
  end.

Fixpoint run (evs : list (Env * Event)) (s : State) : State :=
  match evs with
  | [] => s
  | (env, ev) :: rest => run rest (step env ev s)
  end.

Inductive reachable : State -> Prop :=
| reach_initial : reachable initial
| reach_step : forall s env ev,
    reachable s -> reachable (step env ev s).

End WithConfig.

End Websocket.

(* ------------------------------------------------------------------ *)
(** ** Telemetry pipeline, task scheduler, reward evaluator
       ([services/monitor.js]) *)

Module Monitor.

(** A promise of the host: when it settles, and how. *)
Inductive Outcome (A : Type) : Type :=
| Resolves (after : Z) (a : A)
| Rejects (after : Z) (message : string)
| Never.
Arguments Resolves {A} after a.
Arguments Rejects {A} after message.
Arguments Never {A}.

(** [Promise.race([p, timeout 5000])]: the provider wins when it settles
    strictly before the timer. *)
Definition raceWithTimeout {A : Type} (timeoutMessage : string)
    (p : Outcome A) : A + string :=
  match p with
  | Resolves t a => if t <? 5000 then inl a else inr timeoutMessage
  | Rejects t e => if t <? 5000 then inr e else inr timeoutMessage
  | Never => inr timeoutMessage
  end.

Inductive HttpOutcome : Type :=
| HttpResponse (status : Z) (body : option string) (elapsed : Z)
| HttpError (message : string) (elapsed : Z).

(** What the host and the collaborators answer during one callback. *)
Record Host : Type :=
  { wsEnv : Websocket.Env;
    os_platform : string;
    os_arch : string;
    os_hostname : string;
    os_uptime : Q;
    process_uptime : Q;
    os_cpus : list CpuInfo;
    osUtils_cpuUsage : option jsnum; (** [None]: the callback never comes *)
    os_totalmem : Z;
    os_freemem : Z;
    si_fsSize : Outcome (list FsSize);
    si_networkStats : Outcome (list NetStat);
    fs_writeOk : bool;
    axios : HttpOutcome;
    solana_sendReward : jsnum -> option string; (** [None]: it throws *)
    generatedId : string }.

Definition clock (host : Host) : Z := Websocket.now (wsEnv host).

(** [monitoringData.metrics.uptime]: [{}] at start, then whatever the
    last snapshot had, possibly [undefined]. *)
Inductive UptimeField : Type :=
| UptimeEmpty
| UptimeUndefined
| UptimeValue (u : UptimeReading).

Record CurrentMetrics : Type :=
  { c_cpu : Domain CpuReading;
    c_memory : Domain MemoryReading;
    c_disk : Domain (list DiskReading);
    c_network : Domain (list NetReading);
    c_uptime : UptimeField }.

Record Errors : Type :=
  { count : Z; lastError : option (Z * string) }.

(** [monitoringData].  Tasks are objects shared between the array, the
    closures of their cron jobs and the caller: the array holds
    references into [objects] of the world below. *)
Record MonitoringData : Type :=
  { startTime : Z;
    lastRewardTime : option Z;
    metrics : CurrentMetrics;
    monitoringTasks : list nat;
    history : list HistoryPoint;
    errors : Errors }.

(** The content of [data/monitoring.json], after [JSON.parse]. *)
Record Persisted : Type :=
  { p_startTime : option Z;
    p_lastRewardTime : option (option Z);
    p_history : option (list HistoryPoint);
    p_monitoringTasks : option (list Task) }.

Inductive File : Type :=
| FileMissing
| FileUnreadable
| FileNull
| FileData (data : Persisted).

(** The expression given to [cron.schedule]: [EveryMinutes n] is
    [*/n * * * *], which node-cron fires at the minutes of each hour that
    are multiples of [n] (a period of [n] minutes only when [n] divides
    60); [CronExpression] is the string of a task, taken as it is. *)
Inductive Cadence : Type :=
| EveryMinutes (minutes : Z)
| CronExpression (expr : string).

(** What a registered cron callback does. *)
Inductive Action : Type :=
| MetricsJob
| PersistJob
| TaskJob (task : nat) (reportsErrors : bool).

Record Job : Type := { job_cadence : Cadence; job_action : Action }.

Record World : Type :=
  { monitoringData : MonitoringData;
    objects : list Task;
    cronJobs : list Job;
    file : File;
    socket : Websocket.State }.

Definition initialData (loadedAt : Z) : MonitoringData :=
  {| startTime := loadedAt;
     lastRewardTime := None;
     metrics :=
       {| c_cpu := NoReading; c_memory := NoReading; c_disk := NoReading;
          c_network := NoReading; c_uptime := UptimeEmpty |};
     monitoringTasks := [];
     history := [];
     errors := {| count := 0; lastError := None |} |}.

Definition initialWorld (loadedAt : Z) (f : File) : World :=
  {| monitoringData := initialData loadedAt;
     objects := [];
     cronJobs := [];
     file := f;
     socket := Websocket.initial |}.

Definition set_lastRewardTime (v : option Z) (d : MonitoringData)
    : MonitoringData :=
  {| startTime := startTime d; lastRewardTime := v; metrics := metrics d;
     monitoringTasks := monitoringTasks d; history := history d;
     errors := errors d |}.

Definition set_metrics (v : CurrentMetrics) (d : MonitoringData)
    : MonitoringData :=
  {| startTime := startTime d; lastRewardTime := lastRewardTime d;
     metrics := v; monitoringTasks := monitoringTasks d;
     history := history d; errors := errors d |}.

Definition set_monitoringTasks (v : list nat) (d : MonitoringData)
    : MonitoringData :=
  {| startTime := startTime d; lastRewardTime := lastRewardTime d;
     metrics := metrics d; monitoringTasks := v; history := history d;
     errors := errors d |}.

Definition set_history (v : list HistoryPoint) (d : MonitoringData)
    : MonitoringData :=
  {| startTime := startTime d; lastRewardTime := lastRewardTime d;
     metrics := metrics d; monitoringTasks := monitoringTasks d;
     history := v; errors := errors d |}.

Definition set_errors (v : Errors) (d : MonitoringData) : MonitoringData :=
  {| startTime := startTime d; lastRewardTime := lastRewardTime d;
     metrics := metrics d; monitoringTasks := monitoringTasks d;
     history := history d; errors := v |}.

Definition set_monitoringData (v : MonitoringData) (w : World) : World :=
  {| monitoringData := v; objects := objects w; cronJobs := cronJobs w;
     file := file w; socket := socket w |}.

Definition set_objects (v : list Task) (w : World) : World :=
  {| monitoringData := monitoringData w; objects := v;
     cronJobs := cronJobs w; file := file w; socket := socket w |}.

Definition set_cronJobs (v : list Job) (w : World) : World :=
  {| monitoringData := monitoringData w; objects := objects w;
     cronJobs := v; file := file w; socket := socket w |}.

Definition set_file (v : File) (w : World) : World :=
  {| monitoringData := monitoringData w; objects := objects w;
     cronJobs := cronJobs w; file := v; socket := socket w |}.

Definition set_socket (v : Websocket.State) (w : World) : World :=
  {| monitoringData := monitoringData w; objects := objects w;
     cronJobs := cronJobs w; file := file w; socket := v |}.

Definition updateData (f : MonitoringData -> MonitoringData) (w : World)
    : World :=
  set_monitoringData (f (monitoringData w)) w.

(** The task objects the array refers to, in array order. *)
Definition tasksOf (w : World) : list Task :=
  flat_map
    (fun r => match nth_error (objects w) r with
              | Some t => [t]
              | None => []
              end)
    (monitoringTasks (monitoringData w)).

Fixpoint replaceAt {A : Type} (i : nat) (x : A) (l : list A) : list A :=
  match l, i with
  | [], _ => []
  | _ :: l', O => x :: l'
  | y :: l', S i' => y :: replaceAt i' x l'
  end.

(** [array.findIndex(p)], [None] for -1. *)
Fixpoint findIndex {A : Type} (p : A -> bool) (l : list A) : option nat :=
  match l with
  | [] => None
  | x :: l' =>
      if p x then Some O
      else match findIndex p l' with
           | Some i => Some (S i)
           | None => None
           end
  end.

(** [array.splice(i, 1)] *)
Fixpoint removeAt {A : Type} (i : nat) (l : list A) : list A :=
  match l, i with
  | [], _ => []
  | _ :: l', O => l'
  | y :: l', S i' => y :: removeAt i' l'
  end.

Definition optionStringEq (a b : option string) : bool :=
  match a, b with
  | Some x, Some y => String.eqb x y
  | None, None => true
  | _, _ => false
  end.

(* ---------------------------------------------------------------- *)
(** *** Persistence *)

Definition persistData (host : Host) (w : World) : bool * World :=
  if fs_writeOk host then
    let d := monitoringData w in
    (true,
     set_file
       (FileData
          {| p_startTime := Some (startTime d);
             p_lastRewardTime := Some (lastRewardTime d);
             p_history := Some (history d);
             p_monitoringTasks := Some (tasksOf w) |})
       w)
  else (false, w).

(** [data.startTime || currentStartTime] *)
Definition orCurrent (persisted : option Z) (current : Z) : Z :=
  match persisted with
  | Some t => if t =? 0 then current else t
  | None => current
  end.

Definition loadPersistedData (w : World) : World :=
  match file w with
  | FileData data =>
      let d := monitoringData w in
      let currentStartTime := startTime d in
      let base := List.length (objects w) in
      let tasks :=
        match p_monitoringTasks data with Some l => l | None => [] end in
      let d' :=
        {| startTime :=
             Z.min currentStartTime
               (orCurrent (p_startTime data) currentStartTime);
           lastRewardTime :=
             match p_lastRewardTime data with
             | Some v => v
             | None => lastRewardTime d
             end;
           metrics := metrics d;
           monitoringTasks :=
             match p_monitoringTasks data with
             | Some l => seq base (List.length l)
             | None => monitoringTasks d
             end;
           history :=
             match p_history data with
             | Some h => h
             | None => history d
             end;
           errors := errors d |} in
      set_objects (objects w ++ tasks) (set_monitoringData d' w)
  | FileMissing | FileUnreadable | FileNull => w
  end.

(* ---------------------------------------------------------------- *)
(** *** Collection and processing *)

Inductive Collected : Type :=
| Returned (m : Metrics)
| Threw (message : string)
| Hangs.

Definition diskReading (disk : FsSize) : DiskReading :=
  {| dk_fs := fs_fs disk; dk_type := fs_type disk; dk_size := fs_size disk;
     dk_used := fs_used disk; dk_available := fs_available disk;
     dk_usagePercentage := fs_use disk |}.

Definition netReading (net : NetStat) : NetReading :=
  {| nt_interface := ns_iface net; nt_rxBytes := ns_rx_bytes net;
     nt_txBytes := ns_tx_bytes net; nt_rxErrors := ns_rx_errors net;
     nt_txErrors := ns_tx_errors net |}.

Definition taskStatus (task : Task) : TaskStatus :=
  {| ts_id := t_id task; ts_name := t_name task; ts_type := t_type task;
     ts_target := t_target task; ts_lastRunTime := t_lastRunTime task;
     ts_lastResult :=
       match t_lastResult task with
       | Some r => Some (r_success r, r_timestamp r)
       | None => None
       end |}.

Definition guarded {A B : Type} (timeoutMessage : string)
    (keep : A -> B) (p : Outcome (list A)) : Domain (list B) :=
  match raceWithTimeout timeoutMessage p with
  | inl l => Reading (map keep l)
  | inr e => ErrorMarker e
  end.

Section WithConfig.
Variable cfg : Config.
Let flags := monitoring_metrics cfg.

(** [collectMetrics()].  One reading of the clock stands for the
    [Date.now()] of the timestamp and for the one of the client uptime,
    which the code takes before and after the awaited providers. *)
Definition collectMetrics (host : Host) (w : World) : Collected :=
  let system :=
    {| sys_platform := os_platform host; sys_arch := os_arch host;
       sys_hostname := os_hostname host; sys_uptime := os_uptime host |} in
  let memory :=
    if f_memory flags then
      let totalMemory := os_totalmem host in
      let freeMemory := os_freemem host in
      let usedMemory := totalMemory - freeMemory in
      Reading
        {| mem_total := totalMemory; mem_free := freeMemory;
           mem_used := usedMemory;
           mem_usagePercentage :=
             mul (div (of_Z usedMemory) (of_Z totalMemory)) (Fin 100) |}
    else NoReading in
  let disk :=
    if f_disk flags
    then guarded "Disk metrics collection timeout" diskReading
           (si_fsSize host)
    else NoReading in
  let network :=
    if f_network flags
    then guarded "Network metrics collection timeout" netReading
           (si_networkStats host)
    else NoReading in
  let uptime :=
    if f_uptime flags then
      Some {| up_system := os_uptime host;
              up_process := process_uptime host;
              up_client :=
                inject_Z (clock host - startTime (monitoringData w))
                / 1000 |}
    else None in
  let tasks :=
    match monitoringTasks (monitoringData w) with
    | [] => None
    | _ :: _ => Some (map taskStatus (tasksOf w))
    end in
  let finish cpu :=
    Returned
      {| m_timestamp := clock host; m_system := system; m_cpu := cpu;
         m_memory := memory; m_disk := disk; m_network := network;
         m_uptime := uptime; m_tasks := tasks |} in
  if f_cpu flags then
    match osUtils_cpuUsage host with
    | None => Hangs
    | Some cpuLoad =>
        match os_cpus host with
        | [] =>
            Threw "Cannot read properties of undefined (reading 'model')"
        | first :: _ =>
            finish
              (Reading
                 {| cpu_usage := mul cpuLoad (Fin 100);
                    cpu_cores := List.length (os_cpus host);
                    cpu_model := ci_model first;
                    cpu_speed := ci_speed first |})
        end
    end
  else finish NoReading.

Definition usageOf (cpu : Domain CpuReading) : option jsnum :=
  match cpu with Reading r => Some (cpu_usage r) | _ => None end.

Definition usagePercentageOf (memory : Domain MemoryReading)
    : option jsnum :=
  match memory with
  | Reading r => Some (mem_usagePercentage r)
  | _ => None
  end.

Definition uptimeField (u : option UptimeReading) : UptimeField :=
  match u with Some v => UptimeValue v | None => UptimeUndefined end.

(** The point processMetrics pushes for a snapshot with uptime readings. *)
Definition historyPoint (m : Metrics) (uptime : UptimeReading)
    : HistoryPoint :=
  {| h_timestamp := m_timestamp m; h_cpu := usageOf (m_cpu m);
     h_memory := usagePercentageOf (m_memory m);
     h_uptime := up_client uptime |}.

(** [history.push(point); if (history.length > 100) history.shift()] *)
Definition pushHistory (point : HistoryPoint) (h : list HistoryPoint)
    : list HistoryPoint :=
  let h := h ++ [point] in
  if (100 <? List.length h)%nat then tl h else h.

(** [processMetrics(metrics)]; the first component is the message of
    the TypeError it threw, if it did, after the updates made by then. *)
Definition processMetrics (host : Host) (m : Metrics) (w : World)
    : option string * World :=
  let w :=
    updateData
      (set_metrics
         {| c_cpu := m_cpu m; c_memory := m_memory m;
            c_disk := m_disk m; c_network := m_network m;
            c_uptime := uptimeField (m_uptime m) |})
      w in
  match m_uptime m with
  | None =>
      (Some "Cannot read properties of undefined (reading 'client')"%string,
       w)
  | Some uptime =>
      let point := historyPoint m uptime in
      let w :=
        updateData
          (fun d => set_history (pushHistory point (history d)) d) w in
      let w :=
        if Websocket.isSocketConnected (socket w) then
          set_socket
            (snd (Websocket.sendMetrics cfg (wsEnv host) m (socket w))) w
        else
          set_socket
            (Websocket.logger Websocket.warn
               "WebSocket disconnected, metrics not sent to main application"
               (socket w))
            w in
      match usageOf (m_cpu m), usagePercentageOf (m_memory m) with
      | Some _, Some _ => (None, w)
      | _, _ =>
          (Some
             "Cannot read properties of undefined (reading 'toFixed')"%string,
           w)
      end
  end.

Definition handleMetricsError (host : Host) (message : string)
    (w : World) : World :=
  let w :=
    updateData
      (fun d =>
         set_errors
           {| count := count (errors d) + 1;
              lastError := Some (clock host, message) |}
           d)
      w in
  if (5 <=? count (errors (monitoringData w)))
     && negb (Websocket.isSocketConnected (socket w))
  then set_socket (Websocket.connect cfg (wsEnv host) (socket w)) w
  else w.

(** The callback of the metrics cron job registered by init. *)
Definition metricsJob (host : Host) (w : World) : World :=
  match collectMetrics host w with
  | Hangs => w
  | Threw e => handleMetricsError host e w
  | Returned m =>
      let '(threw, w) := processMetrics host m w in
      match threw with
      | Some e => handleMetricsError host e w
      | None =>
          let w :=
            if 0 <? count (errors (monitoringData w)) then
              updateData
                (set_errors {| count := 0; lastError := None |}) w
            else w in
          snd (persistData host w)
      end
  end.

(* -------------------------------------------------------------- *)
(** *** Monitoring tasks *)

Definition typeName (t : TaskType) : string :=
  match t with
  | http => "http"
  | ping => "ping"
  | tcp => "tcp"
  | dns => "dns"
  | otherType name => name
  end.

(** [Math.max(1, Math.ceil(interval / 60000))] minutes, or the cron
    expression as given. *)
Definition taskCadence (i : Interval) : Cadence :=
  match i with
  | IntervalMs ms => EveryMinutes (Z.max 1 (Qceiling (ms / 60000)))
  | IntervalCron expr => CronExpression expr
  end.

Definition notImplemented (text : string) (at_ : Z) : TaskResult :=
  {| r_success := false; r_statusCode := None; r_responseTime := None;
     r_contentValid := None; r_responseTimeValid := None;
     r_error := Some text; r_timestamp := at_ |}.

Definition nonEmpty (s : option string) : option string :=
  match s with
  | Some EmptyString | None => None
  | Some s' => Some s'
  end.

Definition checkHttpEndpoint (host : Host) (task : Task) : TaskResult :=
  match axios host with
  | HttpResponse status body elapsed =>
      let responseTime := elapsed in
      let validStatusCodes :=
        match t_validStatusCodes task with
        | Some l => l
        | None => [200]
        end in
      let isValidStatus := existsb (Z.eqb status) validStatusCodes in
      let contentValid :=
        match nonEmpty (t_keyword task), nonEmpty body with
        | Some keyword, Some responseText => includes keyword responseText
        | _, _ => true
        end in
      let isResponseTimeValid :=
        match t_maxResponseTime task with
        | Some maxResponseTime =>
            (maxResponseTime =? 0) || (responseTime <=? maxResponseTime)
        | None => true
        end in
      {| r_success := isValidStatus && contentValid && isResponseTimeValid;
         r_statusCode := Some status;
         r_responseTime := Some responseTime;
         r_contentValid := Some contentValid;
         r_responseTimeValid := Some isResponseTimeValid;
         r_error := None;
         r_timestamp := clock host + elapsed |}
  | HttpError message elapsed =>
      {| r_success := false; r_statusCode := None;
         r_responseTime := Some elapsed; r_contentValid := None;
         r_responseTimeValid := None; r_error := Some message;
         r_timestamp := clock host + elapsed |}
  end.

(** [executeMonitoringTask(task)]; [inr] is the message of the Error it
    throws for an unknown type. *)
Definition executeMonitoringTask (host : Host) (task : Task)
    : TaskResult + string :=
  match t_type task with
  | http => inl (checkHttpEndpoint host task)
  | ping => inl (notImplemented "Ping check not implemented yet" (clock host))
  | tcp => inl (notImplemented "TCP check not implemented yet" (clock host))
  | dns => inl (notImplemented "DNS check not implemented yet" (clock host))
  | otherType name => inr ("Unknown task type: " ++ name)%string
  end.

(** The callback [cron.schedule] is given for the task object [ref];
    scheduleMonitoringTasks also reports a failure to the aggregator
    ([reportsErrors]), scheduleMonitoringTask only logs it. *)
Definition taskJob (host : Host) (ref : nat) (reportsErrors : bool)
    (w : World) : World :=
  match nth_error (objects w) ref with
  | None => w
  | Some task =>
      match executeMonitoringTask host task with
      | inl result =>
          let w :=
            set_socket
              (snd (Websocket.send cfg (wsEnv host) "taskResult"
                      (PTaskResult (t_id task) (t_type task)
                         (t_target task) result (r_timestamp result))
                      normal (socket w)))
              w in
          let task :=
            {| t_id := t_id task; t_name := t_name task;
               t_type := t_type task; t_target := t_target task;
               t_interval := t_interval task;
               t_validStatusCodes := t_validStatusCodes task;
               t_keyword := t_keyword task;
               t_maxResponseTime := t_maxResponseTime task;
               t_lastRunTime := Some (r_timestamp result);
               t_lastResult := Some result |} in
          let w := set_objects (replaceAt ref task (objects w)) w in
          snd (persistData host w)
      | inr message =>
          if reportsErrors then
            set_socket
              (snd (Websocket.send cfg (wsEnv host) "taskError"
                      (PTaskError (t_id task) (t_type task)
                         (t_target task) message (clock host))
                      normal (socket w)))
              w
          else w
      end
  end.

(** [cron.schedule(expression, callback)]: the job is added.  node-cron
    throws on an expression it does not accept; that is not represented,
    so what is stated about added or loaded tasks is for expressions it
    accepts. *)
Definition register (cadence : Cadence) (action : Action) (w : World)
    : World :=
  set_cronJobs
    (cronJobs w ++ [{| job_cadence := cadence; job_action := action |}])
    w.

Definition scheduleOne (reportsErrors : bool) (w : World) (ref : nat)
    : World :=
  match nth_error (objects w) ref with
  | Some task =>
      register (taskCadence (t_interval task)) (TaskJob ref reportsErrors)
        w
  | None => w
  end.

Definition scheduleMonitoringTasks (w : World) : World :=
  fold_left (scheduleOne true) (monitoringTasks (monitoringData w)) w.

Definition scheduleMonitoringTask (ref : nat) (w : World) : World :=
  scheduleOne false w ref.

(** [addMonitoringTask(task)]: the caller's object gets its id and name
    filled in, and it is that object the array and the job hold. *)
Definition addMonitoringTask (host : Host) (task : Task) (w : World)
    : option string * World :=
  let id :=
    match nonEmpty (t_id task) with
    | Some i => Some i
    | None => Some (generatedId host)
    end in
  let name :=
    match nonEmpty (t_name task) with
    | Some n => Some n
    | None =>
        Some (typeName (t_type task) ++ "_" ++ t_target task)%string
    end in
  let task :=
    {| t_id := id; t_name := name; t_type := t_type task;
       t_target := t_target task; t_interval := t_interval task;
       t_validStatusCodes := t_validStatusCodes task;
       t_keyword := t_keyword task;
       t_maxResponseTime := t_maxResponseTime task;
       t_lastRunTime := t_lastRunTime task;
       t_lastResult := t_lastResult task |} in
  let ref := List.length (objects w) in
  let w := set_objects (objects w ++ [task]) w in
  let w :=
    updateData
      (fun d => set_monitoringTasks (monitoringTasks d ++ [ref]) d) w in
  let w := scheduleMonitoringTask ref w in
  (id, snd (persistData host w)).

Definition hasId (w : World) (taskId : option string) (ref : nat) : bool :=
  match nth_error (objects w) ref with
  | Some task => optionStringEq (t_id task) taskId
  | None => false
  end.

Definition removeMonitoringTask (host : Host) (taskId : option string)
    (w : World) : bool * World :=
  match findIndex (hasId w taskId) (monitoringTasks (monitoringData w)) with
  | Some index =>
      let w :=
        updateData
          (fun d =>
             set_monitoringTasks (removeAt index (monitoringTasks d)) d)
          w in
      (true, snd (persistData host w))
  | None => (false, w)
  end.

(* -------------------------------------------------------------- *)
(** *** Reward evaluator *)

Inductive RewardOutcome : Type :=
| NotYetTime
| UptimeTooLow (uptimePercentage : jsnum)
| Rewarded (rewardAmount : jsnum) (txId : string)
| RewardFailed (rewardAmount : jsnum)
| RewardThrew.

(** [monitoringData.metrics.uptime.client]: [None] when reading it
    throws, [Some None] when it is [undefined]. *)
Definition clientUptime (d : MonitoringData) : option (option jsnum) :=
  match c_uptime (metrics d) with
  | UptimeValue u => Some (Some (Fin (up_client u)))
  | UptimeEmpty => Some None
  | UptimeUndefined => None
  end.

Definition totalTime (now : Z) (d : MonitoringData) : Z :=
  if truthyTime (lastRewardTime d)
  then now - match lastRewardTime d with Some t => t | None => 0 end
  else now - startTime d.

(** [(client * 1000 / totalTime) * 100] in exact arithmetic;
    [Rewards.uptimePercentage] is the same with the rounding of the
    machine. *)
Definition uptimePercentage (now : Z) (d : MonitoringData)
    : option jsnum :=
  match clientUptime d with
  | Some client =>
      Some (mul (div (mul (of_undefined client) (Fin 1000))
                     (of_Z (totalTime now d)))
                (Fin 100))
  | None => None
  end.

Definition rewardAmountFor (uptimePercentage : jsnum) : jsnum :=
  let rewardMultiplier := div uptimePercentage (Fin 100) in
  mul (Fin (solana_rewardAmount cfg)) rewardMultiplier.

(** The first test of distributeRewards:
    [lastRewardTime && now - lastRewardTime < rewardInterval]. *)
Definition notYetTime (now : Z) (d : MonitoringData) : bool :=
  match lastRewardTime d with
  | Some t => negb (t =? 0) && (now - t <? solana_rewardInterval cfg)
  | None => false
  end.

Definition distributeRewards (host : Host) (w : World)
    : RewardOutcome * World :=
  let now := clock host in
  let d := monitoringData w in
  if notYetTime now d then (NotYetTime, w)
  else
    match uptimePercentage now d with
    | None => (RewardThrew, w)
    | Some pct =>
        if geb pct (Fin 90) then
          let rewardAmount := rewardAmountFor pct in
          match solana_sendReward host rewardAmount with
          | Some txId =>
              (Rewarded rewardAmount txId,
               updateData (set_lastRewardTime (Some now)) w)
          | None => (RewardFailed rewardAmount, w)
          end
        else (UptimeTooLow pct, w)
    end.

(* -------------------------------------------------------------- *)
(** *** Query surface *)

Record Status : Type :=
  { st_errors : Z; st_lastError : option (Z * string);
    st_healthy : bool }.

Record Report : Type :=
  { rp_current : CurrentMetrics;
    rp_history : list HistoryPoint;
    rp_since : Z;
    rp_lastReward : option Z;
    rp_tasks : list Task;
    rp_status : Status }.

Definition report (w : World) : Report :=
  let d := monitoringData w in
  {| rp_current := metrics d;
     rp_history := history d;
     rp_since := startTime d;
     rp_lastReward := lastRewardTime d;
     rp_tasks := tasksOf w;
     rp_status :=
       {| st_errors := count (errors d);
          st_lastError := lastError (errors d);
          st_healthy := count (errors d) <? 3 |} |}.

(** [!monitoringData.metrics.cpu.usage] *)
Definition lacksCpuUsage (d : MonitoringData) : bool :=
  match usageOf (c_cpu (metrics d)) with
  | Some usage => negb (truthy usage)
  | None => true
  end.

(** [getMetrics()]; no report when the collection it awaits never
    settles. *)
Definition getMetrics (host : Host) (w : World) : option Report * World :=
  if lacksCpuUsage (monitoringData w) then
    match collectMetrics host w with
    | Returned m =>
        let w := snd (processMetrics host m w) in
        (Some (report w), w)
    | Threw _ => (Some (report w), w)
    | Hangs => (None, w)
    end
  else (Some (report w), w).

(* -------------------------------------------------------------- *)
(** *** Initialisation and the jobs it registers *)

Definition init (host : Host) (w : World) : World :=
  let w := loadPersistedData w in
  let w :=
    register
      (EveryMinutes (Qceiling (monitoring_interval cfg / 60000)))
      MetricsJob w in
  let w :=
    match monitoringTasks (monitoringData w) with
    | [] => w
    | _ :: _ => scheduleMonitoringTasks w
    end in
  let w := register (EveryMinutes 30) PersistJob w in
  match collectMetrics host w with
  | Returned m =>
      let '(threw, w') := processMetrics host m w in
      match threw with
      | Some e => handleMetricsError host e w'
      | None => w'
      end
  | Threw e => handleMetricsError host e w
  | Hangs => w
  end.

(** One firing of a registered job. *)
Definition runJob (host : Host) (j : Job) (w : World) : World :=
  match job_action j with
  | MetricsJob => metricsJob host w
  | PersistJob => snd (persistData host w)
  | TaskJob ref reportsErrors => taskJob host ref reportsErrors w
  end.

End WithConfig.

End Monitor.

(* ------------------------------------------------------------------ *)
(** ** Who runs what ([index.js] and the three services)

    Every function and every callback of the program is a [Routine];
    [invokes r] lists the routines the body of [r] calls directly or
    registers as a callback (cron job, timer, interval, event listener,
    promise continuation, entry of the handler table, HTTP route).  The
    interactive setup script is a program of its own and loads none of
    the services. *)

Module Agent.

Inductive Routine : Type :=
(* index.js *)
| index_main | index_init | index_setupGracefulShutdown
| route_health | route_metrics | route_status
| cb_statusUpdateCron | cb_autoRegisterTimeout | cb_shutdownSignal
| cb_forcedExitTimeout
(* services/monitor.js *)
| monitor_init | cb_metricsCron | cb_initialMetricsThen
| cb_initialMetricsCatch | cb_persistCron | cb_persistOnSignal
| scheduleMonitoringTasks | cb_taskCronReporting
| executeMonitoringTask | checkHttpEndpoint | checkPing | checkTcpPort
| checkDns | addMonitoringTask | scheduleMonitoringTask | cb_taskCron
| removeMonitoringTask | loadPersistedData | persistData
| handleMetricsError | collectMetrics | processMetrics
| distributeRewards | getMetrics
(* services/websocket.js *)
| ws_init | cb_checkInterval | connect | handleOpen | cb_pingInterval
| handleMessage | handleError | handleClose | scheduleReconnect
| cb_reconnectTimeout | cb_cooldownTimeout | checkConnection | send
| sendPing | authenticate | sendMetrics | registerMessageHandlers
| on_authResponse | cb_reRegisterTimeout | on_pong | on_requestMetrics
| on_reward | on_task | on_serverShutdown | isSocketConnected
(* services/solana.js *)
| solana_init | initializeTokenAccount | findAssociatedTokenAddress
| sendReward | sendSolReward | sendTokenReward | verifyTransaction
| getWalletPublicKey | solana_isConnected
(* services/user.js *)
| user_init | saveUserData | registerUser | updateStatus | getGeolocation
| isRegistered | getUserData
(* the legacy socket.io client, loaded by nothing *)
| kuma_connect | cb_kumaConnect | cb_kumaRequestMetrics | kuma_disconnect
| kuma_registerMonitor | kuma_sendMetrics | kuma_isSocketConnected.

Definition invokes (r : Routine) : list Routine :=
  match r with
  | index_main =>
      [route_health; route_metrics; route_status; index_init]
  | index_init =>
      [user_init; solana_init; monitor_init; ws_init;
       cb_statusUpdateCron; cb_autoRegisterTimeout;
       index_setupGracefulShutdown]
  | index_setupGracefulShutdown => [cb_shutdownSignal]
  | route_health => []
  | route_metrics => [getMetrics]
  | route_status =>
      [isRegistered; getUserData; solana_isConnected; isSocketConnected]
  | cb_statusUpdateCron => [isRegistered; updateStatus]
  | cb_autoRegisterTimeout => [isRegistered; registerUser]
  | cb_shutdownSignal =>
      [isRegistered; isSocketConnected; send; getUserData;
       cb_forcedExitTimeout]
  | cb_forcedExitTimeout => []
  | monitor_init =>
      [loadPersistedData; cb_metricsCron; scheduleMonitoringTasks;
       collectMetrics; cb_initialMetricsThen; cb_initialMetricsCatch;
       cb_persistCron; cb_persistOnSignal]
  | cb_metricsCron =>
      [collectMetrics; processMetrics; persistData; handleMetricsError]
  | cb_initialMetricsThen => [processMetrics]
  | cb_initialMetricsCatch => [handleMetricsError]
  | cb_persistCron => [persistData]
  | cb_persistOnSignal => [persistData]
  | scheduleMonitoringTasks => [cb_taskCronReporting]
  | cb_taskCronReporting => [executeMonitoringTask; send; persistData]
  | executeMonitoringTask =>
      [checkHttpEndpoint; checkPing; checkTcpPort; checkDns]
  | checkHttpEndpoint => []
  | checkPing => []
  | checkTcpPort => []
  | checkDns => []
  | addMonitoringTask => [scheduleMonitoringTask; persistData]
  | scheduleMonitoringTask => [cb_taskCron]
  | cb_taskCron => [executeMonitoringTask; send; persistData]
  | removeMonitoringTask => [persistData]
  | loadPersistedData => []
  | persistData => []
  | handleMetricsError => [isSocketConnected; connect]
  | collectMetrics => []
  | processMetrics => [isSocketConnected; sendMetrics]
  | distributeRewards => [sendReward]
  | getMetrics => [collectMetrics; processMetrics]
  | ws_init => [connect; registerMessageHandlers; cb_checkInterval]
  | cb_checkInterval => [checkConnection]
  | connect =>
      [handleOpen; handleMessage; handleError; handleClose;
       scheduleReconnect]
  | handleOpen =>
      [cb_pingInterval; isRegistered; getUserData; authenticate]
  | cb_pingInterval => [sendPing]
  | handleMessage =>
      [on_authResponse; on_pong; on_requestMetrics; on_reward; on_task;
       on_serverShutdown]
  | handleError => []
  | handleClose => [scheduleReconnect]
  | scheduleReconnect => [cb_reconnectTimeout; cb_cooldownTimeout]
  | cb_reconnectTimeout => [connect]
  | cb_cooldownTimeout => [connect]
  | checkConnection => [connect; sendPing; scheduleReconnect]
  | send => [checkConnection]
  | sendPing => [send; isRegistered; getUserData]
  | authenticate => [send]
  | sendMetrics => [isRegistered; getUserData; send]
  | registerMessageHandlers =>
      [on_authResponse; on_pong; on_requestMetrics; on_reward; on_task;
       on_serverShutdown]
  | on_authResponse => [getUserData; cb_reRegisterTimeout]
  | cb_reRegisterTimeout => [registerUser]
  | on_pong => []
  | on_requestMetrics => [collectMetrics; sendMetrics]
  | on_reward => [verifyTransaction]
  | on_task => [getUserData; collectMetrics; send]
  | on_serverShutdown => []
  | isSocketConnected => []
  | solana_init => [initializeTokenAccount]
  | initializeTokenAccount => []
  | findAssociatedTokenAddress => []
  | sendReward => [sendTokenReward; sendSolReward]
  | sendSolReward => []
  | sendTokenReward => [findAssociatedTokenAddress]
  | verifyTransaction => []
  | getWalletPublicKey => []
  | solana_isConnected => []
  | user_init => []
  | saveUserData => []
  | registerUser => [getGeolocation; saveUserData]
  | updateStatus => [saveUserData]
  | getGeolocation => []
  | isRegistered => []
  | getUserData => []
  | kuma_connect => [cb_kumaConnect; cb_kumaRequestMetrics]
  | cb_kumaConnect => [kuma_registerMonitor]
  | cb_kumaRequestMetrics => [collectMetrics; kuma_sendMetrics]
  | kuma_disconnect => []
  | kuma_registerMonitor => []
  | kuma_sendMetrics => []
  | kuma_isSocketConnected => []
  end.

(** [module.exports] of [services/monitor.js]. *)
Definition monitor_exports : list Routine :=
  [monitor_init; collectMetrics; getMetrics; addMonitoringTask;
   removeMonitoringTask].

(** The routines that run in some execution of the agent: the program
    entry, and whatever a running routine calls or registers. *)
Inductive runs : Routine -> Prop :=
| runs_entry : runs index_main
| runs_invoked : forall r r', runs r -> In r' (invokes r) -> runs r'.

End Agent.

(* ------------------------------------------------------------------ *)
(** ** Registration service ([services/user.js])

    [null] and [undefined] are both [None]: the service only tests these
    values for truthiness.  The module variable [userData] is itself
    [None] after a file holding [null] has been loaded. *)

Module User.

Record GeoData : Type :=
  { ip : option string; city : option string; region : option string;
    country : option string; countryCode : option string;
    latitude : option Q; longitude : option Q;
    timezone : option string }.

(** [response.data] of the geolocation service. *)
Record IpApi : Type :=
  { api_ip : option string; api_city : option string;
    api_region : option string; api_country_name : option string;
    api_country_code : option string; api_latitude : option Q;
    api_longitude : option Q; api_timezone : option string }.

Record Profile : Type :=
  { registered : bool; publicKey : option string; nodeId : option string;
    geolocation : option GeoData; registrationTime : option Z;
    lastPing : option Z }.

(** The initial value of [userData]. *)
Definition defaults : Profile :=
  {| registered := false; publicKey := None; nodeId := None;
     geolocation := None; registrationTime := None; lastPing := None |}.

(** [data/user.json] *)
Inductive File : Type :=
| FileMissing
| FileUnreadable
| FileNull
| FileData (p : Profile).

Record State : Type := { userData : option Profile; file : File }.

Definition initial (f : File) : State :=
  {| userData := Some defaults; file := f |}.

Definition set_userData (v : option Profile) (st : State) : State :=
  {| userData := v; file := file st |}.

Definition set_file (v : File) (st : State) : State :=
  {| userData := userData st; file := v |}.

(** The answer of the geolocation service: the request fails, the
    response has no data, or it has some. *)
Inductive GeoAnswer : Type :=
| GeoThrows
| GeoEmpty
| GeoAnswered (d : IpApi).

(** The answer of the main application to a POST: the request fails with
    [message]; [response.data] is falsy ([typeError] is the message of
    the TypeError that reading a property of [null] or [undefined]
    raises, [None] for another falsy value); or it is an object. *)
Inductive PostAnswer : Type :=
| PostThrows (message : string)
| PostEmpty (typeError : option string)
| PostAnswered (success : bool) (nodeId : option string)
    (message : option string).

(** What the environment supplies to one call: the answers of the two
    remote services, whether the write succeeds, and two successive
    readings of [Date.now()]. *)
Record Net : Type :=
  { geo : GeoAnswer; post : PostAnswer; fs_writeOk : bool;
    now : Z; later : Z }.

Record Disk : Type := { dataDirExists : bool; mkdirThrows : bool }.

(** [init()]; [None] when [mkdirSync] throws. *)
Definition init (disk : Disk) (st : State) : option State :=
  if negb (dataDirExists disk) && mkdirThrows disk then None
  else
    Some
      match file st with
      | FileData p => set_userData (Some p) st
      | FileNull => set_userData None st
      | FileMissing | FileUnreadable => st
      end.

Definition saveUserData (net : Net) (st : State) : bool * State :=
  if fs_writeOk net then
    (true,
     set_file
       match userData st with
       | Some p => FileData p
       | None => FileNull
       end
       st)
  else (false, st).

(** [getGeolocation()]: [None] when the function falls off its end. *)
Definition getGeolocation (net : Net) : option GeoData :=
  match geo net with
  | GeoAnswered d =>
      Some {| ip := api_ip d; city := api_city d; region := api_region d;
              country := api_country_name d;
              countryCode := api_country_code d;
              latitude := api_latitude d; longitude := api_longitude d;
              timezone := api_timezone d |}
  | GeoEmpty => None
  | GeoThrows =>
      Some {| ip := None; city := None; region := None; country := None;
              countryCode := None; latitude := None; longitude := None;
              timezone := None |}
  end.

Record RegisterResult : Type :=
  { rr_success : bool; rr_nodeId : option string;
    rr_error : option string }.

(** [message || fallback] *)
Definition orDefault (message : option string) (fallback : string)
    : string :=
  match message with
  | Some EmptyString | None => fallback
  | Some m => m
  end.

(** The message of the error a non-successful answer ends in. *)
Definition failure (answer : PostAnswer) (fallback : string)
    : option string :=
  match answer with
  | PostThrows message => Some message
  | PostEmpty (Some typeError) => Some typeError
  | PostEmpty None => Some fallback
  | PostAnswered true _ _ => None
  | PostAnswered false _ message => Some (orDefault message fallback)
  end.

Definition registerUser (net : Net) (userInfo_publicKey : option string)
    (st : State) : RegisterResult * State :=
  let geoData := getGeolocation net in
  match post net with
  | PostAnswered true response_nodeId _ =>
      let st :=
        set_userData
          (Some {| registered := true; publicKey := userInfo_publicKey;
                   nodeId := response_nodeId; geolocation := geoData;
                   registrationTime := Some (now net);
                   lastPing := Some (later net) |})
          st in
      let st := snd (saveUserData net st) in
      ({| rr_success := true; rr_nodeId := response_nodeId;
          rr_error := None |}, st)
  | answer =>
      ({| rr_success := false; rr_nodeId := None;
          rr_error := failure answer "Registration failed" |}, st)
  end.

(** [!userData.nodeId] *)
Definition lacksNodeId (p : Profile) : bool :=
  match nodeId p with
  | Some EmptyString | None => true
  | Some _ => false
  end.

(** The body of the status POST. *)
Record StatusData : Type :=
  { sd_nodeId : option string; sd_publicKey : option string;
    sd_status : string; sd_timestamp : Z }.

(** [updateStatus()]: the status requests it posts, what it returns
    ([None] when the promise is rejected, which happens when [userData] is
    [null]) and the state it leaves. *)
Definition updateStatus (net : Net) (st : State)
    : list StatusData * (option bool * State) :=
  match userData st with
  | None => ([], (None, st))
  | Some p =>
      if negb (registered p) || lacksNodeId p then ([], (Some false, st))
      else
        let statusData :=
          {| sd_nodeId := nodeId p; sd_publicKey := publicKey p;
             sd_status := "active"; sd_timestamp := now net |} in
        match post net with
        | PostAnswered true _ _ =>
            let st :=
              set_userData
                (Some {| registered := registered p;
                         publicKey := publicKey p; nodeId := nodeId p;
                         geolocation := geolocation p;
                         registrationTime := registrationTime p;
                         lastPing := Some (later net) |})
                st in
            ([statusData], (Some true, snd (saveUserData net st)))
        | _ => ([statusData], (Some false, st))
        end
  end.

(** [isRegistered()]; [None] when reading the property throws. *)
Definition isRegistered (st : State) : option bool :=
  match userData st with
  | Some p => Some (registered p)
  | None => None
  end.

(** [getUserData()]: a copy; spreading [null] gives an object without
    properties. *)
Definition getUserData (st : State) : Profile :=
  match userData st with
  | Some p => p
  | None => defaults
  end.

(** What the connectivity manager reads of the profile. *)
Definition view (p : Profile) : UserData :=
  Build_UserData (registered p) (nodeId p) (publicKey p).

(** The callback of the status cron job of [index.js]. *)
Definition statusTick (net : Net) (st : State) : State :=
  match isRegistered st with
  | Some true => snd (snd (updateStatus net st))
  | _ => st
  end.

(** The calls that reach the service while the agent runs. *)
Inductive Call : Type :=
| CallRegister (publicKey : option string)
| CallUpdateStatus
| CallStatusTick.

Definition step (net : Net) (c : Call) (st : State) : State :=
  match c with
  | CallRegister key => snd (registerUser net key st)
  | CallUpdateStatus => snd (snd (updateStatus net st))
  | CallStatusTick => statusTick net st
  end.

Fixpoint run (calls : list (Net * Call)) (st : State) : State :=
  match calls with
  | [] => st
  | (net, c) :: rest => run rest (step net c st)
  end.

End User.

(* ------------------------------------------------------------------ *)
(** ** JavaScript numbers as the machine has them

    IEEE 754 binary64 with round to nearest, ties to even, on the
    Standard Library's executable specification of floating-point
    arithmetic. *)

Module Binary64.

Definition prec : Z := 53.
Definition emax : Z := 1024.

Definition double : Type := SpecFloat.spec_float.

Definition nan : double := SpecFloat.S754_nan.

(** The double nearest to an integer; exact below 2^53, as every
    [Date.now()] is. *)
Definition of_Z (z : Z) : double :=
  SpecFloat.binary_normalize prec emax z 0 false.

Definition mul (a b : double) : double := SpecFloat.SFmul prec emax a b.

Definition div (a b : double) : double := SpecFloat.SFdiv prec emax a b.

(** [a >= b]; every comparison with NaN is false. *)
Definition geb (a b : double) : bool := SpecFloat.SFleb b a.

(** The double that the quotient of two integers rounds to: the value of
    [n / d] in the code, and of a decimal literal such as [0.1]. *)
Definition of_Q (q : Q) : double :=
  div (of_Z (Qnum q)) (of_Z (Zpos (Qden q))).

(** The number a double stands for. *)
Definition value (x : double) : jsnum :=
  match x with
  | SpecFloat.S754_zero _ => Fin 0
  | SpecFloat.S754_infinity s => Inf s
  | SpecFloat.S754_nan => NaN
  | SpecFloat.S754_finite s m e =>
      Fin ((if s then -1 else 1) * inject_Z (Zpos m) * 2 ^ e)
  end.

End Binary64.

(* ------------------------------------------------------------------ *)
(** ** Reward evaluator in double precision
       ([distributeRewards] of [services/monitor.js])

    The same function as [Monitor.distributeRewards], with the arithmetic
    of the machine: the client uptime is the double that
    [(Date.now() - startTime) / 1000] rounded to when the snapshot was
    taken, and every product and quotient is rounded.  Amounts are
    reported by the numbers they stand for. *)

Module Rewards.
Import Monitor.

(** [monitoringData.metrics.uptime.client]: [None] when reading it
    throws, NaN when it is [undefined]. *)
Definition clientUptime (d : MonitoringData) : option Binary64.double :=
  match c_uptime (metrics d) with
  | UptimeValue u => Some (Binary64.of_Q (up_client u))
  | UptimeEmpty => Some Binary64.nan
  | UptimeUndefined => None
  end.

(** [(client * 1000 / totalTime) * 100] *)
Definition uptimePercentage (now : Z) (d : MonitoringData)
    : option Binary64.double :=
  match clientUptime d with
  | Some client =>
      Some (Binary64.mul
              (Binary64.div (Binary64.mul client (Binary64.of_Z 1000))
                 (Binary64.of_Z (totalTime now d)))
              (Binary64.of_Z 100))
  | None => None
  end.

Section WithConfig.
Variable cfg : Config.

Definition rewardAmountFor (uptimePercentage : Binary64.double)
    : Binary64.double :=
  let rewardMultiplier :=
    Binary64.div uptimePercentage (Binary64.of_Z 100) in
  Binary64.mul (Binary64.of_Q (solana_rewardAmount cfg)) rewardMultiplier.

Definition distributeRewards (host : Host) (w : World)
    : RewardOutcome * World :=
  let now := clock host in
  let d := monitoringData w in
  if notYetTime cfg now d then (NotYetTime, w)
  else
    match uptimePercentage now d with
    | None => (RewardThrew, w)
    | Some pct =>
        if Binary64.geb pct (Binary64.of_Z 90) then
          let rewardAmount := Binary64.value (rewardAmountFor pct) in
          match solana_sendReward host rewardAmount with
          | Some txId =>
              (Rewarded rewardAmount txId,
               updateData (set_lastRewardTime (Some now)) w)
          | None => (RewardFailed rewardAmount, w)
          end
        else (UptimeTooLow (Binary64.value pct), w)
    end.

End WithConfig.

End Rewards.

(* ------------------------------------------------------------------ *)
(** ** Vocabulary of the statements *)

(** The pending messages a flush hands to the transport, and the ones it
    puts back, for the fates [outs] of the coming writes. *)
Fixpoint delivered (outs : list bool) (ms : list Message) : list Message :=
  match ms, outs with
  | [], _ => []
  | m :: ms', [] => m :: delivered [] ms'
  | m :: ms', true :: outs' => m :: delivered outs' ms'
  | _ :: ms', false :: outs' => delivered outs' ms'
  end.

Fixpoint requeued (outs : list bool) (ms : list Message) : list Message :=
  match ms, outs with
  | [], _ => []
  | _ :: ms', [] => requeued [] ms'
  | _ :: ms', true :: outs' => requeued outs' ms'
  | m :: ms', false :: outs' =>
      if is_high (msg_priority m) then m :: requeued outs' ms'
      else requeued outs' ms'
  end.

(** One call [send(type, data, priority)] and the message it builds. *)
Record Request : Type :=
  { rq_env : Websocket.Env;
    rq_type : string;
    rq_data : Payload;
    rq_priority : Priority }.

Definition messageOf (r : Request) : Message :=
  {| msg_type := rq_type r; msg_data := rq_data r;
     msg_timestamp := Websocket.now (rq_env r);
     msg_priority := rq_priority r |}.

Definition sendAll (cfg : Config) (reqs : list Request)
    (s : Websocket.State) : Websocket.State :=
  fold_left
    (fun s r =>
       snd (Websocket.send cfg (rq_env r) (rq_type r) (rq_data r)
              (rq_priority r) s))
    reqs s.

(** The transitions that may lower [reconnectAttempts]: the open signal,
    and the firing of an armed cooldown timer. *)
Definition cooldownArmed (s : Websocket.State) : bool :=
  match Websocket.reconnectTimeout s with
  | Some tm =>
      Websocket.tm_live tm
      && match Websocket.tm_kind tm with
         | Websocket.Cooldown => true
         | Websocket.Backoff => false
         end
  | None => false
  end.

Definition resets (ev : Websocket.Event) (s : Websocket.State) : bool :=
  match ev with
  | Websocket.EvOpen => true
  | Websocket.EvReconnectTimer => cooldownArmed s
  | _ => false
  end.

Fixpoint noReset (cfg : Config)
    (evs : list (Websocket.Env * Websocket.Event)) (s : Websocket.State)
    : bool :=
  match evs with
  | [] => true
  | (env, ev) :: rest =>
      negb (resets ev s) && noReset cfg rest (Websocket.step cfg env ev s)
  end.

(** What a call leaves alone. *)
Definition sameLink (s s' : Websocket.State) : Prop :=
  Websocket.isConnected s' = Websocket.isConnected s
  /\ Websocket.reconnectAttempts s' = Websocket.reconnectAttempts s
  /\ Websocket.reconnectTimeout s' = Websocket.reconnectTimeout s.

(** An armed cooldown timer witnesses that the attempt cap was exceeded. *)
Definition capInvariant (cfg : Config) (s : Websocket.State) : Prop :=
  cooldownArmed s = true ->
  websocket_maxReconnectAttempts cfg < Websocket.reconnectAttempts s.

(** A transition that keeps the invariant and does not lower the counter. *)
Definition grows (cfg : Config) (s s' : Websocket.State) : Prop :=
  capInvariant cfg s ->
  capInvariant cfg s'
  /\ Websocket.reconnectAttempts s <= Websocket.reconnectAttempts s'.

(** Sample inputs. *)
Definition nobody : UserData :=
  {| registered := false; nodeId := None; publicKey := None |}.

Definition node7 : UserData :=
  {| registered := true; nodeId := Some "node-7"%string;
     publicKey := Some "PK7"%string |}.

Definition calm : Websocket.Env :=
  {| Websocket.now := 1700000000000; Websocket.random := 1 # 2;
     Websocket.socketCtorThrows := false; Websocket.user := nobody |}.

(** A reward is issued when [RewardIssuer.send] is called, whether or not
    the transaction then goes through. *)
Definition issued (o : Monitor.RewardOutcome) : bool :=
  match o with
  | Monitor.Rewarded _ _ | Monitor.RewardFailed _ => true
  | _ => false
  end.

Definition issuedAmount (o : Monitor.RewardOutcome) : option jsnum :=
  match o with
  | Monitor.Rewarded a _ | Monitor.RewardFailed a => Some a
  | _ => None
  end.

(** Snapshots processed one after the other. *)
Definition processAll (cfg : Config)
    (snaps : list (Monitor.Host * Metrics)) (w : Monitor.World)
    : Monitor.World :=
  fold_left
    (fun w hm => snd (Monitor.processMetrics cfg (fst hm) (snd hm) w))
    snaps w.

Definition pushAll (points : list HistoryPoint) (h : list HistoryPoint)
    : list HistoryPoint :=
  fold_left (fun h p => Monitor.pushHistory p h) points h.

(** The outcome of the guarded disk and network collections. *)
Definition diskDomain (host : Monitor.Host) : Domain (list DiskReading) :=
  Monitor.guarded "Disk metrics collection timeout" Monitor.diskReading
    (Monitor.si_fsSize host).

Definition networkDomain (host : Monitor.Host) : Domain (list NetReading) :=
  Monitor.guarded "Network metrics collection timeout" Monitor.netReading
    (Monitor.si_networkStats host).

Definition hasReading {A : Type} (d : Domain A) : bool :=
  match d with Reading _ => true | _ => false end.

Definition hasErrorMarker {A : Type} (d : Domain A) : bool :=
  match d with ErrorMarker _ => true | _ => false end.

(** A host whose providers all answer at once. *)
Definition laptop : Monitor.Host :=
  {| Monitor.wsEnv := calm;
     Monitor.os_platform := "linux";
     Monitor.os_arch := "x64";
     Monitor.os_hostname := "laptop";
     Monitor.os_uptime := 7200;
     Monitor.process_uptime := 3600;
     Monitor.os_cpus := [{| ci_model := "cpu0"; ci_speed := 2400 |}];
     Monitor.osUtils_cpuUsage := Some (Fin (1 # 4));
     Monitor.os_totalmem := 8000;
     Monitor.os_freemem := 2000;
     Monitor.si_fsSize :=
       Monitor.Resolves 20
         [{| fs_fs := "/dev/sda1"; fs_type := "ext4"; fs_size := 1000;
             fs_used := 400; fs_available := 600; fs_use := 40 |}];
     Monitor.si_networkStats :=
       Monitor.Resolves 20
         [{| ns_iface := "eth0"; ns_rx_bytes := 10; ns_tx_bytes := 20;
             ns_rx_errors := 0; ns_tx_errors := 0 |}];
     Monitor.fs_writeOk := true;
     Monitor.axios := Monitor.HttpResponse 200 (Some "ok"%string) 35;
     Monitor.solana_sendReward := fun _ => Some "tx-1"%string;
     Monitor.generatedId := "task_1700000000000_abc" |}.

(** The same host with other answers. *)
Definition withDisk (p : Monitor.Outcome (list FsSize)) (h : Monitor.Host)
    : Monitor.Host :=
  {| Monitor.wsEnv := Monitor.wsEnv h;
     Monitor.os_platform := Monitor.os_platform h;
     Monitor.os_arch := Monitor.os_arch h;
     Monitor.os_hostname := Monitor.os_hostname h;
     Monitor.os_uptime := Monitor.os_uptime h;
     Monitor.process_uptime := Monitor.process_uptime h;
     Monitor.os_cpus := Monitor.os_cpus h;
     Monitor.osUtils_cpuUsage := Monitor.osUtils_cpuUsage h;
     Monitor.os_totalmem := Monitor.os_totalmem h;
     Monitor.os_freemem := Monitor.os_freemem h;
     Monitor.si_fsSize := p;
     Monitor.si_networkStats := Monitor.si_networkStats h;
     Monitor.fs_writeOk := Monitor.fs_writeOk h;
     Monitor.axios := Monitor.axios h;
     Monitor.solana_sendReward := Monitor.solana_sendReward h;
     Monitor.generatedId := Monitor.generatedId h |}.

Definition withCpus (cpus : list CpuInfo) (h : Monitor.Host)
    : Monitor.Host :=
  {| Monitor.wsEnv := Monitor.wsEnv h;
     Monitor.os_platform := Monitor.os_platform h;
     Monitor.os_arch := Monitor.os_arch h;
     Monitor.os_hostname := Monitor.os_hostname h;
     Monitor.os_uptime := Monitor.os_uptime h;
     Monitor.process_uptime := Monitor.process_uptime h;
     Monitor.os_cpus := cpus;
     Monitor.osUtils_cpuUsage := Monitor.osUtils_cpuUsage h;
     Monitor.os_totalmem := Monitor.os_totalmem h;
     Monitor.os_freemem := Monitor.os_freemem h;
     Monitor.si_fsSize := Monitor.si_fsSize h;
     Monitor.si_networkStats := Monitor.si_networkStats h;
     Monitor.fs_writeOk := Monitor.fs_writeOk h;
     Monitor.axios := Monitor.axios h;
     Monitor.solana_sendReward := Monitor.solana_sendReward h;
     Monitor.generatedId := Monitor.generatedId h |}.

Definition atTime (t : Z) (h : Monitor.Host) : Monitor.Host :=
  {| Monitor.wsEnv :=
       {| Websocket.now := t;
          Websocket.random := Websocket.random (Monitor.wsEnv h);
          Websocket.socketCtorThrows :=
            Websocket.socketCtorThrows (Monitor.wsEnv h);
          Websocket.user := Websocket.user (Monitor.wsEnv h) |};
     Monitor.os_platform := Monitor.os_platform h;
     Monitor.os_arch := Monitor.os_arch h;
     Monitor.os_hostname := Monitor.os_hostname h;
     Monitor.os_uptime := Monitor.os_uptime h;
     Monitor.process_uptime := Monitor.process_uptime h;
     Monitor.os_cpus := Monitor.os_cpus h;
     Monitor.osUtils_cpuUsage := Monitor.osUtils_cpuUsage h;
     Monitor.os_totalmem := Monitor.os_totalmem h;
     Monitor.os_freemem := Monitor.os_freemem h;
     Monitor.si_fsSize := Monitor.si_fsSize h;
     Monitor.si_networkStats := Monitor.si_networkStats h;
     Monitor.fs_writeOk := Monitor.fs_writeOk h;
     Monitor.axios := Monitor.axios h;
     Monitor.solana_sendReward := Monitor.solana_sendReward h;
     Monitor.generatedId := Monitor.generatedId h |}.

(** The history points a run of snapshots contributes. *)
Definition pointsOf (snaps : list (Monitor.Host * Metrics))
    : list HistoryPoint :=
  flat_map
    (fun hm =>
       match m_uptime (snd hm) with
       | Some u => [Monitor.historyPoint (snd hm) u]
       | None => []
       end)
    snaps.

Definition blankSnapshot : Metrics :=
  {| m_timestamp := 0;
     m_system :=
       {| sys_platform := ""; sys_arch := ""; sys_hostname := "";
          sys_uptime := 0 |};
     m_cpu := NoReading; m_memory := NoReading; m_disk := NoReading;
     m_network := NoReading; m_uptime := None; m_tasks := None |}.

(** The snapshot a collection returns, for the samples below. *)
Definition snapshotOf (cfg : Config) (host : Monitor.Host)
    (w : Monitor.World) : Metrics :=
  match Monitor.collectMetrics cfg host w with
  | Monitor.Returned m => m
  | _ => blankSnapshot
  end.

Definition bootWorld : Monitor.World :=
  Monitor.initialWorld 1699999000000 Monitor.FileMissing.

Definition withHistory (h : list HistoryPoint) (w : Monitor.World)
    : Monitor.World :=
  Monitor.updateData (Monitor.set_history h) w.

(** The provider has not settled when the 5000 timer fires. *)
Definition timedOut {A : Type} (p : Monitor.Outcome A) : bool :=
  match p with
  | Monitor.Resolves t _ | Monitor.Rejects t _ => 5000 <=? t
  | Monitor.Never => true
  end.

Definition errorCount (w : Monitor.World) : Z :=
  Monitor.count (Monitor.errors (Monitor.monitoringData w)).

(** The world after the first snapshot, taken [elapsed] ms after a boot
    at [boot]. *)
Definition snapshotAfter (boot elapsed : Z) : Monitor.World :=
  let host := atTime (boot + elapsed) laptop in
  let w := Monitor.initialWorld boot Monitor.FileMissing in
  snd (Monitor.processMetrics default_config host
         (snapshotOf default_config host w) w).

Definition afterFirstSnapshot (elapsed : Z) : Monitor.World :=
  snapshotAfter 1699999000000 elapsed.


Definition persistedAt (t : option Z) : Monitor.Persisted :=
  {| Monitor.p_startTime := t;
     Monitor.p_lastRewardTime := Some None;
     Monitor.p_history := Some [];
     Monitor.p_monitoringTasks := Some [] |}.

Definition pingTask : Task :=
  {| t_id := Some "t1"%string; t_name := None; t_type := ping;
     t_target := "10.0.0.1"; t_interval := IntervalMs 120000;
     t_validStatusCodes := None; t_keyword := None;
     t_maxResponseTime := None; t_lastRunTime := None;
     t_lastResult := None |}.

Definition pingJob : Monitor.Job :=
  {| Monitor.job_cadence := Monitor.EveryMinutes 2;
     Monitor.job_action := Monitor.TaskJob 0 false |}.

Definition oldPoint : HistoryPoint :=
  {| h_timestamp := 1; h_cpu := None; h_memory := None; h_uptime := 0 |}.

(** A world whose connection is open, for a node that is not registered. *)
Definition onlineWorld : Monitor.World :=
  Monitor.set_socket
    (Websocket.handleOpen default_config calm Websocket.initial) bootWorld.

(** What happens to the pipeline during the life of an installation: a
    registered job fires, the front door asks for the metrics, or the
    process restarts, with fresh module variables, on the file it left. *)
Inductive Happening : Type :=
| Fires (host : Monitor.Host) (j : Monitor.Job)
| Queries (host : Monitor.Host)
| Adds (host : Monitor.Host) (task : Task)
| Removes (host : Monitor.Host) (taskId : option string)
| Restarts (host : Monitor.Host).

Definition happen (cfg : Config) (w : Monitor.World) (e : Happening)
    : Monitor.World :=
  match e with
  | Fires host j => Monitor.runJob cfg host j w
  | Queries host => snd (Monitor.getMetrics cfg host w)
  | Adds host task => snd (Monitor.addMonitoringTask host task w)
  | Removes host taskId => snd (Monitor.removeMonitoringTask host taskId w)
  | Restarts host =>
      Monitor.init cfg host
        (Monitor.initialWorld (Monitor.clock host) (Monitor.file w))
  end.

Definition lifetime (cfg : Config) (es : list Happening) (w : Monitor.World)
    : Monitor.World :=
  fold_left (happen cfg) es w.

(** No reward time is recorded, in memory or on file. *)
Definition unrewarded (w : Monitor.World) : Prop :=
  Monitor.lastRewardTime (Monitor.monitoringData w) = None
  /\ match Monitor.file w with
     | Monitor.FileData data =>
         match Monitor.p_lastRewardTime data with
         | Some (Some _) => False
         | _ => True
         end
     | _ => True
     end.

(** The history in memory and the one on file hold at most 100 points. *)
Definition bounded (w : Monitor.World) : Prop :=
  (List.length (Monitor.history (Monitor.monitoringData w)) <= 100)%nat
  /\ match Monitor.file w with
     | Monitor.FileData data =>
         match Monitor.p_history data with
         | Some h => (List.length h <= 100)%nat
         | None => True
         end
     | _ => True
     end.

(** The message [send] builds, and the ping [sendPing] sends. *)
Definition messageFor (env : Websocket.Env) (type : string) (data : Payload)
    (priority : Priority) : Message :=
  {| msg_type := type; msg_data := data;
     msg_timestamp := Websocket.now env; msg_priority := priority |}.

Definition isPing (m : Message) : Prop :=
  msg_type m = "ping"%string /\ msg_priority m = low.

Definition allHigh (ms : list Message) : Prop :=
  Forall (fun m => msg_priority m = high) ms.

(** A host on which the cpu collection throws. *)
Definition cpuBroken (host : Monitor.Host) : Prop :=
  (exists load, Monitor.osUtils_cpuUsage host = Some load)
  /\ Monitor.os_cpus host = [].

(** Metrics ticks fired one after the other, one host answer per tick. *)
Definition tickAll (cfg : Config) (hosts : list Monitor.Host)
    (w : Monitor.World) : Monitor.World :=
  fold_left (fun w host => Monitor.metricsJob cfg host w) hosts w.

(** [task'] is [task] after a run that gave [result]: the result is
    stored, the run time is set, and the description of the task is as it
    was. *)
Definition ranWith (task : Task) (result : TaskResult) (task' : Task)
    : Prop :=
  t_id task' = t_id task /\ t_name task' = t_name task
  /\ t_type task' = t_type task /\ t_target task' = t_target task
  /\ t_interval task' = t_interval task
  /\ t_validStatusCodes task' = t_validStatusCodes task
  /\ t_keyword task' = t_keyword task
  /\ t_maxResponseTime task' = t_maxResponseTime task
  /\ t_lastResult task' = Some result
  /\ t_lastRunTime task' <> None.

(** A history point whose readings JSON can hold: no NaN, no infinity. *)
Definition finiteReading (v : option jsnum) : Prop :=
  match v with
  | Some (Fin _) | None => True
  | Some _ => False
  end.

Definition finitePoint (p : HistoryPoint) : Prop :=
  finiteReading (h_cpu p) /\ finiteReading (h_memory p).

(** The job scheduleMonitoringTasks registers for the task at [ref]. *)
Definition reportingJob (ref : nat) (task : Task) : Monitor.Job :=
  {| Monitor.job_cadence := Monitor.taskCadence (t_interval task);
     Monitor.job_action := Monitor.TaskJob ref true |}.

Fixpoint reportingJobs (ref : nat) (tasks : list Task) : list Monitor.Job :=
  match tasks with
  | [] => []
  | task :: rest => reportingJob ref task :: reportingJobs (S ref) rest
  end.

(** The routines no execution of the agent enters. *)
Definition dormant : list Agent.Routine :=
  [Agent.addMonitoringTask; Agent.scheduleMonitoringTask; Agent.cb_taskCron;
   Agent.removeMonitoringTask; Agent.distributeRewards;
   Agent.findAssociatedTokenAddress; Agent.sendReward; Agent.sendSolReward;
   Agent.sendTokenReward; Agent.getWalletPublicKey; Agent.kuma_connect;
   Agent.cb_kumaConnect; Agent.cb_kumaRequestMetrics; Agent.kuma_disconnect;
   Agent.kuma_registerMonitor; Agent.kuma_sendMetrics;
   Agent.kuma_isSocketConnected].

Definition routine_eq_dec :
  forall a b : Agent.Routine, {a = b} + {a <> b}.
Proof. decide equality. Defined.

(** The routines reached from [l] in at most [n] rounds of calls and
    registrations. *)
Fixpoint reached (n : nat) (l : list Agent.Routine) : list Agent.Routine :=
  match n with
  | O => l
  | S n' =>
      reached n' (nodup routine_eq_dec (l ++ flat_map Agent.invokes l))
  end.

(** Further sample inputs. *)
Definition atHome : Websocket.Env :=
  {| Websocket.now := 1700000000000; Websocket.random := 1 # 2;
     Websocket.socketCtorThrows := false; Websocket.user := node7 |}.

(** The connection after the close that exceeded the attempt cap. *)
Definition capped : Websocket.State :=
  Websocket.handleClose default_config calm
    (Websocket.set_reconnectAttempts 10 Websocket.initial).

(** A task answer sent before the first connection, and the state in
    which it waits. *)
Definition earlyAnswer : Message :=
  messageFor calm "taskResult"
    (PRemoteTaskResult
       (Websocket.remoteTaskResult calm (Some "job-1"%string)
          RtCheckEndpoint))
    high.

Definition waiting : Websocket.State :=
  Websocket.step default_config calm
    (Websocket.EvMessage
       (Websocket.InTask (Some "job-1"%string) RtCheckEndpoint))
    Websocket.initial.

Definition httpTask : Task :=
  {| t_id := None; t_name := None; t_type := http;
     t_target := "https://example.org"; t_interval := IntervalMs 90000;
     t_validStatusCodes := Some [200; 204]; t_keyword := Some "ok"%string;
     t_maxResponseTime := Some 500; t_lastRunTime := None;
     t_lastResult := None |}.

(** An answer of the main application that accepts a registration, and
    the environment of the call. *)
Definition accepting : User.Net :=
  {| User.geo := User.GeoThrows;
     User.post :=
       User.PostAnswered true (Some "node-7"%string) None;
     User.fs_writeOk := true;
     User.now := 1700000000000; User.later := 1700000000002 |}.

Definition refusing : User.Net :=
  {| User.geo := User.GeoThrows;
     User.post := User.PostAnswered false None (Some "busy"%string);
     User.fs_writeOk := true;
     User.now := 1700000300000; User.later := 1700000300004 |}.

Definition freshUser : User.State := User.initial User.FileMissing.

Definition dataDir : User.Disk :=
  {| User.dataDirExists := true; User.mkdirThrows := false |}.

(** The start time in memory is after the epoch, and so is the one of
    the record on file. *)
Definition dated (w : Monitor.World) : Prop :=
  0 < Monitor.startTime (Monitor.monitoringData w)
  /\ match Monitor.file w with
     | Monitor.FileData data =>
         exists t, Monitor.p_startTime data = Some t /\ 0 < t
     | _ => True
     end.

(** A restart happens after the epoch: its [Date.now()] is positive. *)
Definition afterEpoch (e : Happening) : Prop :=
  match e with
  | Restarts host => 0 < Monitor.clock host
  | _ => True
  end.

(** The half-hourly persist job. *)
Definition persistJob : Monitor.Job :=
  {| Monitor.job_cadence := Monitor.EveryMinutes 30;
     Monitor.job_action := Monitor.PersistJob |}.

(** An interval whose cron expression node-cron accepts: a number of
    milliseconds, which gives [*/n * * * *] with a whole [n >= 1]; up to
    6 * 10^24 the step is below 10^21 and printed in plain digits. *)
Definition plainInterval (i : Interval) : Prop :=
  match i with
  | IntervalMs ms => (ms <= 6 * 10 ^ 24)%Q
  | IntervalCron _ => False
  end.

(** When node-cron fires [*/n * * * *]: at the minutes of each hour that
    are multiples of [n].  [minute] counts the minutes from the start of
    some hour. *)
Definition firesAt (n minute : Z) : bool := (minute mod 60) mod n =? 0.

(** A file that holds one task. *)
Definition oneTaskFile : Monitor.File :=
  Monitor.FileData
    {| Monitor.p_startTime := Some 1699999000000;
       Monitor.p_lastRewardTime := Some None;
       Monitor.p_history := Some [];
       Monitor.p_monitoringTasks := Some [httpTask] |}.

(* ------------------------------------------------------------------ *)
(** * Properties of the connectivity manager *)

Section WebsocketFacts.
Import Websocket.
Variable cfg : Config.

Lemma sendFrom_disconnected :
  forall outs env type data priority s,
    isConnected s = false ->
    sendFrom cfg outs env type data priority s
    = (false,
       let s := logger warn "Cannot send message: WebSocket not connected" s in
       if is_high priority then
         enqueue
           {| msg_type := type; msg_data := data; msg_timestamp := now env;
              msg_priority := priority |}
           (logger info "Queuing high priority message for later sending" s)
       else s).
Proof.
  intros outs env type data priority s H.
  destruct outs as [|[|] outs]; cbn; rewrite H; cbn;
    destruct (is_high priority); reflexivity.
Qed.

Lemma sameLink_refl : forall s, sameLink s s.
Proof. intros s; repeat split. Qed.

Lemma sameLink_trans :
  forall s1 s2 s3, sameLink s1 s2 -> sameLink s2 s3 -> sameLink s1 s3.
Proof.
  unfold sameLink; intros s1 s2 s3 (a & b & c) (d & e & f).
  repeat split; congruence.
Qed.

Lemma sendFrom_connected :
  forall outs env type data priority s,
    isConnected s = true ->
    let s' := snd (sendFrom cfg outs env type data priority s) in
    sameLink s s'
    /\ (exists extra, pendingMessages s' = pendingMessages s ++ extra)
    /\ (exists sent, wire s' = wire s ++ sent).
Proof.
  induction outs as [|[|] rest IH]; intros env type data priority s H;
    cbn [sendFrom]; rewrite H; cbn.
  - repeat split; try (exists []; now rewrite app_nil_r); now eexists.
  - repeat split; try (exists []; now rewrite app_nil_r); now eexists.
  - unfold checkConnectionWith.
    destruct (is_high priority); cbn; rewrite H; cbn.
    + match goal with
      | |- context [sendFrom cfg rest ?e ?t ?d ?p ?s0] =>
          destruct (IH e t d p s0 H) as ((a & b & c) & (ex & Hp) & (st & Hw))
      end.
      cbn in *. repeat split; try assumption.
      * eexists. rewrite Hp. rewrite <- app_assoc. reflexivity.
      * eexists. exact Hw.
    + match goal with
      | |- context [sendFrom cfg rest ?e ?t ?d ?p ?s0] =>
          destruct (IH e t d p s0 H) as ((a & b & c) & (ex & Hp) & (st & Hw))
      end.
      cbn in *. repeat split; try assumption.
      * eexists. exact Hp.
      * eexists. exact Hw.
Qed.

Lemma send_sameLink :
  forall env type data priority s,
    sameLink s (snd (send cfg env type data priority s)).
Proof.
  intros env type data priority s. unfold send.
  destruct (isConnected s) eqn:H.
  - apply sendFrom_connected; assumption.
  - rewrite sendFrom_disconnected by assumption.
    destruct (is_high priority); cbn; repeat split.
Qed.

Lemma delivered_cons :
  forall outs m ms,
    delivered outs (m :: ms) = delivered outs [m] ++ delivered (tl outs) ms.
Proof. intros [|[|] outs] m ms; reflexivity. Qed.

Lemma requeued_cons :
  forall outs m ms,
    requeued outs (m :: ms) = requeued outs [m] ++ requeued (tl outs) ms.
Proof.
  intros [|[|] outs] m ms; cbn; try reflexivity.
  destruct (is_high (msg_priority m)); reflexivity.
Qed.

Lemma flushOne_spec :
  forall s m,
    let s' := flushOne s m in
    wire s' = wire s ++ delivered (transport s) [m]
    /\ pendingMessages s' = pendingMessages s ++ requeued (transport s) [m]
    /\ transport s' = tl (transport s)
    /\ sameLink s s'.
Proof.
  intros s m. unfold flushOne, wsSend.
  destruct (transport s) as [|[|] outs] eqn:Ht; cbn;
    try destruct (is_high (msg_priority m)); cbn;
    rewrite ?app_nil_r, ?Ht; repeat split.
Qed.

Lemma fold_flushOne :
  forall ms s,
    let s' := fold_left flushOne ms s in
    wire s' = wire s ++ delivered (transport s) ms
    /\ pendingMessages s' = pendingMessages s ++ requeued (transport s) ms
    /\ sameLink s s'.
Proof.
  induction ms as [|m ms IH]; intros s; cbn [fold_left].
  - cbn. rewrite !app_nil_r. repeat split.
  - destruct (flushOne_spec s m) as (Hw & Hp & Ht & Hl).
    destruct (IH (flushOne s m)) as (Hw' & Hp' & Hl').
    cbv zeta in *.
    rewrite Hw', Hp', Hw, Hp, Ht.
    rewrite (delivered_cons (transport s) m ms).
    rewrite (requeued_cons (transport s) m ms).
    rewrite <- !app_assoc.
    split; [reflexivity|split; [reflexivity|]].
    eapply sameLink_trans; eassumption.
Qed.

Lemma flushPending_spec :
  forall s,
    let s' := flushPending s in
    wire s' = wire s ++ delivered (transport s) (pendingMessages s)
    /\ pendingMessages s' = requeued (transport s) (pendingMessages s)
    /\ sameLink s s'.
Proof.
  intros s. unfold flushPending.
  destruct (pendingMessages s) as [|m ms] eqn:Hq.
  - cbn. rewrite app_nil_r, Hq. repeat split.
  - match goal with
    | |- context [fold_left flushOne ?l ?s0] =>
        destruct (fold_flushOne l s0) as (Hw & Hp & Hl)
    end.
    cbn in *. rewrite Hq in *. cbn. repeat split; try assumption; apply Hl.
Qed.

Lemma delivered_healthy : forall ms, delivered [] ms = ms.
Proof. induction ms as [|m ms IH]; cbn; congruence. Qed.

Lemma requeued_healthy : forall ms, requeued [] ms = [].
Proof. induction ms as [|m ms IH]; cbn; congruence. Qed.

Lemma requeued_high :
  forall ms outs, Forall (fun m => msg_priority m = high) (requeued outs ms).
Proof.
  induction ms as [|m ms IH]; intros outs; cbn; [constructor|].
  destruct outs as [|[|] outs]; try apply IH.
  destruct (msg_priority m) eqn:Hp; cbn; try apply IH.
  constructor; [assumption|apply IH].
Qed.

Lemma sendAll_cons :
  forall r reqs s,
    sendAll cfg (r :: reqs) s
    = sendAll cfg reqs
        (snd (send cfg (rq_env r) (rq_type r) (rq_data r) (rq_priority r) s)).
Proof. reflexivity. Qed.

Lemma sendAll_disconnected :
  forall reqs s,
    isConnected s = false ->
    let s' := sendAll cfg reqs s in
    isConnected s' = false
    /\ transport s' = transport s
    /\ wire s' = wire s
    /\ pendingMessages s'
       = pendingMessages s
         ++ map messageOf (filter (fun r => is_high (rq_priority r)) reqs).
Proof.
  induction reqs as [|r reqs IH]; intros s H.
  - cbn. rewrite app_nil_r. repeat split; assumption.
  - cbv zeta. rewrite sendAll_cons. unfold send.
    rewrite sendFrom_disconnected by assumption.
    cbn [snd filter].
    destruct (is_high (rq_priority r)) eqn:Hh.
    + match goal with
      | |- context [sendAll cfg reqs ?s0] =>
          destruct (IH s0) as (a & b & c & d); [exact H|]
      end.
      rewrite a, b, c, d. cbn. rewrite <- app_assoc. repeat split.
    + match goal with
      | |- context [sendAll cfg reqs ?s0] =>
          destruct (IH s0) as (a & b & c & d); [exact H|]
      end.
      rewrite a, b, c, d. repeat split.
Qed.

(** The state in which handleOpen starts its flush: the queue is the one
    it found, possibly followed by its own authenticate message. *)
Lemma handleOpen_flush :
  forall env s,
    exists s1 extra sent,
      handleOpen cfg env s = flushPending s1
      /\ pendingMessages s1 = pendingMessages s ++ extra
      /\ wire s1 = wire s ++ sent
      /\ (registered (user env) = false ->
          extra = [] /\ sent = [] /\ transport s1 = transport s).
Proof.
  intros env s. unfold handleOpen.
  destruct (registered (user env)) eqn:Hr.
  - eexists. unfold authenticate, send.
    match goal with
    | |- context [sendFrom cfg ?o ?e ?t ?d ?p ?s0] =>
        destruct (sendFrom_connected o e t d p s0)
          as (_ & (ex & Hp) & (st & Hw))
    end.
    { destruct (reconnectTimeout _); reflexivity. }
    exists ex, st. split; [reflexivity|].
    cbv zeta in Hp, Hw. rewrite Hp, Hw.
    split; [|split; [|discriminate]];
      destruct (reconnectTimeout (set_reconnectAttempts _ _)); reflexivity.
  - eexists. exists [], []. split; [reflexivity|].
    rewrite !app_nil_r.
    destruct (reconnectTimeout (set_reconnectAttempts _ _));
      repeat split; reflexivity.
Qed.

Lemma handleOpen_healthy :
  forall env s,
    transport s = [] ->
    let hello :=
      if registered (user env)
      then [{| msg_type := "authenticate";
               msg_data :=
                 PAuthenticate (nodeId (user env)) (publicKey (user env));
               msg_timestamp := now env; msg_priority := high |}]
      else [] in
    wire (handleOpen cfg env s) = wire s ++ hello ++ pendingMessages s
    /\ pendingMessages (handleOpen cfg env s) = [].
Proof.
  intros env s Ht. unfold handleOpen.
  match goal with
  | |- context [flushPending ?s1] =>
      destruct (flushPending_spec s1) as (Hw & Hp & _); set (mid := s1) in *
  end.
  cbv zeta in Hw, Hp. rewrite Hw, Hp.
  assert (Hmid : transport mid = []
                 /\ pendingMessages mid = pendingMessages s
                 /\ wire mid
                    = wire s
                      ++ (if registered (user env)
                          then [{| msg_type := "authenticate";
                                   msg_data :=
                                     PAuthenticate (nodeId (user env))
                                       (publicKey (user env));
                                   msg_timestamp := now env;
                                   msg_priority := high |}]
                          else [])).
  { subst mid. destruct (registered (user env)).
    - unfold authenticate, send.
      destruct (reconnectTimeout (set_reconnectAttempts _ _));
        cbn; rewrite Ht; cbn; rewrite ?Ht; repeat split.
    - destruct (reconnectTimeout (set_reconnectAttempts _ _));
        cbn; rewrite ?app_nil_r; repeat split; assumption. }
  destruct Hmid as (a & b & c).
  rewrite a, b, c, delivered_healthy, requeued_healthy, <- app_assoc.
  split; reflexivity.
Qed.

(** C3. A message given to [send] while the connection is not open joins
    the pending queue exactly when its priority is high, and is otherwise
    dropped after a logged warning; nothing is transmitted.  When the
    connection opens, handleOpen flushes the queue it finds (followed by
    its own authenticate message, should that one have failed) in queue
    order: the messages the transport accepts go out in that order, and of
    the ones it refuses exactly the high-priority ones are queued again, in
    that order.  With a healthy transport every high-priority message sent
    while disconnected goes out at the next open, in submission order,
    after the authenticate message of a registered node. *)
Theorem pending_queue_priority_fifo :
  (forall env type data priority s,
     isConnected s = false ->
     let message :=
       {| msg_type := type; msg_data := data; msg_timestamp := now env;
          msg_priority := priority |} in
     let r := send cfg env type data priority s in
     fst r = false
     /\ pendingMessages (snd r)
        = (if is_high priority then pendingMessages s ++ [message]
           else pendingMessages s)
     /\ (In message (pendingMessages (snd r)) <->
         priority = high \/ In message (pendingMessages s))
     /\ wire (snd r) = wire s
     /\ In (warn, "Cannot send message: WebSocket not connected"%string)
          (log (snd r)))
  /\ (forall env s,
        exists s1 extra,
          handleOpen cfg env s = flushPending s1
          /\ pendingMessages s1 = pendingMessages s ++ extra
          /\ (registered (user env) = false ->
              extra = [] /\ wire s1 = wire s /\ transport s1 = transport s)
          /\ wire (handleOpen cfg env s)
             = wire s1 ++ delivered (transport s1) (pendingMessages s1)
          /\ pendingMessages (handleOpen cfg env s)
             = requeued (transport s1) (pendingMessages s1)
          /\ Forall (fun m => msg_priority m = high)
               (pendingMessages (handleOpen cfg env s)))
  /\ (forall env reqs s,
        isConnected s = false ->
        transport s = [] ->
        let s' := handleOpen cfg env (sendAll cfg reqs s) in
        let hello :=
          if registered (user env)
          then [{| msg_type := "authenticate";
                   msg_data :=
                     PAuthenticate (nodeId (user env)) (publicKey (user env));
                   msg_timestamp := now env; msg_priority := high |}]
          else [] in
        wire s'
        = wire s ++ hello ++ pendingMessages s
          ++ map messageOf (filter (fun r => is_high (rq_priority r)) reqs)
        /\ pendingMessages s' = []).
Proof.
  split; [|split].
  - intros env type data priority s H message r. subst r.
    unfold send. rewrite sendFrom_disconnected by assumption. cbn [fst snd].
    split; [reflexivity|].
    destruct priority; cbn.
    + split; [reflexivity|]. split.
      * split; [now left|]. intros _. apply in_or_app. right. now left.
      * split; [reflexivity|].
        apply in_or_app. left. apply in_or_app. right. now left.
    + split; [reflexivity|]. split.
      * split; [now right|]. intros [F|I]; [discriminate|exact I].
      * split; [reflexivity|]. apply in_or_app. right. now left.
    + split; [reflexivity|]. split.
      * split; [now right|]. intros [F|I]; [discriminate|exact I].
      * split; [reflexivity|]. apply in_or_app. right. now left.
  - intros env s.
    destruct (handleOpen_flush env s) as (s1 & extra & sent & E & Hp & Hw & Hu).
    exists s1, extra.
    destruct (flushPending_spec s1) as (Fw & Fp & _).
    cbv zeta in Fw, Fp.
    split; [exact E|]. split; [exact Hp|]. split.
    + intros Hr. destruct (Hu Hr) as (a & b & c). subst sent.
      rewrite app_nil_r in Hw. repeat split; assumption.
    + rewrite E. split; [exact Fw|]. split; [exact Fp|].
      rewrite Fp. apply requeued_high.
  - intros env reqs s Hd Ht s' hello. subst s' hello.
    destruct (sendAll_disconnected reqs s Hd) as (a & b & c & d).
    cbv zeta in a, b, c, d.
    destruct (handleOpen_healthy env (sendAll cfg reqs s)) as (Hw & Hp).
    { now rewrite b. }
    cbv zeta in Hw. rewrite Hw, Hp, c, d.
    split; reflexivity.
Qed.

(* Backoff *)


Lemma scheduleReconnect_attempts :
  forall env s,
    reconnectAttempts (scheduleReconnect cfg env s) = reconnectAttempts s + 1.
Proof.
  intros env s. unfold scheduleReconnect. cbn.
  destruct (reconnectAttempts s + 1 <=? websocket_maxReconnectAttempts cfg);
    reflexivity.
Qed.

Lemma scheduleReconnect_timer :
  forall env s,
    let n := reconnectAttempts s + 1 in
    reconnectTimeout (scheduleReconnect cfg env s)
    = Some
        (if n <=? websocket_maxReconnectAttempts cfg
         then {| tm_kind := Backoff;
                 tm_delay := backoffDelay cfg n (random env);
                 tm_live := true |}
         else {| tm_kind := Cooldown; tm_delay := 300000; tm_live := true |}).
Proof.
  intros env s. unfold scheduleReconnect. cbn.
  destruct (reconnectAttempts s + 1 <=? websocket_maxReconnectAttempts cfg);
    reflexivity.
Qed.


(* The attempt counter *)

Lemma sameLink_armed :
  forall s s', sameLink s s' -> cooldownArmed s' = cooldownArmed s.
Proof.
  intros s s' (_ & _ & H). unfold cooldownArmed. now rewrite H.
Qed.

Lemma sameLink_grows : forall s s', sameLink s s' -> grows cfg s s'.
Proof.
  intros s s' H I. pose proof (sameLink_armed s s' H) as A.
  destruct H as (_ & H & _). unfold capInvariant in *. rewrite A, H.
  split; [assumption|lia].
Qed.

Lemma grows_trans :
  forall s1 s2 s3, grows cfg s1 s2 -> grows cfg s2 s3 -> grows cfg s1 s3.
Proof.
  intros s1 s2 s3 H12 H23 I. destruct (H12 I) as (I2 & L2).
  destruct (H23 I2) as (I3 & L3). split; [assumption|lia].
Qed.

Lemma scheduleReconnect_grows :
  forall env s, grows cfg s (scheduleReconnect cfg env s).
Proof.
  intros env s _. split.
  - unfold capInvariant, cooldownArmed.
    rewrite scheduleReconnect_timer, scheduleReconnect_attempts.
    destruct (reconnectAttempts s + 1 <=? websocket_maxReconnectAttempts cfg)
      eqn:E; cbn; [discriminate|].
    intros _. apply Z.leb_gt in E. exact E.
  - rewrite scheduleReconnect_attempts. lia.
Qed.

Lemma connect_grows : forall env s, grows cfg s (connect cfg env s).
Proof.
  intros env s. unfold connect.
  destruct (socketCtorThrows env).
  - eapply grows_trans; [|apply scheduleReconnect_grows].
    apply sameLink_grows. repeat split.
  - apply sameLink_grows. repeat split.
Qed.

Lemma connect_attempts :
  forall env s,
    reconnectAttempts (connect cfg env s)
    = reconnectAttempts s + (if socketCtorThrows env then 1 else 0).
Proof.
  intros env s. unfold connect. destruct (socketCtorThrows env).
  - rewrite scheduleReconnect_attempts. reflexivity.
  - cbn. lia.
Qed.

Lemma checkConnection_grows :
  forall env s, grows cfg s (snd (checkConnection cfg env s)).
Proof.
  intros env s. unfold checkConnection, checkConnectionWith.
  destruct (isConnected s) eqn:H; cbn.
  - apply sameLink_grows. apply send_sameLink.
  - destruct (reconnectTimeout s) eqn:T; cbn.
    + apply sameLink_grows. repeat split.
    + eapply grows_trans; [|apply connect_grows].
      apply sameLink_grows. repeat split.
Qed.

Lemma sendMetrics_sameLink :
  forall env m s, sameLink s (snd (sendMetrics cfg env m s)).
Proof.
  intros env m s. unfold sendMetrics.
  destruct (registered (user env)); cbn.
  - apply send_sameLink.
  - repeat split.
Qed.

Lemma handleMessage_grows :
  forall env data s, grows cfg s (handleMessage cfg env data s).
Proof.
  intros env data s.
  destruct data as [[|] ?| |[m|]|?|? ?| |?|]; cbn [handleMessage];
    try (apply sameLink_grows; repeat split; fail).
  - eapply grows_trans; [|apply sameLink_grows; apply sendMetrics_sameLink].
    apply sameLink_grows. repeat split.
  - eapply grows_trans; [|apply sameLink_grows; apply send_sameLink].
    apply sameLink_grows. repeat split.
  - intros I. split.
    + unfold capInvariant, cooldownArmed in *. cbn. intros A.
      specialize (I A). lia.
    + cbn. lia.
Qed.

Lemma handleError_grows :
  forall env s, grows cfg s (handleError env s).
Proof.
  intros env s. unfold handleError. cbn.
  destruct (connectionStartTime s) as [t0|];
    [|apply sameLink_grows; repeat split].
  destruct (negb (t0 =? 0) && (now env - t0 <? 5000));
    [|apply sameLink_grows; repeat split].
  intros I. split.
  - unfold capInvariant, cooldownArmed in *. cbn. intros A.
    specialize (I A). lia.
  - cbn. lia.
Qed.

Lemma handleOpen_resets :
  forall env s,
    reconnectAttempts (handleOpen cfg env s) = 0
    /\ reconnectTimeout (handleOpen cfg env s) = None.
Proof.
  intros env s. unfold handleOpen.
  match goal with
  | |- context [flushPending ?s1] =>
      destruct (flushPending_spec s1) as (_ & _ & (_ & Ha & Ht))
  end.
  rewrite Ha, Ht. clear Ha Ht.
  destruct (registered (user env)).
  - unfold authenticate.
    match goal with
    | |- context [send cfg ?e ?t ?d ?p ?s0] =>
        destruct (send_sameLink e t d p s0) as (_ & Ha & Ht)
    end.
    rewrite Ha, Ht.
    destruct (reconnectTimeout (set_reconnectAttempts _ _)) eqn:E;
      cbn; auto.
  - destruct (reconnectTimeout (set_reconnectAttempts _ _)) eqn:E;
      cbn; auto.
Qed.

Lemma timerFired_cases :
  forall env s,
    capInvariant cfg s ->
    let s' := timerFired cfg env s in
    capInvariant cfg s'
    /\ (cooldownArmed s = false ->
        reconnectAttempts s <= reconnectAttempts s')
    /\ (cooldownArmed s = true ->
        websocket_maxReconnectAttempts cfg < reconnectAttempts s
        /\ reconnectAttempts s'
           = (if socketCtorThrows env then 1 else 0)).
Proof.
  intros env s I. unfold timerFired, cooldownArmed.
  pose proof I as I0. unfold capInvariant, cooldownArmed in I0.
  destruct (reconnectTimeout s) as [tm|] eqn:T;
    [|cbv zeta; split; [assumption|split; [lia|discriminate]]].
  destruct (tm_live tm) eqn:L;
    [|cbv zeta; split; [assumption|split; [lia|discriminate]]].
  destruct (tm_kind tm) eqn:K; cbn [andb] in *.
  - match goal with
    | |- context [connect cfg env ?s0] =>
        destruct (connect_grows env s0) as (I' & G)
    end.
    { unfold capInvariant, cooldownArmed. cbn. discriminate. }
    cbn in G. cbv zeta. split; [assumption|].
    split; [intros _; exact G|discriminate].
  - match goal with
    | |- context [connect cfg env ?s0] =>
        destruct (connect_grows env s0) as (I' & G);
          pose proof (connect_attempts env s0) as A
    end.
    { unfold capInvariant, cooldownArmed. cbn. discriminate. }
    cbn in A. cbv zeta. split; [assumption|].
    split; [discriminate|].
    intros Ar. split; [exact (I0 Ar)|exact A].
Qed.

Lemma step_invariant :
  forall env ev s,
    capInvariant cfg s -> capInvariant cfg (step cfg env ev s).
Proof.
  intros env ev s I. destruct ev; cbn [step].
  - destruct (handleOpen_resets env s) as (_ & T).
    unfold capInvariant, cooldownArmed. rewrite T. discriminate.
  - now apply handleMessage_grows.
  - now apply handleError_grows.
  - unfold handleClose. eapply scheduleReconnect_grows. exact I.
  - now apply timerFired_cases.
  - unfold pingTick. destruct (isConnected s); [|assumption].
    eapply sameLink_grows; [apply send_sameLink|exact I].
  - now apply checkConnection_grows.
  - now apply connect_grows.
  - now apply checkConnection_grows.
  - eapply sameLink_grows; [apply send_sameLink|exact I].
  - eapply sameLink_grows; [apply sendMetrics_sameLink|exact I].
  - exact I.
Qed.

Lemma reachable_invariant : forall s, reachable cfg s -> capInvariant cfg s.
Proof.
  induction 1 as [|s env ev R IH].
  - unfold capInvariant, cooldownArmed. cbn. discriminate.
  - now apply step_invariant.
Qed.

Lemma step_monotone :
  forall env ev s,
    capInvariant cfg s ->
    resets ev s = false ->
    reconnectAttempts s <= reconnectAttempts (step cfg env ev s).
Proof.
  intros env ev s I Hq. destruct ev; cbn [step]; cbn in Hq.
  - discriminate.
  - now apply handleMessage_grows.
  - now apply handleError_grows.
  - unfold handleClose. rewrite scheduleReconnect_attempts. cbn. lia.
  - now apply timerFired_cases.
  - unfold pingTick. destruct (isConnected s); [|lia].
    eapply sameLink_grows; [apply send_sameLink|exact I].
  - now apply checkConnection_grows.
  - now apply connect_grows.
  - now apply checkConnection_grows.
  - eapply sameLink_grows; [apply send_sameLink|exact I].
  - eapply sameLink_grows; [apply sendMetrics_sameLink|exact I].
  - cbn. lia.
Qed.

Lemma run_monotone :
  forall evs s,
    capInvariant cfg s ->
    noReset cfg evs s = true ->
    reconnectAttempts s <= reconnectAttempts (run cfg evs s).
Proof.
  induction evs as [|[env ev] evs IH]; intros s I H; cbn in *; [lia|].
  apply andb_prop in H. destruct H as (Hq & Hrest).
  apply negb_true_iff in Hq.
  pose proof (step_monotone env ev s I Hq).
  pose proof (IH _ (step_invariant env ev s I) Hrest). lia.
Qed.

(** C6. In every reachable state of the connectivity manager, a
    transition lowers [reconnectAttempts] only if it is the open signal,
    which sets it to 0, or the firing of the cooldown timer, which is
    armed only while the counter exceeds [maxReconnectAttempts] and which
    sets it to 0 before reconnecting (1 if that reconnection fails on the
    spot and is rescheduled).  Along any run without those two, the
    counter never decreases. *)
Theorem reconnectAttempts_monotone :
  forall s,
    reachable cfg s ->
    (forall env ev,
       let s' := step cfg env ev s in
       (resets ev s = false ->
        reconnectAttempts s <= reconnectAttempts s')
       /\ (ev = EvOpen -> reconnectAttempts s' = 0)
       /\ (ev = EvReconnectTimer ->
           cooldownArmed s = true ->
           websocket_maxReconnectAttempts cfg < reconnectAttempts s
           /\ reconnectAttempts s'
              = (if socketCtorThrows env then 1 else 0)))
    /\ (forall evs,
          noReset cfg evs s = true ->
          reconnectAttempts s <= reconnectAttempts (run cfg evs s)).
Proof.
  intros s R. pose proof (reachable_invariant s R) as I. split.
  - intros env ev s'. subst s'. split; [|split].
    + now apply step_monotone.
    + intros ->. cbn [step]. apply handleOpen_resets.
    + intros -> A. cbn [step]. now apply timerFired_cases.
  - intros evs. now apply run_monotone.
Qed.

End WebsocketFacts.

(** A sample of C3: one high-priority and one normal message sent while
    disconnected, then the open signal. *)
Lemma pending_queue_priority_fifo_witness :
  let first :=
    {| rq_env := calm; rq_type := "taskResult"; rq_data := POther "r1";
       rq_priority := high |} in
  let second :=
    {| rq_env := calm; rq_type := "metrics"; rq_data := POther "m";
       rq_priority := normal |} in
  let third :=
    {| rq_env := calm; rq_type := "taskResult"; rq_data := POther "r2";
       rq_priority := high |} in
  Websocket.isConnected Websocket.initial = false
  /\ Websocket.transport Websocket.initial = []
  /\ Websocket.pendingMessages
       (snd (Websocket.send default_config calm "taskResult" (POther "r1")
               high Websocket.initial))
     = [messageOf first]
  /\ Websocket.wire
       (Websocket.handleOpen default_config calm
          (sendAll default_config [first; second; third] Websocket.initial))
     = [messageOf first; messageOf third].
Proof.
  cbv zeta.
  destruct (pending_queue_priority_fifo default_config) as (A & _ & C).
  split; [reflexivity|]. split; [reflexivity|]. split.
  - exact (proj1 (proj2 (A calm "taskResult"%string (POther "r1") high
                           Websocket.initial eq_refl))).
  - exact (proj1 (C calm _ Websocket.initial eq_refl eq_refl)).
Defined.



(** A sample of C6: a refused connection, a close and an error. *)
Lemma reconnectAttempts_monotone_witness :
  Websocket.reachable default_config Websocket.initial
  /\ Websocket.reconnectAttempts Websocket.initial
     <= Websocket.reconnectAttempts
          (Websocket.run default_config
             [(calm, Websocket.EvConnect); (calm, Websocket.EvClose);
              (calm, Websocket.EvError)]
             Websocket.initial).
Proof.
  split; [constructor|].
  apply (proj2 (reconnectAttempts_monotone default_config Websocket.initial
                  (Websocket.reach_initial default_config))).
  reflexivity.
Defined.

(* ------------------------------------------------------------------ *)
(** * Properties of the telemetry pipeline *)

Section MonitorFacts.
Import Monitor.
Variable cfg : Config.

(** Every path through processMetrics: without uptime readings it stops
    after replacing the current metrics; otherwise what it returns depends
    on the connection and on the cpu and memory readings. *)
Ltac processMetrics_paths m w :=
  unfold processMetrics;
  destruct (m_uptime m); [|reflexivity];
  cbn;
  destruct (Websocket.isSocketConnected (socket w));
  destruct (usageOf (m_cpu m));
  destruct (usagePercentageOf (m_memory m));
  reflexivity.

(* Reload *)

Lemma loadPersistedData_startTime :
  forall w data,
    file w = FileData data ->
    startTime (monitoringData (loadPersistedData w))
    = Z.min (startTime (monitoringData w))
        (orCurrent (p_startTime data) (startTime (monitoringData w))).
Proof.
  intros w data H. unfold loadPersistedData. rewrite H. reflexivity.
Qed.

(* History *)

Lemma pushHistory_room :
  forall p h,
    (List.length h < 100)%nat -> pushHistory p h = h ++ [p].
Proof.
  intros p h H. unfold pushHistory.
  rewrite length_app. cbn [List.length].
  destruct (Nat.ltb_spec 100 (List.length h + 1)); [lia|reflexivity].
Qed.

Lemma pushHistory_full :
  forall p h,
    (100 <= List.length h)%nat -> pushHistory p h = tl h ++ [p].
Proof.
  intros p h H. unfold pushHistory.
  rewrite length_app. cbn [List.length].
  destruct (Nat.ltb_spec 100 (List.length h + 1)); [|lia].
  destruct h; [cbn in H; lia|reflexivity].
Qed.

Lemma pushHistory_length :
  forall p h,
    (List.length h <= 100)%nat -> (List.length (pushHistory p h) <= 100)%nat.
Proof.
  intros p h H.
  destruct (Nat.eq_dec (List.length h) 100) as [E|N].
  - rewrite pushHistory_full by lia. rewrite length_app. cbn.
    destruct h; cbn in *; lia.
  - rewrite pushHistory_room by lia. rewrite length_app. cbn. lia.
Qed.

Lemma pushAll_window :
  forall points h,
    (List.length h <= 100)%nat ->
    pushAll points h
    = skipn (List.length (h ++ points) - 100) (h ++ points).
Proof.
  induction points as [|p points IH]; intros h H.
  - cbn. rewrite app_nil_r.
    replace (List.length h - 100)%nat with 0%nat by lia. reflexivity.
  - cbn [pushAll fold_left]. fold (pushAll points (pushHistory p h)).
    rewrite IH by (apply pushHistory_length; assumption).
    destruct (Nat.eq_dec (List.length h) 100) as [E|N].
    + rewrite pushHistory_full by lia.
      destruct h as [|x h]; [discriminate|]. cbn [tl].
      rewrite <- app_assoc. cbn [app List.length] in *.
      assert (L : (100 <= List.length (h ++ p :: points))%nat)
        by (rewrite length_app; cbn; lia).
      replace (S (List.length (h ++ p :: points)) - 100)%nat
        with (S (List.length (h ++ p :: points) - 100)) by lia.
      reflexivity.
    + rewrite pushHistory_room by lia.
      rewrite <- app_assoc. reflexivity.
Qed.

Lemma processMetrics_history :
  forall host m w,
    history (monitoringData (snd (processMetrics cfg host m w)))
    = match m_uptime m with
      | Some u => pushHistory (historyPoint m u) (history (monitoringData w))
      | None => history (monitoringData w)
      end.
Proof.
  intros host m w. processMetrics_paths m w.
Qed.

Lemma processAll_history :
  forall snaps w,
    history (monitoringData (processAll cfg snaps w))
    = pushAll (pointsOf snaps) (history (monitoringData w)).
Proof.
  induction snaps as [|[host m] snaps IH]; intros w; [reflexivity|].
  cbn [processAll fold_left fst snd].
  fold (processAll cfg snaps (snd (processMetrics cfg host m w))).
  rewrite IH, processMetrics_history.
  cbn [pointsOf flat_map snd]. fold (pointsOf snaps).
  unfold pushAll. rewrite fold_left_app.
  destruct (m_uptime m); reflexivity.
Qed.

Lemma processMetrics_file :
  forall host m w, file (snd (processMetrics cfg host m w)) = file w.
Proof.
  intros host m w. processMetrics_paths m w.
Qed.

Lemma processMetrics_bounded :
  forall host m w, bounded w -> bounded (snd (processMetrics cfg host m w)).
Proof.
  intros host m w (H & F). split.
  - rewrite processMetrics_history.
    destruct (m_uptime m); [now apply pushHistory_length|assumption].
  - now rewrite processMetrics_file.
Qed.

Lemma persistData_bounded :
  forall host w, bounded w -> bounded (snd (persistData host w)).
Proof.
  intros host w (H & F). unfold persistData.
  destruct (fs_writeOk host); split; cbn; assumption.
Qed.

Lemma handleMetricsError_bounded :
  forall host e w, bounded w -> bounded (handleMetricsError cfg host e w).
Proof.
  intros host e w (H & F). unfold handleMetricsError. cbn.
  destruct (_ && _); split; assumption.
Qed.

Lemma runJob_bounded :
  forall host j w, bounded w -> bounded (runJob cfg host j w).
Proof.
  intros host j w B. unfold runJob.
  destruct (job_action j) as [| |ref b].
  - unfold metricsJob.
    destruct (collectMetrics cfg host w) as [m|e|]; [| |assumption].
    + pose proof (processMetrics_bounded host m w B) as P.
      destruct (processMetrics cfg host m w) as [[e|] w1]; cbn in P.
      * now apply handleMetricsError_bounded.
      * apply persistData_bounded.
        destruct (0 <? count (errors (monitoringData w1))); [|assumption].
        destruct P as (H & F). split; assumption.
    + now apply handleMetricsError_bounded.
  - now apply persistData_bounded.
  - unfold taskJob.
    destruct (nth_error (objects w) ref) as [task|]; [|assumption].
    destruct B as (H & F).
    destruct (executeMonitoringTask host task) as [result|message].
    + apply persistData_bounded. split; assumption.
    + destruct b; split; assumption.
Qed.

Lemma getMetrics_bounded :
  forall host w, bounded w -> bounded (snd (getMetrics cfg host w)).
Proof.
  intros host w B. unfold getMetrics.
  destruct (lacksCpuUsage (monitoringData w)); [|assumption].
  destruct (collectMetrics cfg host w) as [m|e|]; try assumption.
  now apply processMetrics_bounded.
Qed.

Lemma loadPersistedData_bounded :
  forall w, bounded w -> bounded (loadPersistedData w).
Proof.
  intros w (H & F). unfold loadPersistedData.
  destruct (file w) as [| | |data] eqn:E; try (split; [assumption|]);
    try (rewrite E; exact I).
  split; cbn.
  - destruct (p_history data); assumption.
  - rewrite E. exact F.
Qed.

Lemma scheduleMonitoringTasks_data :
  forall w,
    monitoringData (scheduleMonitoringTasks w) = monitoringData w
    /\ file (scheduleMonitoringTasks w) = file w.
Proof.
  intros w. unfold scheduleMonitoringTasks.
  generalize (monitoringTasks (monitoringData w)) as refs.
  intros refs. revert w.
  induction refs as [|ref refs IH]; intros w; [now split|].
  cbn [fold_left]. destruct (IH (scheduleOne true w ref)) as (A & B).
  rewrite A, B. unfold scheduleOne.
  destruct (nth_error (objects w) ref); now split.
Qed.

Lemma init_bounded :
  forall host w, bounded w -> bounded (init cfg host w).
Proof.
  intros host w B. unfold init.
  apply loadPersistedData_bounded in B.
  set (w1 := loadPersistedData w) in *.
  set (w2 := register _ MetricsJob w1).
  assert (B2 : bounded w2) by exact B.
  set (w3 := match monitoringTasks (monitoringData w2) with
             | [] => w2
             | _ :: _ => scheduleMonitoringTasks w2
             end).
  assert (B3 : bounded w3).
  { subst w3. destruct (monitoringTasks (monitoringData w2)); [assumption|].
    destruct (scheduleMonitoringTasks_data w2) as (A1 & A2).
    unfold bounded. rewrite A1, A2. exact B2. }
  set (w4 := register (EveryMinutes 30) PersistJob w3).
  assert (B4 : bounded w4) by exact B3.
  destruct (collectMetrics cfg host w4) as [m|e|]; [| |assumption].
  - pose proof (processMetrics_bounded host m w4 B4) as P.
    destruct (processMetrics cfg host m w4) as [[e|] w5]; cbn in P;
      [now apply handleMetricsError_bounded|assumption].
  - now apply handleMetricsError_bounded.
Qed.

Lemma addMonitoringTask_bounded :
  forall host task w,
    bounded w -> bounded (snd (addMonitoringTask host task w)).
Proof.
  intros host task w (H & F). unfold addMonitoringTask. cbn [snd].
  apply persistData_bounded. unfold scheduleMonitoringTask, scheduleOne.
  match goal with
  | |- context [nth_error ?l ?r] => destruct (nth_error l r)
  end; split; assumption.
Qed.

Lemma removeMonitoringTask_bounded :
  forall host taskId w,
    bounded w -> bounded (snd (removeMonitoringTask host taskId w)).
Proof.
  intros host taskId w B. unfold removeMonitoringTask.
  destruct (findIndex _ _); [|assumption].
  cbn [snd]. apply persistData_bounded. destruct B as (H & F).
  split; assumption.
Qed.

Lemma lifetime_bounded :
  forall es w, bounded w -> bounded (lifetime cfg es w).
Proof.
  induction es as [|e es IH]; intros w B; [assumption|].
  cbn [lifetime fold_left]. apply IH.
  destruct e as [host j|host|host task|host taskId|host]; cbn [happen].
  - now apply runJob_bounded.
  - now apply getMetrics_bounded.
  - now apply addMonitoringTask_bounded.
  - now apply removeMonitoringTask_bounded.
  - apply init_bounded. split; [cbn; lia|]. cbn. apply B.
Qed.

(** C4. processMetrics keeps the history within 100 points.  On a full
    history it appends the new point and drops the first one, the others
    keeping their order; with room left it only appends.  After any run
    of snapshots the history is the last 100 of what was there followed by
    the points of the run, so 101 pushes on an empty history leave the
    points 2 to 101.  From a fresh installation on, through job firings,
    queries and restarts on the file the agent wrote, the history never
    holds more than 100 points. *)
Theorem history_bounded_fifo :
  forall host m w,
    let h := history (monitoringData w) in
    let h' := history (monitoringData (snd (processMetrics cfg host m w))) in
    ((List.length h <= 100)%nat -> (List.length h' <= 100)%nat)
    /\ (forall u,
          m_uptime m = Some u -> List.length h = 100%nat ->
          h' = tl h ++ [historyPoint m u])
    /\ (forall u,
          m_uptime m = Some u -> (List.length h < 100)%nat ->
          h' = h ++ [historyPoint m u])
    /\ (forall snaps,
          (List.length h <= 100)%nat ->
          let all := h ++ pointsOf snaps in
          let after := history (monitoringData (processAll cfg snaps w)) in
          after = skipn (List.length all - 100) all
          /\ (List.length after <= 100)%nat)
    /\ (forall snaps,
          h = [] -> List.length (pointsOf snaps) = 101%nat ->
          history (monitoringData (processAll cfg snaps w))
          = tl (pointsOf snaps))
    /\ (forall boot es,
          let fresh := initialWorld (clock boot) FileMissing in
          let w' := lifetime cfg es (init cfg boot fresh) in
          (List.length (history (monitoringData w')) <= 100)%nat).
Proof.
  intros host m w h h'. subst h h'.
  rewrite processMetrics_history.
  split; [|split; [|split; [|split; [|split]]]].
  - intros H. destruct (m_uptime m); [|assumption].
    now apply pushHistory_length.
  - intros u E L. rewrite E. apply pushHistory_full. lia.
  - intros u E L. rewrite E. now apply pushHistory_room.
  - intros snaps L all after. subst all after.
    rewrite processAll_history, pushAll_window by assumption.
    split; [reflexivity|].
    rewrite length_skipn. lia.
  - intros snaps E L.
    rewrite processAll_history, E, pushAll_window by (cbn; lia).
    cbn [app]. rewrite L. cbn.
    destruct (pointsOf snaps); [discriminate|reflexivity].
  - intros boot es. apply lifetime_bounded, init_bounded.
    split; [cbn; lia|exact I].
Qed.

(* Rewards *)

(** C2.  For every invocation of distributeRewards at time [now], in a
    state whose [lastRewardTime] is null or a time other than 0 (the only
    value the code ever stores is [Date.now()]; see the last conjunct):
    the reward issuer is called exactly when the uptime percentage, as
    the machine computes it in double precision, is at least 90 and
    [lastRewardTime] is null or at least [rewardInterval] old.  The amount
    is [rewardAmount * (uptimePct / 100)], each operation rounded.  When
    the issuer returns a transaction, [lastRewardTime] becomes [now]; when
    it throws, or when nothing is issued, the state is left as it was. *)
Theorem reward_gate :
  forall host w,
    let d := monitoringData w in
    let now := clock host in
    lastRewardTime d <> Some 0 ->
    let r := Rewards.distributeRewards cfg host w in
    let due :=
      lastRewardTime d = None
      \/ exists t,
           lastRewardTime d = Some t /\ solana_rewardInterval cfg <= now - t in
    (issued (fst r) = true <->
     (exists pct,
        Rewards.uptimePercentage now d = Some pct
        /\ Binary64.geb pct (Binary64.of_Z 90) = true)
     /\ due)
    /\ (forall pct,
          Rewards.uptimePercentage now d = Some pct ->
          issued (fst r) = true ->
          let amount :=
            Binary64.value
              (Binary64.mul (Binary64.of_Q (solana_rewardAmount cfg))
                 (Binary64.div pct (Binary64.of_Z 100))) in
          issuedAmount (fst r) = Some amount
          /\ fst r
             = match solana_sendReward host amount with
               | Some txId => Rewarded amount txId
               | None => RewardFailed amount
               end)
    /\ (forall amount txId,
          fst r = Rewarded amount txId ->
          lastRewardTime (monitoringData (snd r)) = Some now
          /\ snd r = updateData (set_lastRewardTime (Some now)) w)
    /\ ((forall amount txId, fst r <> Rewarded amount txId) -> snd r = w)
    /\ (now <> 0 -> lastRewardTime (monitoringData (snd r)) <> Some 0).
Proof.
  intros host w d now NZ r due. subst r due.
  unfold Rewards.distributeRewards, notYetTime, Rewards.rewardAmountFor.
  fold d. fold now.
  assert (Due : (match lastRewardTime d with
                 | Some t =>
                     negb (t =? 0) && (now - t <? solana_rewardInterval cfg)
                 | None => false
                 end = false)
                <-> (lastRewardTime d = None
                     \/ exists t,
                          lastRewardTime d = Some t
                          /\ solana_rewardInterval cfg <= now - t)).
  { destruct (lastRewardTime d) as [t|]; [|split; [now left|reflexivity]].
    assert (T : t <> 0) by (intros ->; now apply NZ).
    apply Z.eqb_neq in T. rewrite T. cbn [negb andb]. split.
    - intros L. apply Z.ltb_ge in L. right. now exists t.
    - intros [F|(t' & E & L)]; [discriminate|].
      injection E as <-. now apply Z.ltb_ge. }
  destruct (match lastRewardTime d with Some _ => _ | None => _ end).
  - cbn [fst snd issued issuedAmount]. repeat split; try discriminate.
    + intros (_ & D). apply Due in D. discriminate.
    + intros _. exact NZ.
  - apply proj1 in Due. specialize (Due eq_refl).
    destruct (Rewards.uptimePercentage now d) as [pct|] eqn:Hp;
      [destruct (Binary64.geb pct (Binary64.of_Z 90)) eqn:Hg;
         [destruct (solana_sendReward host _) as [tx|] eqn:Hs|]|];
      cbn [fst snd issued issuedAmount]; repeat split;
      try discriminate; try assumption; eauto.
    all: try (intros N; exfalso; exact (N _ _ eq_refl)).
    all: try (intros ((p & [= <-] & G) & _); congruence).
    all: try (intros _; exact NZ).
    all: try (intros N F; cbn in F; injection F as F; now apply N).
    all: match goal with
         | H : Some _ = Some _ |- _ =>
             injection H as <-; rewrite ?Hs; reflexivity
         end.
Qed.

(* Collection *)

Lemma processMetrics_errors :
  forall host m w,
    errors (monitoringData (snd (processMetrics cfg host m w)))
    = errors (monitoringData w).
Proof.
  intros host m w. processMetrics_paths m w.
Qed.

Lemma processMetrics_ok :
  forall host m w u a b,
    m_uptime m = Some u ->
    usageOf (m_cpu m) = Some a ->
    usagePercentageOf (m_memory m) = Some b ->
    fst (processMetrics cfg host m w) = None.
Proof.
  intros host m w u a b Hu Ha Hb. unfold processMetrics.
  rewrite Hu, Ha, Hb. reflexivity.
Qed.

Lemma persistData_data :
  forall host w, monitoringData (snd (persistData host w)) = monitoringData w.
Proof.
  intros host w. unfold persistData. destruct (fs_writeOk host); reflexivity.
Qed.

Lemma handleMetricsError_count :
  forall host e w,
    errorCount (handleMetricsError cfg host e w) = errorCount w + 1.
Proof.
  intros host e w. unfold handleMetricsError, errorCount. cbn.
  destruct (_ && _); reflexivity.
Qed.

Lemma guarded_timeout :
  forall (A B : Type) (text : string) (keep : A -> B) p,
    timedOut p = true -> guarded text keep p = ErrorMarker text.
Proof.
  intros A B text keep [t l|t e|] H; unfold guarded; cbn in *;
    try reflexivity;
    apply Z.leb_le in H;
    destruct (Z.ltb_spec t 5000); try lia; reflexivity.
Qed.

Lemma guarded_rejected :
  forall (A B : Type) (text : string) (keep : A -> B) t e,
    t < 5000 -> guarded text keep (Rejects t e) = ErrorMarker e.
Proof.
  intros A B text keep t e H. unfold guarded. cbn.
  destruct (Z.ltb_spec t 5000); [reflexivity|lia].
Qed.

Lemma guarded_resolved :
  forall (A B : Type) (text : string) (keep : A -> B) t l,
    t < 5000 -> guarded text keep (Resolves t l) = Reading (map keep l).
Proof.
  intros A B text keep t l H. unfold guarded. cbn.
  destruct (Z.ltb_spec t 5000); [reflexivity|lia].
Qed.

(** C7, as the code has it.  Only the disk and the network collections
    are raced against a 5000 timer inside a [try] of their own: a timeout
    or a rejection there puts an error marker in that domain, the snapshot
    is returned with the readings of the other domains, and the metrics
    job does not raise [errors.count].  The cpu collection is not
    guarded: when it throws, collectMetrics throws and the job raises
    [errors.count]; when its callback never comes, collectMetrics never
    returns. *)
Theorem partial_failures_isolated :
  forall host w,
    let flags := monitoring_metrics cfg in
    (timedOut (si_fsSize host) = true ->
     diskDomain host = ErrorMarker "Disk metrics collection timeout")
    /\ (forall t e,
          si_fsSize host = Rejects t e -> t < 5000 ->
          diskDomain host = ErrorMarker e)
    /\ (timedOut (si_networkStats host) = true ->
        networkDomain host = ErrorMarker "Network metrics collection timeout")
    /\ (forall t e,
          si_networkStats host = Rejects t e -> t < 5000 ->
          networkDomain host = ErrorMarker e)
    /\ (forall load c cs,
          osUtils_cpuUsage host = Some load ->
          os_cpus host = c :: cs ->
          exists m,
            collectMetrics cfg host w = Returned m
            /\ m_disk m = (if f_disk flags then diskDomain host else NoReading)
            /\ m_network m
               = (if f_network flags then networkDomain host else NoReading)
            /\ usageOf (m_cpu m)
               = (if f_cpu flags then Some (mul load (Fin 100)) else None)
            /\ usagePercentageOf (m_memory m)
               = (if f_memory flags
                  then Some (mul (div (of_Z (os_totalmem host
                                             - os_freemem host))
                                      (of_Z (os_totalmem host)))
                                 (Fin 100))
                  else None)
            /\ (f_cpu flags = true -> f_memory flags = true ->
                f_uptime flags = true ->
                errorCount (metricsJob cfg host w)
                = (if 0 <? errorCount w then 0 else errorCount w)))
    /\ (forall load,
          f_cpu flags = true ->
          osUtils_cpuUsage host = Some load ->
          os_cpus host = [] ->
          (exists e, collectMetrics cfg host w = Threw e)
          /\ errorCount (metricsJob cfg host w) = errorCount w + 1)
    /\ (f_cpu flags = true ->
        osUtils_cpuUsage host = None ->
        collectMetrics cfg host w = Hangs).
Proof.
  intros host w flags.
  split; [intros H; now apply guarded_timeout|].
  split; [intros t e H L; unfold diskDomain; rewrite H;
          now apply guarded_rejected|].
  split; [intros H; now apply guarded_timeout|].
  split; [intros t e H L; unfold networkDomain; rewrite H;
          now apply guarded_rejected|].
  split; [|split].
  - intros load c cs Hl Hc.
    assert (E : exists m,
               collectMetrics cfg host w = Returned m
               /\ m_disk m
                  = (if f_disk flags then diskDomain host else NoReading)
               /\ m_network m
                  = (if f_network flags then networkDomain host
                     else NoReading)
               /\ usageOf (m_cpu m)
                  = (if f_cpu flags then Some (mul load (Fin 100)) else None)
               /\ usagePercentageOf (m_memory m)
                  = (if f_memory flags
                     then Some (mul (div (of_Z (os_totalmem host
                                                - os_freemem host))
                                         (of_Z (os_totalmem host)))
                                    (Fin 100))
                     else None)
               /\ m_uptime m
                  = (if f_uptime flags
                     then Some {| up_system := os_uptime host;
                                  up_process := process_uptime host;
                                  up_client :=
                                    inject_Z
                                      (clock host
                                       - startTime (monitoringData w))
                                    / 1000 |}
                     else None)).
    { unfold collectMetrics. fold flags. rewrite Hl, Hc.
      destruct (f_cpu flags); eexists; (split; [reflexivity|]);
        cbn; destruct (f_memory flags); repeat split. }
    destruct E as (m & Em & Ed & En & Eu & Ep & Et).
    exists m. repeat (split; [assumption|]).
    intros Fc Fm Fu. rewrite Fc in Eu. rewrite Fm in Ep. rewrite Fu in Et.
    unfold metricsJob. rewrite Em.
    pose proof (processMetrics_ok host m w _ _ _ Et Eu Ep) as Ok.
    pose proof (processMetrics_errors host m w) as Er.
    destruct (processMetrics cfg host m w) as [threw w1]. cbn in Ok, Er.
    subst threw. unfold errorCount. rewrite persistData_data.
    rewrite Er.
    destruct (0 <? count (errors (monitoringData w))) eqn:P;
      [reflexivity|]. now rewrite Er.
  - intros load Fc Hl Hc.
    assert (E : collectMetrics cfg host w
                = Threw
                    "Cannot read properties of undefined (reading 'model')").
    { unfold collectMetrics. fold flags. rewrite Fc, Hl, Hc. reflexivity. }
    split; [eauto|].
    unfold metricsJob. rewrite E. apply handleMetricsError_count.
  - intros Fc Hl. unfold collectMetrics. fold flags. now rewrite Fc, Hl.
Qed.

(* Tasks *)

Lemma findIndex_Some :
  forall (A : Type) (p : A -> bool) l i,
    findIndex p l = Some i ->
    (exists x, nth_error l i = Some x /\ p x = true)
    /\ (forall j y, (j < i)%nat -> nth_error l j = Some y -> p y = false).
Proof.
  intros A p. induction l as [|x l IH]; intros i H; [discriminate|].
  cbn in H. destruct (p x) eqn:Px.
  - injection H as <-. split; [exists x; now split|]. intros j y L. lia.
  - destruct (findIndex p l) as [k|] eqn:F; [|discriminate].
    injection H as <-. destruct (IH k eq_refl) as ((y & Hy & Py) & Hb).
    split; [exists y; now split|].
    intros [|j] z L Hz; cbn in Hz.
    + now injection Hz as <-.
    + apply (Hb j); [lia|assumption].
Qed.

Lemma findIndex_None :
  forall (A : Type) (p : A -> bool) l,
    findIndex p l = None <-> (forall x, In x l -> p x = false).
Proof.
  intros A p. induction l as [|x l IH]; cbn.
  - split; [intros _ y []|reflexivity].
  - destruct (p x) eqn:Px.
    + split; [discriminate|]. intros H.
      rewrite (H x (or_introl eq_refl)) in Px. discriminate.
    + destruct (findIndex p l) as [k|] eqn:F.
      * split; [discriminate|]. intros H.
        assert (N : Some k = None)
          by (apply IH; intros y Iy; apply H; now right).
        discriminate.
      * split; [|reflexivity]. intros _ y [<-|Iy]; [assumption|].
        now apply IH.
Qed.

Lemma persistData_frame :
  forall host w,
    objects (snd (persistData host w)) = objects w
    /\ socket (snd (persistData host w)) = socket w
    /\ cronJobs (snd (persistData host w)) = cronJobs w.
Proof.
  intros host w. unfold persistData.
  destruct (fs_writeOk host); repeat split.
Qed.

Lemma taskJob_frame :
  forall host ref b w1 w2,
    objects w1 = objects w2 ->
    socket w1 = socket w2 ->
    objects (taskJob cfg host ref b w1) = objects (taskJob cfg host ref b w2)
    /\ socket (taskJob cfg host ref b w1)
       = socket (taskJob cfg host ref b w2).
Proof.
  intros host ref b w1 w2 Ho Hs. unfold taskJob. rewrite Ho, Hs.
  destruct (nth_error (objects w2) ref) as [task|]; [|now split].
  destruct (executeMonitoringTask host task) as [result|message].
  - match goal with
    | |- context [persistData host ?a] =>
        destruct (persistData_frame host a) as (A1 & A2 & _)
    end.
    rewrite A1, A2.
    match goal with
    | |- context [persistData host ?a] =>
        destruct (persistData_frame host a) as (B1 & B2 & _)
    end.
    rewrite B1, B2. cbn. rewrite Ho. now split.
  - destruct b; cbn; now split.
Qed.

(** C8, as the code has it.  removeMonitoringTask returns [true] exactly
    when some task of the array has the given id; it then removes the
    first such task from the array, and otherwise leaves everything as it
    was.  It does not touch the registered cron jobs: the job of the
    removed task stays, and a later firing does what it did before. *)
Theorem removeTask_contract :
  forall host taskId w,
    let r := removeMonitoringTask host taskId w in
    let refs := monitoringTasks (monitoringData w) in
    ((exists ref, In ref refs /\ hasId w taskId ref = true) <->
     fst r = true)
    /\ (fst r = true ->
        exists i ref,
          nth_error refs i = Some ref
          /\ hasId w taskId ref = true
          /\ (forall j y,
                (j < i)%nat -> nth_error refs j = Some y ->
                hasId w taskId y = false)
          /\ monitoringTasks (monitoringData (snd r)) = removeAt i refs)
    /\ (fst r = false -> snd r = w)
    /\ cronJobs (snd r) = cronJobs w
    /\ objects (snd r) = objects w
    /\ (forall host' ref b,
          objects (taskJob cfg host' ref b (snd r))
          = objects (taskJob cfg host' ref b w)
          /\ socket (taskJob cfg host' ref b (snd r))
             = socket (taskJob cfg host' ref b w)).
Proof.
  intros host taskId w r refs. subst r refs.
  unfold removeMonitoringTask.
  destruct (findIndex (hasId w taskId) (monitoringTasks (monitoringData w)))
    as [i|] eqn:F; cbn [fst snd].
  - destruct (findIndex_Some _ _ _ _ F) as ((ref & Hn & Hp) & Hb).
    match goal with
    | |- context [persistData host ?a] =>
        destruct (persistData_frame host a) as (A1 & A2 & A3);
          pose proof (persistData_data host a) as A4
    end.
    split; [split; [reflexivity|]|].
    { intros _. exists ref. split; [|assumption].
      eapply nth_error_In; eassumption. }
    split.
    { intros _. exists i, ref. repeat (split; [assumption|]).
      rewrite A4. reflexivity. }
    split; [discriminate|].
    split; [now rewrite A3|]. split; [now rewrite A1|].
    intros host' ref' b. apply taskJob_frame; [now rewrite A1|now rewrite A2].
  - pose proof (proj1 (findIndex_None _ _ _) F) as N.
    split; [split; [|discriminate]|].
    { intros (ref & Hi & Hp). rewrite (N ref Hi) in Hp. discriminate. }
    split; [discriminate|]. repeat split.
Qed.

(* Query surface *)

Lemma send_first_write :
  forall env type data priority s,
    Websocket.isConnected s = true ->
    hd true (Websocket.transport s) = true ->
    Websocket.wire (snd (Websocket.send cfg env type data priority s))
    = Websocket.wire s
      ++ [{| msg_type := type; msg_data := data;
             msg_timestamp := Websocket.now env;
             msg_priority := priority |}].
Proof.
  intros env type data priority s Hc Ht. unfold Websocket.send.
  destruct (Websocket.transport s) as [|[|] rest]; cbn in Ht |- *;
    try discriminate; rewrite Hc; reflexivity.
Qed.

(** C10, as the code has it.  While the stored metrics hold a non-zero
    cpu usage, getMetrics returns its report and changes nothing.  While
    they hold none, it collects; if the collection returns a snapshot
    (with uptime readings) it replaces the current metrics, pushes a
    history point, and hands a metrics message to the connection when that
    is open and the node is registered: for an unregistered node, or a
    closed connection, nothing is transmitted.  If the collection throws,
    the state stays as it was. *)
Theorem getMetrics_effects :
  forall host w,
    let d := monitoringData w in
    let r := getMetrics cfg host w in
    let env := wsEnv host in
    (forall usage,
       usageOf (c_cpu (metrics d)) = Some usage -> truthy usage = true ->
       r = (Some (report w), w))
    /\ (forall m u,
          usageOf (c_cpu (metrics d)) = None ->
          collectMetrics cfg host w = Returned m ->
          m_uptime m = Some u ->
          let w' := snd r in
          fst r = Some (report w')
          /\ metrics (monitoringData w')
             = {| c_cpu := m_cpu m; c_memory := m_memory m;
                  c_disk := m_disk m; c_network := m_network m;
                  c_uptime := UptimeValue u |}
          /\ history (monitoringData w')
             = pushHistory (historyPoint m u) (history d)
          /\ (Websocket.isConnected (socket w) = true ->
              registered (Websocket.user env) = true ->
              hd true (Websocket.transport (socket w)) = true ->
              Websocket.wire (socket w')
              = Websocket.wire (socket w)
                ++ [{| msg_type := "metrics";
                       msg_data :=
                         PMetrics (nodeId (Websocket.user env))
                           (publicKey (Websocket.user env)) m;
                       msg_timestamp := Websocket.now env;
                       msg_priority := normal |}])
          /\ (Websocket.isConnected (socket w) = true ->
              registered (Websocket.user env) = false ->
              Websocket.wire (socket w') = Websocket.wire (socket w)
              /\ Websocket.pendingMessages (socket w')
                 = Websocket.pendingMessages (socket w))
          /\ (Websocket.isConnected (socket w) = false ->
              Websocket.wire (socket w') = Websocket.wire (socket w)
              /\ Websocket.pendingMessages (socket w')
                 = Websocket.pendingMessages (socket w)))
    /\ (forall e,
          usageOf (c_cpu (metrics d)) = None ->
          collectMetrics cfg host w = Threw e ->
          r = (Some (report w), w)).
Proof.
  intros host w d r env. subst r. unfold getMetrics, lacksCpuUsage.
  fold d. split; [|split].
  - intros usage Hu Ht. rewrite Hu, Ht. reflexivity.
  - intros m u Hu Hc Hm. rewrite Hu, Hc. cbn [fst snd].
    split; [reflexivity|].
    split.
    { unfold processMetrics. rewrite Hm. cbn.
      destruct (Websocket.isSocketConnected (socket w));
        destruct (usageOf (m_cpu m));
        destruct (usagePercentageOf (m_memory m)); reflexivity. }
    split; [rewrite processMetrics_history, Hm; reflexivity|].
    assert (S : socket (snd (processMetrics cfg host m w))
                = if Websocket.isSocketConnected (socket w)
                  then snd (Websocket.sendMetrics cfg env m (socket w))
                  else Websocket.logger Websocket.warn
                         "WebSocket disconnected, metrics not sent to main application"
                         (socket w)).
    { unfold processMetrics. rewrite Hm. cbn.
      destruct (Websocket.isSocketConnected (socket w));
        destruct (usageOf (m_cpu m));
        destruct (usagePercentageOf (m_memory m)); reflexivity. }
    rewrite S. unfold Websocket.isSocketConnected, Websocket.sendMetrics.
    split; [|split].
    + intros C R T. rewrite C, R. cbn [negb].
      now apply send_first_write.
    + intros C R. rewrite C, R. cbn. now split.
    + intros C. rewrite C. cbn. now split.
  - intros e Hu Hc. rewrite Hu, Hc. reflexivity.
Qed.

(* The reward time over the life of an installation *)

Lemma processMetrics_lastRewardTime :
  forall host m w,
    lastRewardTime (monitoringData (snd (processMetrics cfg host m w)))
    = lastRewardTime (monitoringData w).
Proof.
  intros host m w. processMetrics_paths m w.
Qed.

Lemma processMetrics_unrewarded :
  forall host m w,
    unrewarded w -> unrewarded (snd (processMetrics cfg host m w)).
Proof.
  intros host m w (H & F). split.
  - now rewrite processMetrics_lastRewardTime.
  - now rewrite processMetrics_file.
Qed.

Lemma persistData_unrewarded :
  forall host w, unrewarded w -> unrewarded (snd (persistData host w)).
Proof.
  intros host w (H & F). unfold persistData.
  destruct (fs_writeOk host); split; cbn; try assumption.
  now rewrite H.
Qed.

Lemma handleMetricsError_unrewarded :
  forall host e w,
    unrewarded w -> unrewarded (handleMetricsError cfg host e w).
Proof.
  intros host e w (H & F). unfold handleMetricsError. cbn.
  destruct (_ && _); split; assumption.
Qed.

Lemma runJob_unrewarded :
  forall host j w, unrewarded w -> unrewarded (runJob cfg host j w).
Proof.
  intros host j w B. unfold runJob.
  destruct (job_action j) as [| |ref b].
  - unfold metricsJob.
    destruct (collectMetrics cfg host w) as [m|e|]; [| |assumption].
    + pose proof (processMetrics_unrewarded host m w B) as P.
      destruct (processMetrics cfg host m w) as [[e|] w1]; cbn in P.
      * now apply handleMetricsError_unrewarded.
      * apply persistData_unrewarded.
        destruct (0 <? count (errors (monitoringData w1))); [|assumption].
        destruct P as (H & F). split; assumption.
    + now apply handleMetricsError_unrewarded.
  - now apply persistData_unrewarded.
  - unfold taskJob.
    destruct (nth_error (objects w) ref) as [task|]; [|assumption].
    destruct B as (H & F).
    destruct (executeMonitoringTask host task) as [result|message].
    + apply persistData_unrewarded. split; assumption.
    + destruct b; split; assumption.
Qed.

Lemma getMetrics_unrewarded :
  forall host w, unrewarded w -> unrewarded (snd (getMetrics cfg host w)).
Proof.
  intros host w B. unfold getMetrics.
  destruct (lacksCpuUsage (monitoringData w)); [|assumption].
  destruct (collectMetrics cfg host w) as [m|e|]; try assumption.
  now apply processMetrics_unrewarded.
Qed.

Lemma addMonitoringTask_unrewarded :
  forall host task w,
    unrewarded w -> unrewarded (snd (addMonitoringTask host task w)).
Proof.
  intros host task w (H & F). unfold addMonitoringTask. cbn [snd].
  apply persistData_unrewarded. unfold scheduleMonitoringTask, scheduleOne.
  match goal with
  | |- context [nth_error ?l ?r] => destruct (nth_error l r)
  end; split; assumption.
Qed.

Lemma removeMonitoringTask_unrewarded :
  forall host taskId w,
    unrewarded w -> unrewarded (snd (removeMonitoringTask host taskId w)).
Proof.
  intros host taskId w B. unfold removeMonitoringTask.
  destruct (findIndex _ _); [|assumption].
  cbn [snd]. apply persistData_unrewarded. destruct B as (H & F).
  split; assumption.
Qed.

Lemma loadPersistedData_unrewarded :
  forall w, unrewarded w -> unrewarded (loadPersistedData w).
Proof.
  intros w (H & F). unfold loadPersistedData.
  destruct (file w) as [| | |data] eqn:E; try (split; [assumption|]);
    try (rewrite E; exact I).
  split; cbn.
  - destruct (p_lastRewardTime data) as [[t|]|];
      [contradiction|reflexivity|assumption].
  - rewrite E. exact F.
Qed.

Lemma init_unrewarded :
  forall host w, unrewarded w -> unrewarded (init cfg host w).
Proof.
  intros host w B. unfold init.
  apply loadPersistedData_unrewarded in B.
  set (w1 := loadPersistedData w) in *.
  set (w2 := register _ MetricsJob w1).
  assert (B2 : unrewarded w2) by exact B.
  set (w3 := match monitoringTasks (monitoringData w2) with
             | [] => w2
             | _ :: _ => scheduleMonitoringTasks w2
             end).
  assert (B3 : unrewarded w3).
  { subst w3. destruct (monitoringTasks (monitoringData w2)); [assumption|].
    destruct (scheduleMonitoringTasks_data w2) as (A1 & A2).
    unfold unrewarded. rewrite A1, A2. exact B2. }
  set (w4 := register (EveryMinutes 30) PersistJob w3).
  assert (B4 : unrewarded w4) by exact B3.
  destruct (collectMetrics cfg host w4) as [m|e|]; [| |assumption].
  - pose proof (processMetrics_unrewarded host m w4 B4) as P.
    destruct (processMetrics cfg host m w4) as [[e|] w5]; cbn in P;
      [now apply handleMetricsError_unrewarded|assumption].
  - now apply handleMetricsError_unrewarded.
Qed.

Lemma lifetime_unrewarded :
  forall es w, unrewarded w -> unrewarded (lifetime cfg es w).
Proof.
  induction es as [|e es IH]; intros w B; [assumption|].
  cbn [lifetime fold_left]. apply IH.
  destruct e as [host j|host|host task|host taskId|host]; cbn [happen].
  - now apply runJob_unrewarded.
  - now apply getMetrics_unrewarded.
  - now apply addMonitoringTask_unrewarded.
  - now apply removeMonitoringTask_unrewarded.
  - apply init_unrewarded. split; [reflexivity|]. cbn. apply B.
Qed.

(* Start time across restarts *)

Lemma processMetrics_startTime :
  forall host m w,
    startTime (monitoringData (snd (processMetrics cfg host m w)))
    = startTime (monitoringData w).
Proof.
  intros host m w. processMetrics_paths m w.
Qed.

Lemma handleMetricsError_startTime :
  forall host e w,
    startTime (monitoringData (handleMetricsError cfg host e w))
    = startTime (monitoringData w)
    /\ file (handleMetricsError cfg host e w) = file w.
Proof.
  intros host e w. unfold handleMetricsError. cbn.
  destruct (_ && _); split; reflexivity.
Qed.

Lemma init_startTime :
  forall host w,
    startTime (monitoringData (init cfg host w))
    = startTime (monitoringData (loadPersistedData w))
    /\ file (init cfg host w) = file (loadPersistedData w).
Proof.
  intros host w. unfold init.
  set (w1 := loadPersistedData w).
  set (w2 := register _ MetricsJob w1).
  set (w3 := match monitoringTasks (monitoringData w2) with
             | [] => w2
             | _ :: _ => scheduleMonitoringTasks w2
             end).
  assert (E3 : monitoringData w3 = monitoringData w1 /\ file w3 = file w1).
  { subst w3. destruct (monitoringTasks (monitoringData w2));
      [now split|].
    destruct (scheduleMonitoringTasks_data w2) as (A1 & A2).
    rewrite A1, A2. now split. }
  destruct E3 as (D3 & F3).
  set (w4 := register (EveryMinutes 30) PersistJob w3).
  assert (D4 : startTime (monitoringData w4) = startTime (monitoringData w1))
    by (unfold w4; cbn; now rewrite D3).
  assert (F4 : file w4 = file w1) by exact F3.
  destruct (collectMetrics cfg host w4) as [m|e|].
  - pose proof (processMetrics_startTime host m w4) as P.
    pose proof (processMetrics_file host m w4) as Q.
    destruct (processMetrics cfg host m w4) as [[e|] w5]; cbn [snd] in P, Q.
    + destruct (handleMetricsError_startTime host e w5) as (A & B).
      rewrite A, B, P, Q. now split.
    + rewrite P, Q. now split.
  - destruct (handleMetricsError_startTime host e w4) as (A & B).
    rewrite A, B. now split.
  - now split.
Qed.

Lemma persistData_dated :
  forall host w, dated w -> dated (snd (persistData host w)).
Proof.
  intros host w (H & F). unfold persistData.
  destruct (fs_writeOk host); split; cbn; try assumption.
  now exists (startTime (monitoringData w)).
Qed.

Lemma processMetrics_dated :
  forall host m w, dated w -> dated (snd (processMetrics cfg host m w)).
Proof.
  intros host m w (H & F). split.
  - now rewrite processMetrics_startTime.
  - now rewrite processMetrics_file.
Qed.

Lemma handleMetricsError_dated :
  forall host e w, dated w -> dated (handleMetricsError cfg host e w).
Proof.
  intros host e w (H & F).
  destruct (handleMetricsError_startTime host e w) as (A & B).
  split; [now rewrite A|now rewrite B].
Qed.

Lemma runJob_dated :
  forall host j w, dated w -> dated (runJob cfg host j w).
Proof.
  intros host j w B. unfold runJob.
  destruct (job_action j) as [| |ref b].
  - unfold metricsJob.
    destruct (collectMetrics cfg host w) as [m|e|]; [| |assumption].
    + pose proof (processMetrics_dated host m w B) as P.
      destruct (processMetrics cfg host m w) as [[e|] w1]; cbn in P.
      * now apply handleMetricsError_dated.
      * apply persistData_dated.
        destruct (0 <? count (errors (monitoringData w1))); [|assumption].
        destruct P as (H & F). split; assumption.
    + now apply handleMetricsError_dated.
  - now apply persistData_dated.
  - unfold taskJob.
    destruct (nth_error (objects w) ref) as [task|]; [|assumption].
    destruct B as (H & F).
    destruct (executeMonitoringTask host task) as [result|message].
    + apply persistData_dated. split; assumption.
    + destruct b; split; assumption.
Qed.

Lemma getMetrics_dated :
  forall host w, dated w -> dated (snd (getMetrics cfg host w)).
Proof.
  intros host w B. unfold getMetrics.
  destruct (lacksCpuUsage (monitoringData w)); [|assumption].
  destruct (collectMetrics cfg host w) as [m|e|]; try assumption.
  now apply processMetrics_dated.
Qed.

Lemma addMonitoringTask_dated :
  forall host task w,
    dated w -> dated (snd (addMonitoringTask host task w)).
Proof.
  intros host task w (H & F). unfold addMonitoringTask. cbn [snd].
  apply persistData_dated. unfold scheduleMonitoringTask, scheduleOne.
  match goal with
  | |- context [nth_error ?l ?r] => destruct (nth_error l r)
  end; split; assumption.
Qed.

Lemma removeMonitoringTask_dated :
  forall host taskId w,
    dated w -> dated (snd (removeMonitoringTask host taskId w)).
Proof.
  intros host taskId w B. unfold removeMonitoringTask.
  destruct (findIndex _ _); [|assumption].
  cbn [snd]. apply persistData_dated. destruct B as (H & F).
  split; assumption.
Qed.

Lemma restart_dated :
  forall host w,
    0 < clock host -> dated w -> dated (happen cfg w (Restarts host)).
Proof.
  intros host w C (_ & F). cbn [happen].
  destruct (init_startTime host (initialWorld (clock host) (file w)))
    as (A & B).
  unfold dated. rewrite A, B. unfold loadPersistedData. cbn [file initialWorld].
  destruct (file w) as [| | |data] eqn:E; cbn; try (split; [exact C|exact I]).
  destruct F as (t & Et & Pt). rewrite Et. cbn.
  split; [|now exists t].
  destruct (t =? 0); lia.
Qed.

Lemma lifetime_dated :
  forall es w,
    Forall afterEpoch es -> dated w -> dated (lifetime cfg es w).
Proof.
  induction es as [|e es IH]; intros w A B; [assumption|].
  cbn [lifetime fold_left]. inversion A as [|? ? Ae At]; subst.
  apply IH; [exact At|].
  destruct e as [host j|host|host task|host taskId|host].
  - now apply runJob_dated.
  - now apply getMetrics_dated.
  - now apply addMonitoringTask_dated.
  - now apply removeMonitoringTask_dated.
  - now apply restart_dated.
Qed.

(** C9.  When a persisted record with [startTime = T_old] is loaded at a
    boot whose fresh in-memory [startTime] is [T_new], the effective
    [startTime] is [min T_old T_new], hence [T_old] when [T_new > T_old],
    and never more than [T_new].  This is for a [T_old] other than 0,
    which is every record the agent has written: through the whole life
    of an installation that boots after the epoch, the start time in
    memory and the one on file are positive, and each restart takes the
    earlier of the time on file and its own boot time. *)
Theorem startTime_on_reload :
  (forall w data T_old,
     file w = FileData data ->
     p_startTime data = Some T_old ->
     T_old <> 0 ->
     let T_new := startTime (monitoringData w) in
     let effective := startTime (monitoringData (loadPersistedData w)) in
     effective = Z.min T_old T_new
     /\ (T_old < T_new -> effective = T_old)
     /\ effective <= T_new)
  /\ (forall boot es,
        0 < clock boot ->
        Forall afterEpoch es ->
        let w :=
          lifetime cfg es
            (init cfg boot (initialWorld (clock boot) FileMissing)) in
        dated w
        /\ forall host,
             0 < clock host ->
             let T_new := clock host in
             let effective :=
               startTime
                 (monitoringData (happen cfg w (Restarts host))) in
             match file w with
             | FileData data =>
                 exists T_old,
                   p_startTime data = Some T_old /\ T_old <> 0
                   /\ effective = Z.min T_old T_new
             | _ => effective = T_new
             end).
Proof.
  split.
  - intros w data T_old H E N T_new effective. subst T_new effective.
    rewrite (loadPersistedData_startTime w data H), E.
    unfold orCurrent.
    destruct (T_old =? 0) eqn:Z0; [apply Z.eqb_eq in Z0; contradiction|].
    repeat split; lia.
  - intros boot es C A w.
    assert (D : dated w).
    { subst w. apply lifetime_dated; [exact A|].
      apply (restart_dated boot
               (initialWorld (clock boot) FileMissing) C).
      split; [exact C|exact I]. }
    split; [exact D|].
    intros host Ch T_new effective. subst T_new effective.
    cbn [happen].
    destruct (init_startTime host (initialWorld (clock host) (file w)))
      as (S & _).
    rewrite S. destruct D as (_ & F).
    destruct (file w) as [| | |data] eqn:E; try reflexivity.
    destruct F as (t & Et & Pt). exists t.
    split; [exact Et|]. split; [lia|].
    rewrite (loadPersistedData_startTime
               (initialWorld (clock host) (FileData data)) data eq_refl), Et.
    unfold orCurrent. cbn [startTime monitoringData initialWorld initialData].
    destruct (t =? 0) eqn:Z0; [apply Z.eqb_eq in Z0; lia|]. lia.
Qed.

End MonitorFacts.

(* ------------------------------------------------------------------ *)
(** * Who runs the reward evaluator *)

Lemma distributeRewards_not_invoked :
  forall r, ~ In Agent.distributeRewards (Agent.invokes r).
Proof.
  intros r H. destruct r; cbn in H;
    repeat (destruct H as [H|H]; [discriminate|]); exact H.
Qed.

(** C1, on the code.  No function or callback of the program calls
    distributeRewards or registers it as a cron job, timer, listener or
    handler, and [services/monitor.js] does not export it: it is in no
    execution of the agent, and neither is the reward issuer.  Through the
    whole life of an installation (job firings, queries, task additions
    and removals, restarts) [lastRewardTime] stays null. *)
Theorem distributeRewards_never_runs :
  (forall cfg boot es,
     let fresh := Monitor.initialWorld (Monitor.clock boot)
                    Monitor.FileMissing in
     let w := lifetime cfg es (Monitor.init cfg boot fresh) in
     Monitor.lastRewardTime (Monitor.monitoringData w) = None)
  /\ (forall r, ~ In Agent.distributeRewards (Agent.invokes r))
  /\ ~ In Agent.distributeRewards Agent.monitor_exports
  /\ ~ Agent.runs Agent.distributeRewards
  /\ ~ Agent.runs Agent.sendReward.
Proof.
  split.
  { intros cfg boot es fresh w. subst w.
    apply lifetime_unrewarded, init_unrewarded. split; [reflexivity|exact I]. }
  split; [exact distributeRewards_not_invoked|].
  split.
  { cbn. intros H.
    repeat (destruct H as [H|H]; [discriminate|]). exact H. }
  assert (D : forall r, Agent.runs r -> r <> Agent.distributeRewards).
  { induction 1 as [|r r' R IH I]; [discriminate|].
    intros ->. exact (distributeRewards_not_invoked r I). }
  split; [intros R; exact (D _ R eq_refl)|].
  assert (S : forall r, Agent.runs r -> r <> Agent.sendReward).
  { induction 1 as [|r r' R IH I]; [discriminate|].
    intros ->. destruct r; cbn in I;
      repeat (destruct I as [I|I]; [discriminate|]); try exact I.
    now apply (D _ R). }
  intros R. exact (S _ R eq_refl).
Qed.

(* ------------------------------------------------------------------ *)
(** * Samples *)

(** A sample of C9: a record persisted 100000000 s before this boot; and
    an installation that persists its data and restarts a day later. *)
Lemma startTime_on_reload_witness :
  (let w :=
     Monitor.initialWorld 1700000000000
       (Monitor.FileData (persistedAt (Some 1600000000000))) in
   Monitor.startTime (Monitor.monitoringData (Monitor.loadPersistedData w))
   = 1600000000000)
  /\ (let w :=
        lifetime default_config [Fires laptop persistJob]
          (Monitor.init default_config laptop
             (Monitor.initialWorld (Monitor.clock laptop)
                Monitor.FileMissing)) in
      let later := atTime (1700000000000 + 86400000) laptop in
      Monitor.startTime
        (Monitor.monitoringData (happen default_config w (Restarts later)))
      = 1700000000000).
Proof.
  cbv zeta.
  destruct (startTime_on_reload default_config) as (L & R).
  split.
  - assert (N : 1600000000000 <> 0) by discriminate.
    pose proof (L (Monitor.initialWorld 1700000000000
                     (Monitor.FileData (persistedAt (Some 1600000000000))))
                  (persistedAt (Some 1600000000000)) 1600000000000
                  eq_refl eq_refl N) as H.
    cbv zeta in H. exact (proj1 H).
  - assert (C : 0 < Monitor.clock laptop) by reflexivity.
    assert (A : Forall afterEpoch [Fires laptop persistJob])
      by (repeat constructor).
    pose proof (R laptop [Fires laptop persistJob] C A) as H.
    cbv zeta in H. destruct H as (_ & H).
    assert (C' : 0 < Monitor.clock (atTime (1700000000000 + 86400000) laptop))
      by reflexivity.
    specialize (H (atTime (1700000000000 + 86400000) laptop) C').
    cbn in H. destruct H as (T_old & E & _ & H).
    rewrite H. injection E as <-. reflexivity.
Defined.

(** A sample of C4: one more snapshot on a history of 100 points. *)
Lemma history_bounded_fifo_witness :
  let w := withHistory (repeat oldPoint 100) bootWorld in
  let m := snapshotOf default_config laptop w in
  exists u,
    m_uptime m = Some u
    /\ List.length (Monitor.history (Monitor.monitoringData w)) = 100%nat
    /\ Monitor.history
         (Monitor.monitoringData
            (snd (Monitor.processMetrics default_config laptop m w)))
       = repeat oldPoint 99 ++ [Monitor.historyPoint m u].
Proof.
  cbv zeta.
  pose proof (history_bounded_fifo default_config laptop
                (snapshotOf default_config laptop
                   (withHistory (repeat oldPoint 100) bootWorld))
                (withHistory (repeat oldPoint 100) bootWorld))
    as (_ & F & _).
  eexists. split; [reflexivity|]. split; [reflexivity|].
  exact (F _ eq_refl eq_refl).
Defined.

(** A sample of C2: issuance at exactly 90%.  The client has been up
    for 900 s of the 1000 s since boot; the machine computes 90 and the
    reward is issued. *)
Lemma reward_gate_witness :
  let w := afterFirstSnapshot 900000 in
  let host := atTime (1699999000000 + 1000000) laptop in
  let r := Rewards.distributeRewards default_config host w in
  Monitor.lastRewardTime (Monitor.monitoringData w) <> Some 0
  /\ Rewards.uptimePercentage (Monitor.clock host) (Monitor.monitoringData w)
     = Some (Binary64.of_Z 90)
  /\ issued (fst r) = true
  /\ Monitor.lastRewardTime (Monitor.monitoringData (snd r))
     = Some (Monitor.clock host).
Proof.
  cbv zeta.
  assert (NZ : Monitor.lastRewardTime
                 (Monitor.monitoringData (afterFirstSnapshot 900000))
               <> Some 0) by discriminate.
  split; [exact NZ|]. split; [vm_compute; reflexivity|].
  pose proof (reward_gate default_config
                (atTime (1699999000000 + 1000000) laptop)
                (afterFirstSnapshot 900000) NZ) as H.
  cbv zeta in H. destruct H as (G & _ & L & _).
  split.
  - apply (proj2 G). split; [|now left].
    eexists. split; vm_compute; reflexivity.
  - refine (proj1 (L _ "tx-1"%string _)). vm_compute. reflexivity.
Defined.

(** Just below the threshold nothing is issued: at 89.99%, and also for
    a client up for 1.017 s of the 1.130 s since boot, where the exact
    quotient is 90 and the machine computes 89.99999999999999. *)
Lemma no_reward_below_threshold :
  (let w := afterFirstSnapshot 899900 in
   let host := atTime (1699999000000 + 1000000) laptop in
   issued (fst (Rewards.distributeRewards default_config host w)) = false
   /\ snd (Rewards.distributeRewards default_config host w) = w)
  /\ (let w := afterFirstSnapshot 1017 in
      let host := atTime (1699999000000 + 1130) laptop in
      (exists q,
         Monitor.uptimePercentage (Monitor.clock host)
           (Monitor.monitoringData w) = Some (Fin q)
         /\ (q == 90)%Q)
      /\ Rewards.uptimePercentage (Monitor.clock host)
           (Monitor.monitoringData w)
         = Some (SpecFloat.S754_finite false 6333186975989759 (-46))
      /\ issued (fst (Rewards.distributeRewards default_config host w))
         = false
      /\ snd (Rewards.distributeRewards default_config host w) = w).
Proof.
  cbv zeta. split; [split; vm_compute; reflexivity|].
  split; [eexists; split; [vm_compute; reflexivity|reflexivity]|].
  repeat split; vm_compute; reflexivity.
Qed.

(** A sample of C7: the disk provider never answers. *)
Lemma partial_failures_isolated_witness :
  let host := withDisk Monitor.Never laptop in
  exists m,
    Monitor.collectMetrics default_config host bootWorld = Monitor.Returned m
    /\ m_disk m = ErrorMarker "Disk metrics collection timeout"
    /\ hasReading (m_cpu m) = true
    /\ hasReading (m_memory m) = true
    /\ hasReading (m_network m) = true
    /\ errorCount (Monitor.metricsJob default_config host bootWorld)
       = errorCount bootWorld.
Proof.
  cbv zeta.
  pose proof (partial_failures_isolated default_config
                (withDisk Monitor.Never laptop) bootWorld)
    as (D & _ & _ & _ & C & _).
  destruct (C _ _ _ eq_refl eq_refl) as (m & Em & Ed & En & Eu & Ep & Ec).
  exists m. split; [exact Em|].
  split; [rewrite Ed; exact (D eq_refl)|].
  split; [destruct (m_cpu m); try discriminate; reflexivity|].
  split; [destruct (m_memory m); try discriminate; reflexivity|].
  split; [rewrite En; reflexivity|].
  rewrite (Ec eq_refl eq_refl eq_refl). reflexivity.
Defined.

(** C7 as stated fails for the cpu domain: with no entry in [os.cpus()]
    the whole collection throws and the job raises [errors.count]. *)
Lemma cpu_failure_aborts_collection :
  let host := withCpus [] laptop in
  f_cpu (monitoring_metrics default_config) = true
  /\ Monitor.collectMetrics default_config host bootWorld
     = Monitor.Threw "Cannot read properties of undefined (reading 'model')"
  /\ errorCount bootWorld = 0
  /\ errorCount (Monitor.metricsJob default_config host bootWorld) = 1.
Proof. cbv zeta. repeat split. Qed.

(** A sample of C8: a task is added, then removed by its id. *)
Lemma removeTask_contract_witness :
  let w := snd (Monitor.addMonitoringTask laptop pingTask bootWorld) in
  let r := Monitor.removeMonitoringTask laptop (Some "t1"%string) w in
  In 0%nat (Monitor.monitoringTasks (Monitor.monitoringData w))
  /\ Monitor.hasId w (Some "t1"%string) 0 = true
  /\ fst r = true
  /\ Monitor.monitoringTasks (Monitor.monitoringData (snd r)) = []
  /\ fst (Monitor.removeMonitoringTask laptop (Some "t1"%string) (snd r))
     = false.
Proof.
  cbv zeta.
  split; [now left|]. split; [reflexivity|].
  split; [|split; reflexivity].
  apply (proj1 (proj1 (removeTask_contract default_config laptop
                         (Some "t1"%string) _))).
  exists 0%nat. split; [now left|reflexivity].
Defined.

(** C8 as stated fails on the schedule: after the removal the job of the
    task is still registered, and its next firing runs the check and
    stamps the task object. *)
Lemma removed_task_still_runs :
  let w := snd (Monitor.addMonitoringTask laptop pingTask bootWorld) in
  let r := Monitor.removeMonitoringTask laptop (Some "t1"%string) w in
  let later := atTime 1700000120000 laptop in
  fst r = true
  /\ Monitor.monitoringTasks (Monitor.monitoringData (snd r)) = []
  /\ In pingJob (Monitor.cronJobs (snd r))
  /\ option_map t_lastRunTime
       (nth_error
          (Monitor.objects
             (Monitor.runJob default_config later pingJob (snd r)))
          0)
     = Some (Some 1700000120000).
Proof. cbv zeta. repeat split. now left. Qed.

(** A sample of C10: a second query, once a cpu usage is stored. *)
Lemma getMetrics_effects_witness :
  let w := afterFirstSnapshot 900000 in
  exists usage,
    Monitor.usageOf
      (Monitor.c_cpu (Monitor.metrics (Monitor.monitoringData w)))
    = Some usage
    /\ truthy usage = true
    /\ Monitor.getMetrics default_config laptop w
       = (Some (Monitor.report w), w).
Proof.
  cbv zeta. eexists. split; [reflexivity|]. split; [reflexivity|].
  exact (proj1 (getMetrics_effects default_config laptop
                  (afterFirstSnapshot 900000)) _ eq_refl eq_refl).
Defined.

(** C10 as stated fails on the transmission: with the connection open and
    no cpu usage stored, getMetrics collects and records, but for a node
    that is not registered nothing goes out. *)
Lemma getMetrics_unregistered_sends_nothing :
  let r := Monitor.getMetrics default_config laptop onlineWorld in
  Websocket.isConnected (Monitor.socket onlineWorld) = true
  /\ Monitor.usageOf
       (Monitor.c_cpu (Monitor.metrics (Monitor.monitoringData onlineWorld)))
     = None
  /\ List.length (Monitor.history (Monitor.monitoringData (snd r))) = 1%nat
  /\ Websocket.wire (Monitor.socket (snd r)) = []
  /\ Websocket.pendingMessages (Monitor.socket (snd r)) = [].
Proof. cbv zeta. repeat split. Qed.

(* ------------------------------------------------------------------ *)
(** * Further properties of the connectivity manager *)

Section ConnectivityExtras.
Import Websocket.
Variable cfg : Config.

Lemma sendFrom_contract :
  forall outs env type data priority s,
    let message := messageFor env type data priority in
    let r := sendFrom cfg outs env type data priority s in
    pendingMessages (snd r)
    = pendingMessages s
      ++ (if is_high priority && negb (fst r) then [message] else [])
    /\ (fst r = true <-> isConnected s = true /\ hd true outs = true)
    /\ (fst r = true -> wire (snd r) = wire s ++ [message])
    /\ (fst r = false ->
        exists pings,
          wire (snd r) = wire s ++ pings /\ Forall isPing pings).
Proof.
  induction outs as [|[|] rest IH]; intros env type data priority s;
    cbn [sendFrom]; destruct (isConnected s) eqn:H; cbn [negb].
  - cbn. rewrite andb_false_r, app_nil_r.
    repeat split; try discriminate; auto.
  - destruct (is_high priority); cbn; rewrite ?app_nil_r;
      (split; [reflexivity|]);
      (split; [split; [discriminate|intros (F & _); discriminate]|]);
      (split; [discriminate|]); intros _; exists [];
      rewrite app_nil_r; split; constructor.
  - cbn. rewrite andb_false_r, app_nil_r.
    repeat split; try discriminate; auto.
  - destruct (is_high priority); cbn; rewrite ?app_nil_r;
      (split; [reflexivity|]);
      (split; [split; [discriminate|intros (F & _); discriminate]|]);
      (split; [discriminate|]); intros _; exists [];
      rewrite app_nil_r; split; constructor.
  - unfold checkConnectionWith.
    destruct (is_high priority); cbn [negb andb fst snd];
      match goal with
      | |- context [sendFrom cfg rest env ?t ?d low ?s0] =>
          destruct (IH env t d low s0) as (Pq & _ & Wt & Wf);
            set (inner := sendFrom cfg rest env t d low s0) in *
      end;
      cbn in Pq, Wt, Wf; rewrite app_nil_r in Pq;
      cbn; rewrite H; cbn [negb fst snd]; rewrite ?app_nil_r;
      (split; [exact Pq|]);
      (split; [split; [discriminate|intros (_ & F); discriminate]|]);
      (split; [discriminate|]); intros _;
      (destruct (fst inner) eqn:Fi;
       [eexists; split;
        [exact (Wt eq_refl)|constructor; [now split|constructor]]
       |exact (Wf eq_refl)]).
  - destruct (is_high priority); cbn; rewrite ?app_nil_r;
      (split; [reflexivity|]);
      (split; [split; [discriminate|intros (F & _); discriminate]|]);
      (split; [discriminate|]); intros _; exists [];
      rewrite app_nil_r; split; constructor.
Qed.

(** X1.  Whatever the state of the connection, [send] returns [true]
    exactly when the connection is open and the transport takes the
    message, which then goes out.  Otherwise the message joins the pending
    queue exactly when its priority is high, and the only messages that go
    out are the pings of the connection check it triggers. *)
Theorem send_contract :
  forall env type data priority s,
    let message := messageFor env type data priority in
    let r := send cfg env type data priority s in
    (fst r = true <->
     isConnected s = true /\ hd true (transport s) = true)
    /\ (fst r = true ->
        wire (snd r) = wire s ++ [message]
        /\ pendingMessages (snd r) = pendingMessages s)
    /\ (fst r = false ->
        pendingMessages (snd r)
        = pendingMessages s ++ (if is_high priority then [message] else [])
        /\ exists pings,
             wire (snd r) = wire s ++ pings /\ Forall isPing pings).
Proof.
  intros env type data priority s message r. subst r. unfold send.
  destruct (sendFrom_contract (transport s) env type data priority s)
    as (Pq & Acc & Wt & Wf).
  cbv zeta in Pq, Acc, Wt, Wf. fold message in Pq, Wt.
  split; [exact Acc|]. split.
  - intros T. split; [exact (Wt T)|].
    rewrite Pq, T, andb_false_r. apply app_nil_r.
  - intros F. split; [|exact (Wf F)].
    rewrite Pq, F, andb_true_r. reflexivity.
Qed.

(* The pending queue *)

Lemma send_allHigh :
  forall env type data priority s,
    allHigh (pendingMessages s) ->
    allHigh (pendingMessages (snd (send cfg env type data priority s))).
Proof.
  intros env type data priority s A. unfold send.
  destruct (sendFrom_contract (transport s) env type data priority s)
    as (Pq & _).
  cbv zeta in Pq. rewrite Pq. apply Forall_app. split; [exact A|].
  destruct priority; cbn; try constructor.
  destruct (negb _); constructor; [reflexivity|constructor].
Qed.

Lemma scheduleReconnect_queue :
  forall env s,
    pendingMessages (scheduleReconnect cfg env s) = pendingMessages s
    /\ isConnected (scheduleReconnect cfg env s) = isConnected s
    /\ wire (scheduleReconnect cfg env s) = wire s.
Proof.
  intros env s. unfold scheduleReconnect. cbn.
  destruct (reconnectAttempts s + 1 <=? websocket_maxReconnectAttempts cfg);
    repeat split.
Qed.

Lemma connect_queue :
  forall env s,
    pendingMessages (connect cfg env s) = pendingMessages s
    /\ isConnected (connect cfg env s) = isConnected s
    /\ wire (connect cfg env s) = wire s.
Proof.
  intros env s. unfold connect. destruct (socketCtorThrows env).
  - destruct (scheduleReconnect_queue env
                (logger error
                   "Failed to connect to main application WebSocket server"
                   (set_connectionStartTime (Some (now env))
                      (logger info
                         "Connecting to main application WebSocket server"
                         s)))) as (a & b & c).
    rewrite a, b, c. repeat split.
  - repeat split.
Qed.

Lemma timerFired_queue :
  forall env s,
    pendingMessages (timerFired cfg env s) = pendingMessages s
    /\ isConnected (timerFired cfg env s) = isConnected s
    /\ wire (timerFired cfg env s) = wire s.
Proof.
  intros env s. unfold timerFired.
  destruct (reconnectTimeout s) as [tm|]; [|repeat split].
  destruct (tm_live tm); [|repeat split].
  destruct (tm_kind tm);
    match goal with
    | |- context [connect cfg env ?s0] =>
        destruct (connect_queue env s0) as (a & b & c)
    end; rewrite a, b, c; repeat split.
Qed.

Lemma checkConnection_allHigh :
  forall env s,
    allHigh (pendingMessages s) ->
    allHigh (pendingMessages (snd (checkConnection cfg env s))).
Proof.
  intros env s A. unfold checkConnection, checkConnectionWith.
  destruct (isConnected s); cbn [negb snd].
  - now apply send_allHigh.
  - cbn. destruct (reconnectTimeout s); cbn [snd]; [exact A|].
    match goal with
    | |- context [connect cfg env ?s0] =>
        destruct (connect_queue env s0) as (a & _)
    end. rewrite a. exact A.
Qed.

Lemma sendMetrics_allHigh :
  forall env m s,
    allHigh (pendingMessages s) ->
    allHigh (pendingMessages (snd (sendMetrics cfg env m s))).
Proof.
  intros env m s A. unfold sendMetrics.
  destruct (registered (user env)); cbn [negb snd];
    [now apply send_allHigh|exact A].
Qed.

Lemma handleOpen_allHigh :
  forall env s, allHigh (pendingMessages (handleOpen cfg env s)).
Proof.
  intros env s. unfold handleOpen.
  match goal with
  | |- context [flushPending ?s1] =>
      destruct (flushPending_spec s1) as (_ & Hp & _)
  end.
  cbv zeta in Hp. rewrite Hp. apply requeued_high.
Qed.

Lemma step_allHigh :
  forall env ev s,
    allHigh (pendingMessages s) ->
    allHigh (pendingMessages (step cfg env ev s)).
Proof.
  intros env ev s A. destruct ev; cbn [step].
  - apply handleOpen_allHigh.
  - destruct data as [[|] ?| |[m|]|?|? ?| |?|]; cbn [handleMessage];
      try exact A.
    + now apply sendMetrics_allHigh.
    + now apply send_allHigh.
  - unfold handleError. cbn.
    destruct (connectionStartTime s) as [t0|]; [|exact A].
    destruct (negb (t0 =? 0) && (now env - t0 <? 5000)); exact A.
  - unfold handleClose.
    match goal with
    | |- context [scheduleReconnect cfg env ?s0] =>
        destruct (scheduleReconnect_queue env s0) as (a & _)
    end. rewrite a. exact A.
  - destruct (timerFired_queue env s) as (a & _). rewrite a. exact A.
  - unfold pingTick. destruct (isConnected s); [|exact A].
    now apply send_allHigh.
  - now apply checkConnection_allHigh.
  - destruct (connect_queue env s) as (a & _). rewrite a. exact A.
  - now apply checkConnection_allHigh.
  - now apply send_allHigh.
  - now apply sendMetrics_allHigh.
  - exact A.
Qed.

Lemma reachable_allHigh :
  forall s, reachable cfg s -> allHigh (pendingMessages s).
Proof.
  induction 1 as [|s env ev R IH]; [constructor|].
  now apply step_allHigh.
Qed.

Lemma run_reachable :
  forall evs s, reachable cfg s -> reachable cfg (run cfg evs s).
Proof.
  induction evs as [|[env ev] evs IH]; intros s R; [exact R|].
  cbn [run]. apply IH. now constructor.
Qed.

(** X2.  In every reachable state of the connectivity manager, and so
    after any run of events from the start, the pending queue holds
    high-priority messages only: no ping, metrics message or other normal
    or low message is ever kept for replay. *)
Theorem pending_queue_is_high_only :
  (forall s, reachable cfg s -> allHigh (pendingMessages s))
  /\ (forall evs m,
        In m (pendingMessages (run cfg evs initial)) ->
        msg_priority m = high).
Proof.
  split; [exact reachable_allHigh|].
  intros evs m I.
  pose proof (reachable_allHigh _ (run_reachable evs _ (reach_initial cfg)))
    as A.
  unfold allHigh in A. rewrite Forall_forall in A. now apply A.
Qed.

Lemma kept_by_flush :
  forall ms outs m,
    In m ms -> msg_priority m = high ->
    In m (delivered outs ms) \/ In m (requeued outs ms).
Proof.
  induction ms as [|x ms IH]; intros outs m I Hp; [destruct I|].
  destruct I as [<-|I].
  - destruct outs as [|[|] outs]; cbn; rewrite ?Hp; cbn; auto.
  - destruct outs as [|[|] outs]; cbn.
    + destruct (IH [] m I Hp); auto.
    + destruct (IH outs m I Hp); auto.
    + destruct (is_high (msg_priority x)); cbn;
        destruct (IH outs m I Hp); auto.
Qed.

(** X3.  The open signal loses no pending message: each message that was
    waiting in a reachable state has either been handed to the transport
    or is waiting again when handleOpen returns. *)
Theorem open_loses_no_pending_message :
  forall s,
    reachable cfg s ->
    forall env m,
      In m (pendingMessages s) ->
      In m (wire (handleOpen cfg env s))
      \/ In m (pendingMessages (handleOpen cfg env s)).
Proof.
  intros s R env m I.
  pose proof (reachable_allHigh s R) as A.
  assert (Hp : msg_priority m = high)
    by (unfold allHigh in A; rewrite Forall_forall in A; now apply A).
  destruct (handleOpen_flush cfg env s) as (s1 & extra & sent & E & Q1 & _).
  destruct (flushPending_spec s1) as (Fw & Fp & _). cbv zeta in Fw, Fp.
  rewrite E, Fw, Fp.
  destruct (kept_by_flush (pendingMessages s1) (transport s1) m) as [D|D];
    auto.
  - rewrite Q1. apply in_or_app. now left.
  - left. apply in_or_app. now right.
Qed.

(* The connected flag *)

Lemma handleOpen_connected :
  forall env s, isConnected (handleOpen cfg env s) = true.
Proof.
  intros env s. unfold handleOpen.
  match goal with
  | |- context [flushPending ?s1] =>
      destruct (flushPending_spec s1) as (_ & _ & (Hc & _))
  end.
  rewrite Hc. clear Hc.
  destruct (registered (user env)).
  - unfold authenticate.
    match goal with
    | |- context [send cfg ?e ?t ?d ?p ?s0] =>
        destruct (send_sameLink cfg e t d p s0) as (Hc & _)
    end.
    rewrite Hc.
    destruct (reconnectTimeout (set_reconnectAttempts _ _)); reflexivity.
  - destruct (reconnectTimeout (set_reconnectAttempts _ _)); reflexivity.
Qed.

(** X4.  On a transport that takes the writes of the call, the
    connected flag follows the transport's signals only: it is set by the
    open signal, cleared by the close signal, and left as it is by every
    other callback and call: an error event, the reconnect timers,
    [connect], an inbound message, a ping, a connection check, a send.
    (A write that is refused until the stack is exhausted ends in the
    [catch] branch of checkConnection, which clears the flag; that case is
    outside this statement.) *)
Theorem connected_flag_follows_open_and_close :
  forall env ev s,
    Forall (fun taken => taken = true) (transport s) ->
    isConnected (step cfg env ev s)
    = match ev with
      | EvOpen => true
      | EvClose => false
      | _ => isConnected s
      end.
Proof.
  assert (S : forall env type data priority s,
             isConnected (snd (send cfg env type data priority s))
             = isConnected s)
    by (intros; apply (send_sameLink cfg)).
  assert (M : forall env m s,
             isConnected (snd (sendMetrics cfg env m s)) = isConnected s)
    by (intros; apply (sendMetrics_sameLink cfg)).
  assert (C : forall env s,
             isConnected (snd (checkConnection cfg env s)) = isConnected s).
  { intros env s. unfold checkConnection, checkConnectionWith.
    destruct (isConnected s) eqn:E; cbn [negb snd].
    - unfold sendPing. now rewrite S.
    - cbn. destruct (reconnectTimeout s); cbn [snd]; [exact E|].
      match goal with
      | |- context [connect cfg env ?s0] =>
          destruct (connect_queue env s0) as (_ & b & _)
      end. rewrite b. exact E. }
  intros env ev s _. destruct ev; cbn [step].
  - apply handleOpen_connected.
  - destruct data as [[|] ?| |[m|]|?|? ?| |?|]; cbn [handleMessage];
      rewrite ?M, ?S; reflexivity.
  - unfold handleError. cbn.
    destruct (connectionStartTime s) as [t0|]; [|reflexivity].
    destruct (negb (t0 =? 0) && (now env - t0 <? 5000)); reflexivity.
  - unfold handleClose.
    match goal with
    | |- context [scheduleReconnect cfg env ?s0] =>
        destruct (scheduleReconnect_queue env s0) as (_ & b & _)
    end. rewrite b. reflexivity.
  - apply timerFired_queue.
  - unfold pingTick. destruct (isConnected s) eqn:E; [|exact E].
    unfold sendPing. now rewrite S.
  - apply C.
  - apply connect_queue.
  - apply C.
  - apply S.
  - apply M.
  - reflexivity.
Qed.

(* Reconnection *)

(** X5.  Exceeding the attempt cap is not the end: when the armed cooldown
    timer fires and the socket can be created, the counter is back at 0
    and a connection attempt is under way; the close of that attempt is
    scheduled as attempt 1 of a new backoff sequence. *)
Theorem backoff_restarts_after_cooldown :
  forall env env' s,
    cooldownArmed s = true ->
    socketCtorThrows env = false ->
    let s1 := timerFired cfg env s in
    let s2 := handleClose cfg env' s1 in
    reconnectAttempts s1 = 0
    /\ cooldownArmed s1 = false
    /\ ws s1 = true
    /\ connectionStartTime s1 = Some (now env)
    /\ isConnected s2 = false
    /\ reconnectAttempts s2 = 1
    /\ reconnectTimeout s2
       = Some
           (if 1 <=? websocket_maxReconnectAttempts cfg
            then {| tm_kind := Backoff;
                    tm_delay := backoffDelay cfg 1 (random env');
                    tm_live := true |}
            else {| tm_kind := Cooldown; tm_delay := 300000;
                    tm_live := true |}).
Proof.
  intros env env' s A C s1 s2.
  assert (E : reconnectAttempts s1 = 0
              /\ cooldownArmed s1 = false
              /\ ws s1 = true
              /\ connectionStartTime s1 = Some (now env)).
  { subst s1. unfold timerFired, cooldownArmed in *.
    destruct (reconnectTimeout s) as [tm|]; [|discriminate].
    destruct (tm_live tm); [|discriminate].
    destruct (tm_kind tm); [discriminate|].
    unfold connect. rewrite C. cbn. repeat split. }
  destruct E as (E1 & E2 & E3 & E4).
  repeat (split; [assumption|]).
  subst s2. unfold handleClose.
  rewrite scheduleReconnect_attempts, scheduleReconnect_timer.
  destruct (scheduleReconnect_queue env'
              (set_pingInterval false
                 (set_isConnected false
                    (logger warn "WebSocket connection closed" s1))))
    as (_ & b & _).
  rewrite b. cbn. rewrite E1. repeat split.
Qed.

Lemma jittered_le :
  forall M N r : Q,
    (M <= N)%Q -> (0 <= r)%Q ->
    (M + r * (3 # 10) * M <= N + r * (3 # 10) * N)%Q.
Proof. intros M N r H R. nra. Qed.

(** X6.  The reconnect delay of scheduleReconnect: for a draw in [0,1) it
    never exceeds 39000, so the clamp at 60000 never binds; and for a
    non-negative base interval it is never negative and never shrinks
    when the attempt number grows. *)
Theorem backoffDelay_capped_and_monotone :
  (forall n r,
     (0 <= r)%Q -> (r < 1)%Q -> (backoffDelay cfg n r <= 39000)%Q)
  /\ ((0 <= websocket_reconnectInterval cfg)%Q ->
      forall n m r,
        n <= m -> (0 <= r)%Q ->
        (0 <= backoffDelay cfg n r)%Q
        /\ (backoffDelay cfg n r <= backoffDelay cfg m r)%Q).
Proof.
  split.
  - intros n r R0 R1. unfold backoffDelay.
    set (M := Qmin 30000 (websocket_reconnectInterval cfg * 2 ^ (n - 1))).
    assert (HM : (M <= 30000)%Q) by apply Q.le_min_l.
    eapply Qle_trans; [apply Q.le_min_l|]. nra.
  - intros B n m r L R. unfold backoffDelay.
    set (base := websocket_reconnectInterval cfg) in *.
    assert (Pn : (0 <= base * 2 ^ (n - 1))%Q)
      by (apply Qmult_le_0_compat; [assumption|];
          apply Qpower_0_le; discriminate).
    assert (Pm : (base * 2 ^ (n - 1) <= base * 2 ^ (m - 1))%Q).
    { rewrite !(Qmult_comm base). apply Qmult_le_compat_r; [|assumption].
      apply Qpower_le_compat_l; [lia|discriminate]. }
    set (M := Qmin 30000 (base * 2 ^ (n - 1))).
    set (N := Qmin 30000 (base * 2 ^ (m - 1))).
    assert (M0 : (0 <= M)%Q)
      by (apply Q.min_glb; [discriminate|assumption]).
    assert (MN : (M <= N)%Q) by (apply Q.min_le_compat_l; assumption).
    split.
    + apply Q.min_glb; [nra|discriminate].
    + apply Q.min_le_compat_r. now apply jittered_le.
Qed.

(** X7.  On a closed connection checkConnection returns [false], and it
    starts a connection exactly when no reconnect handle is stored.  The
    handle of a timer that has fired is still stored: after a backoff
    timer fired and created its socket, a connection check does not
    connect again. *)
Theorem checkConnection_on_closed_connection :
  forall env s,
    isConnected s = false ->
    let r := checkConnection cfg env s in
    fst r = false
    /\ (reconnectTimeout s = None ->
        connectionStartTime (snd r) = Some (now env)
        /\ (socketCtorThrows env = false -> ws (snd r) = true)
        /\ (socketCtorThrows env = true ->
            reconnectAttempts (snd r) = reconnectAttempts s + 1))
    /\ (reconnectTimeout s <> None ->
        snd r
        = logger info "Connection check: WebSocket is disconnected" s)
    /\ (forall env0 s0 tm,
          reconnectTimeout s0 = Some tm -> tm_live tm = true ->
          tm_kind tm = Backoff -> socketCtorThrows env0 = false ->
          s = timerFired cfg env0 s0 ->
          snd r
          = logger info "Connection check: WebSocket is disconnected" s).
Proof.
  intros env s H r. subst r. unfold checkConnection, checkConnectionWith.
  rewrite H. cbn [negb].
  assert (T : reconnectTimeout
                (logger info "Connection check: WebSocket is disconnected" s)
              = reconnectTimeout s) by reflexivity.
  rewrite T.
  split; [destruct (reconnectTimeout s); reflexivity|].
  split; [|split].
  - intros N. rewrite N. cbn [snd]. unfold connect.
    destruct (socketCtorThrows env).
    + rewrite scheduleReconnect_attempts. cbn.
      split; [|split; [discriminate|reflexivity]].
      unfold scheduleReconnect. cbn.
      destruct (reconnectAttempts s + 1
                <=? websocket_maxReconnectAttempts cfg); reflexivity.
    + cbn. split; [reflexivity|]. split; [reflexivity|discriminate].
  - intros N. destruct (reconnectTimeout s); [reflexivity|contradiction].
  - intros env0 s0 tm E L K C ->.
    assert (S : reconnectTimeout (timerFired cfg env0 s0) <> None).
    { unfold timerFired. rewrite E, L, K. unfold connect. rewrite C.
      cbn. discriminate. }
    destruct (reconnectTimeout (timerFired cfg env0 s0));
      [reflexivity|contradiction].
Qed.

End ConnectivityExtras.

(* ------------------------------------------------------------------ *)
(** * Further properties of the telemetry pipeline and the scheduler *)

Section MonitorExtras.
Import Monitor.
Variable cfg : Config.

(* Persistence *)

Lemma deref_appended :
  forall (pre l : list Task),
    flat_map
      (fun r => match nth_error (pre ++ l) r with
                | Some t => [t]
                | None => []
                end)
      (seq (List.length pre) (List.length l))
    = l.
Proof.
  intros pre l. revert pre.
  induction l as [|x l IH]; intros pre; [reflexivity|].
  cbn [List.length seq flat_map].
  rewrite nth_error_app2 by lia. rewrite Nat.sub_diag. cbn [nth_error app].
  f_equal.
  specialize (IH (pre ++ [x])).
  rewrite <- app_assoc, length_app in IH. cbn in IH.
  rewrite Nat.add_1_r in IH. exact IH.
Qed.

(** X8.  What persistData writes is what a restart reads back: after a
    successful write, loading the file into fresh module variables
    restores the last reward time and the task list, restores the history
    when its readings are finite (the file is JSON, which has neither NaN
    nor infinity), and takes the earlier of the saved start time (unless
    that is 0) and the new boot time; the current metrics, the error
    counter and the jobs start afresh.  A failed write reports [false] and
    changes nothing. *)
Theorem persist_then_load :
  forall host boot w,
    let saved := persistData host w in
    let w' := loadPersistedData (initialWorld boot (file (snd saved))) in
    (fs_writeOk host = false -> saved = (false, w))
    /\ (fs_writeOk host = true ->
        fst saved = true
        /\ monitoringData (snd saved) = monitoringData w
        /\ (Forall finitePoint (history (monitoringData w)) ->
            history (monitoringData w') = history (monitoringData w))
        /\ lastRewardTime (monitoringData w')
           = lastRewardTime (monitoringData w)
        /\ tasksOf w' = tasksOf w
        /\ startTime (monitoringData w')
           = (if startTime (monitoringData w) =? 0 then boot
              else Z.min boot (startTime (monitoringData w)))
        /\ metrics (monitoringData w') = metrics (initialData boot)
        /\ errors (monitoringData w') = errors (initialData boot)
        /\ cronJobs w' = []).
Proof.
  intros host boot w saved w'. subst saved w'. unfold persistData.
  split; intros E; rewrite E; [reflexivity|].
  cbn [fst snd]. split; [reflexivity|]. split; [reflexivity|].
  unfold loadPersistedData. cbn.
  split; [intros _; reflexivity|]. split; [reflexivity|]. split.
  - unfold tasksOf at 1. cbn.
    exact (deref_appended [] (tasksOf w)).
  - split; [|repeat split].
    destruct (startTime (monitoringData w) =? 0); [apply Z.min_id|reflexivity].
Qed.

(* Tasks *)

Lemma findIndex_app :
  forall (A : Type) (p : A -> bool) l r i,
    findIndex p l = Some i -> findIndex p (l ++ r) = Some i.
Proof.
  intros A p. induction l as [|x l IH]; intros r i H; [discriminate|].
  cbn in *. destruct (p x); [exact H|].
  destruct (findIndex p l) as [k|]; [|discriminate].
  now rewrite (IH r k eq_refl).
Qed.

Lemma findIndex_fresh :
  forall (A : Type) (p : A -> bool) l x,
    (forall y, In y l -> p y = false) ->
    p x = true ->
    findIndex p (l ++ [x]) = Some (List.length l).
Proof.
  intros A p. induction l as [|y l IH]; intros x N Px; cbn.
  - now rewrite Px.
  - rewrite (N y (or_introl eq_refl)).
    rewrite (IH x); [reflexivity| |exact Px].
    intros z Iz. apply N. now right.
Qed.

Lemma removeAt_last :
  forall (A : Type) (l : list A) x, removeAt (List.length l) (l ++ [x]) = l.
Proof.
  intros A. induction l as [|y l IH]; intros x; cbn; [reflexivity|].
  now rewrite IH.
Qed.

Lemma removeAt_app :
  forall (A : Type) (l r : list A) i,
    (i < List.length l)%nat -> removeAt i (l ++ r) = removeAt i l ++ r.
Proof.
  intros A. induction l as [|y l IH]; intros r i L; cbn in L; [lia|].
  destruct i as [|i]; cbn; [reflexivity|].
  rewrite IH by lia. reflexivity.
Qed.

Lemma findIndex_in_range :
  forall (A : Type) (p : A -> bool) l i,
    findIndex p l = Some i -> (i < List.length l)%nat.
Proof.
  intros A p l i H. destruct (findIndex_Some A p l i H) as ((x & Hx & _) & _).
  apply nth_error_Some. now rewrite Hx.
Qed.

Lemma flat_map_ext_in :
  forall (A B : Type) (f g : A -> list B) l,
    (forall x, In x l -> f x = g x) -> flat_map f l = flat_map g l.
Proof.
  intros A B f g. induction l as [|x l IH]; intros H; [reflexivity|].
  cbn. rewrite (H x (or_introl eq_refl)), IH; [reflexivity|].
  intros y Iy. apply H. now right.
Qed.

Lemma findIndex_ext_in :
  forall (A : Type) (p q : A -> bool) l,
    (forall x, In x l -> p x = q x) -> findIndex p l = findIndex q l.
Proof.
  intros A p q. induction l as [|x l IH]; intros H; [reflexivity|].
  cbn. rewrite (H x (or_introl eq_refl)), IH; [reflexivity|].
  intros y Iy. apply H. now right.
Qed.

Lemma optionStringEq_refl :
  forall a, optionStringEq a a = true.
Proof.
  intros [a|]; cbn; [apply String.eqb_refl|reflexivity].
Qed.

(** X9.  For a task with a numeric interval (whose cron expression
    node-cron accepts), addMonitoringTask returns the id under which the
    task can be removed again: removeMonitoringTask with that id answers
    [true].  When no earlier task has this id the pair is a round trip on
    the task list; when an earlier task has it, that earlier task is the
    one removed and the added task stays.  In both cases the job
    registered for the added task stays registered. *)
Theorem added_task_can_be_removed :
  forall host host' task w,
    plainInterval (t_interval task) ->
    let refs := monitoringTasks (monitoringData w) in
    let added := addMonitoringTask host task w in
    let id := fst added in
    let removed := removeMonitoringTask host' id (snd added) in
    id = Some (match nonEmpty (t_id task) with
               | Some i => i
               | None => generatedId host
               end)
    /\ monitoringTasks (monitoringData (snd added))
       = refs ++ [List.length (objects w)]
    /\ fst removed = true
    /\ cronJobs (snd removed)
       = cronJobs w
         ++ [{| job_cadence := taskCadence (t_interval task);
                job_action := TaskJob (List.length (objects w)) false |}]
    /\ (Forall (fun ref => (ref < List.length (objects w))%nat) refs ->
        match findIndex (hasId w id) refs with
        | None =>
            monitoringTasks (monitoringData (snd removed)) = refs
            /\ tasksOf (snd removed) = tasksOf w
        | Some earlier =>
            monitoringTasks (monitoringData (snd removed))
            = removeAt earlier refs ++ [List.length (objects w)]
        end).
Proof.
  intros host host' task w _ refs added id removed.
  subst removed id added refs.
  unfold addMonitoringTask. cbn [fst snd].
  set (id := match nonEmpty (t_id task) with
             | Some i => Some i
             | None => Some (generatedId host)
             end).
  set (name := match nonEmpty (t_name task) with
               | Some n => Some n
               | None => _
               end).
  set (task' := Build_Task id name _ _ _ _ _ _ _ _).
  set (new := List.length (objects w)).
  set (refs := monitoringTasks (monitoringData w)).
  unfold scheduleMonitoringTask, scheduleOne. cbn [objects set_objects updateData set_monitoringData].
  assert (N : nth_error (objects w ++ [task']) new = Some task').
  { unfold new. rewrite nth_error_app2 by lia.
    now rewrite Nat.sub_diag. }
  rewrite N.
  set (w1 := register _ _ _).
  assert (O1 : objects (snd (persistData host w1)) = objects w ++ [task'])
    by (destruct (persistData_frame host w1) as (A & _); now rewrite A).
  assert (D1 : monitoringTasks (monitoringData (snd (persistData host w1)))
               = refs ++ [new])
    by (now rewrite persistData_data).
  assert (J1 : cronJobs (snd (persistData host w1))
               = cronJobs w
                 ++ [{| job_cadence := taskCadence (t_interval task);
                        job_action := TaskJob new false |}])
    by (destruct (persistData_frame host w1) as (_ & _ & A); now rewrite A).
  assert (Hnew : hasId (snd (persistData host w1)) id new = true).
  { unfold hasId. rewrite O1, N. apply optionStringEq_refl. }
  assert (Hold : forall ref, (ref < new)%nat ->
                   hasId (snd (persistData host w1)) id ref
                   = hasId w id ref).
  { intros ref L. unfold hasId. rewrite O1.
    now rewrite nth_error_app1 by exact L. }
  split; [unfold id; destruct (nonEmpty (t_id task)); reflexivity|].
  split; [exact D1|].
  unfold removeMonitoringTask. rewrite D1.
  destruct (findIndex (hasId (snd (persistData host w1)) id) (refs ++ [new]))
    as [index|] eqn:F.
  - cbn [fst snd]. split; [reflexivity|]. split.
    + destruct (persistData_frame host'
                  (updateData
                     (fun d =>
                        set_monitoringTasks
                          (removeAt index (monitoringTasks d)) d)
                     (snd (persistData host w1)))) as (_ & _ & A).
      rewrite A. exact J1.
    + intros V. rewrite persistData_data. cbn. rewrite D1.
      assert (E : findIndex (hasId (snd (persistData host w1)) id) refs
                  = findIndex (hasId w id) refs).
      { apply findIndex_ext_in. intros ref I. apply Hold.
        rewrite Forall_forall in V. exact (V ref I). }
      destruct (findIndex (hasId w id) refs) as [earlier|] eqn:G.
      * rewrite (findIndex_app _ _ _ [new] _ E) in F.
        injection F as <-.
        apply removeAt_app. exact (findIndex_in_range _ _ _ _ E).
      * rewrite findIndex_None in E.
        rewrite (findIndex_fresh _ _ _ _ E Hnew) in F.
        injection F as <-. rewrite removeAt_last. split; [reflexivity|].
        unfold tasksOf. rewrite persistData_data.
        destruct (persistData_frame host'
                    (updateData
                       (fun d =>
                          set_monitoringTasks
                            (removeAt (List.length refs)
                               (monitoringTasks d)) d)
                       (snd (persistData host w1)))) as (A & _).
        rewrite A. cbn [updateData set_monitoringData objects
                        monitoringData set_monitoringTasks monitoringTasks].
        rewrite D1, O1, removeAt_last.
        apply flat_map_ext_in. intros ref I.
        rewrite Forall_forall in V.
        now rewrite nth_error_app1 by exact (V ref I).
  - exfalso. rewrite findIndex_None in F.
    assert (I : In new (refs ++ [new]))
      by (apply in_or_app; right; now left).
    rewrite (F new I) in Hnew. discriminate.
Qed.

Lemma firesAt_divisor :
  forall n t, 0 < n -> (n | 60) -> (firesAt n t = true <-> (n | t)).
Proof.
  intros n t P D. unfold firesAt. rewrite Z.eqb_eq.
  rewrite Z.mod_divide by lia.
  rewrite (Z.div_mod t 60) at 2 by lia.
  split; intros H.
  - apply Z.divide_add_r; [|exact H].
    apply Z.divide_mul_l. exact D.
  - apply (Z.divide_add_cancel_r n (60 * (t / 60))); [|exact H].
    apply Z.divide_mul_l. exact D.
Qed.

Lemma firesAt_hourly :
  forall n t, 60 < n -> (firesAt n t = true <-> (60 | t)).
Proof.
  intros n t P. unfold firesAt. rewrite Z.eqb_eq.
  assert (B : 0 <= t mod 60 < 60) by (apply Z.mod_pos_bound; lia).
  rewrite (Z.mod_small (t mod 60) n) by lia.
  rewrite Z.mod_divide by lia. reflexivity.
Qed.

(** X10.  A numeric task interval [ms] becomes the step
    [n = max(1, ceil(ms / 60000))] of the expression [*/n * * * *]: the
    least whole number, at least 1, of minutes that cover the interval.
    As node-cron reads that expression, the job fires at the minutes of
    each hour that are multiples of [n].  So the job runs every [n]
    minutes, never more often than asked, when [n] divides 60; when [n]
    is below 60 and does not divide it, the last run of an hour and the
    first of the next are less than [n] minutes apart; and when [n]
    exceeds 60, that is for every interval over an hour, the job runs
    every hour on the hour. *)
Theorem task_cadence_and_period :
  forall ms,
    exists n,
      taskCadence (IntervalMs ms) = EveryMinutes n
      /\ 1 <= n
      /\ (ms <= inject_Z n * 60000)%Q
      /\ (1 < n -> (inject_Z (n - 1) * 60000 < ms)%Q)
      /\ ((n | 60) -> forall t, firesAt n t = true <-> (n | t))
      /\ (n < 60 -> ~ (n | 60) ->
          firesAt n (60 - 60 mod n) = true /\ firesAt n 60 = true
          /\ 0 < 60 mod n < n)
      /\ (60 < n -> forall t, firesAt n t = true <-> (60 | t)).
Proof.
  intros ms. exists (Z.max 1 (Qceiling (ms / 60000))).
  set (n := Z.max 1 (Qceiling (ms / 60000))).
  assert (P : 1 <= n) by (unfold n; lia).
  split; [reflexivity|]. split; [exact P|].
  assert (E : (ms == ms / 60000 * 60000)%Q) by (field; discriminate).
  pose proof (Qle_ceiling (ms / 60000)) as U.
  pose proof (Qceiling_lt (ms / 60000)) as L.
  split; [|split; [|split; [|split]]].
  - assert (M : (inject_Z (Qceiling (ms / 60000)) <= inject_Z n)%Q)
      by (rewrite <- Zle_Qle; unfold n; lia).
    set (x := (ms / 60000)%Q) in *. lra.
  - intros G.
    assert (N : n = Qceiling (ms / 60000)) by (unfold n in *; lia).
    rewrite N. set (x := (ms / 60000)%Q) in *. lra.
  - intros D t. apply firesAt_divisor; [lia|exact D].
  - intros B ND.
    assert (R : 0 <= 60 mod n < n) by (apply Z.mod_pos_bound; lia).
    assert (NZ : 60 mod n <> 0)
      by (intros Z0; apply ND; apply Z.mod_divide; [lia|exact Z0]).
    unfold firesAt. rewrite !Z.eqb_eq. split; [|split; [|lia]].
    + rewrite (Z.mod_small (60 - 60 mod n) 60) by lia.
      apply Z.mod_divide; [lia|].
      exists (60 / n). rewrite (Z.div_mod 60 n) at 1 by lia. lia.
    + reflexivity.
  - intros G t. apply firesAt_hourly. exact G.
Qed.

(* Checks *)

Lemma prefix_spec :
  forall k s, String.prefix k s = true <-> exists post, s = (k ++ post)%string.
Proof.
  induction k as [|c k IH]; intros s.
  - split; [intros _; now exists s|]. intros _. now destruct s.
  - destruct s as [|d s]; cbn.
    + split; [discriminate|intros (post & E); discriminate].
    + destruct (Ascii.ascii_dec c d) as [->|N].
      * rewrite IH. split; intros (post & E); exists post.
        -- now rewrite E.
        -- now injection E.
      * split; [discriminate|]. intros (post & E). injection E as E1 E2.
        now elim N.
Qed.

Lemma includes_spec :
  forall k s,
    includes k s = true <-> exists pre post, s = (pre ++ k ++ post)%string.
Proof.
  intros k s. split.
  - induction s as [|c s IH]; cbn [includes].
    + destruct (String.prefix k EmptyString) eqn:P; [|discriminate].
      intros _. apply prefix_spec in P. destruct P as (post & E).
      now exists EmptyString, post.
    + destruct (String.prefix k (String c s)) eqn:P.
      * intros _. apply prefix_spec in P. destruct P as (post & E).
        now exists EmptyString, post.
      * intros H. destruct (IH H) as (pre & post & E).
        exists (String c pre), post. cbn. now rewrite E.
  - intros (pre & post & E). subst s.
    induction pre as [|c pre IH].
    + assert (P : String.prefix k (k ++ post) = true)
        by (apply prefix_spec; now exists post).
      cbn [append]. destruct (k ++ post)%string; cbn [includes];
        now rewrite P.
    + cbn [append includes].
      destruct (String.prefix k (String c (pre ++ k ++ post)));
        [reflexivity|exact IH].
Qed.

(** X11.  An HTTP check succeeds exactly when a response came back, its
    status is one of the task's valid codes (200 alone when the task lists
    none), the keyword occurs in the body whenever both are non-empty, and
    the response took no longer than a non-zero maximum, if the task has
    one.  A failed request gives an unsuccessful result that carries the
    error message.  Of the four task types only http can succeed: the
    others answer "not implemented", and a type outside the four makes
    the execution throw. *)
Theorem http_check_verdict :
  forall host task,
    let r := checkHttpEndpoint host task in
    (r_success r = true <->
     exists status body elapsed,
       axios host = HttpResponse status body elapsed
       /\ In status (match t_validStatusCodes task with
                     | Some codes => codes
                     | None => [200]
                     end)
       /\ (forall keyword text,
             nonEmpty (t_keyword task) = Some keyword ->
             nonEmpty body = Some text ->
             exists pre post, text = (pre ++ keyword ++ post)%string)
       /\ (forall limit,
             t_maxResponseTime task = Some limit ->
             limit <> 0 -> elapsed <= limit))
    /\ (forall message elapsed,
          axios host = HttpError message elapsed ->
          r_success r = false /\ r_error r = Some message
          /\ r_responseTime r = Some elapsed)
    /\ (forall result,
          executeMonitoringTask host task = inl result ->
          r_success result = true -> t_type task = http)
    /\ (forall message,
          executeMonitoringTask host task = inr message <->
          exists name,
            t_type task = otherType name
            /\ message = ("Unknown task type: " ++ name)%string).
Proof.
  intros host task r. subst r. split; [|split; [|split]].
  - unfold checkHttpEndpoint.
    destruct (axios host) as [status body elapsed|message elapsed]; cbn.
    + rewrite !andb_true_iff. split.
      * intros ((S & C) & T). exists status, body, elapsed.
        split; [reflexivity|]. split; [|split].
        -- apply existsb_exists in S. destruct S as (x & Ix & Ex).
           apply Z.eqb_eq in Ex. now subst x.
        -- intros keyword text K B. rewrite K, B in C.
           now apply includes_spec.
        -- intros limit L NZ. rewrite L in T.
           apply orb_true_iff in T. destruct T as [T|T]; lia.
      * intros (status' & body' & elapsed' & E & S & C & T).
        injection E as <- <- <-. split; [split|].
        -- apply existsb_exists. exists status. split; [exact S|].
           apply Z.eqb_refl.
        -- destruct (nonEmpty (t_keyword task)) as [keyword|];
             [|reflexivity].
           destruct (nonEmpty body) as [text|]; [|reflexivity].
           apply includes_spec. now apply C.
        -- destruct (t_maxResponseTime task) as [limit|]; [|reflexivity].
           apply orb_true_iff. destruct (Z.eq_dec limit 0) as [->|NZ];
             [now left|right].
           apply Z.leb_le. now apply T.
    + split; [discriminate|]. intros (? & ? & ? & E & _). discriminate.
  - intros message elapsed E. unfold checkHttpEndpoint. rewrite E.
    now repeat split.
  - intros result E S. unfold executeMonitoringTask in E.
    destruct (t_type task); try reflexivity; try discriminate;
      injection E as <-; discriminate.
  - intros message. unfold executeMonitoringTask.
    destruct (t_type task) as [| | | |name];
      try (split; [discriminate|intros (? & ? & _); discriminate]).
    split.
    + intros E. injection E as <-. now exists name.
    + intros (name' & E & ->). now injection E as <-.
Qed.

Lemma replaceAt_length :
  forall (A : Type) (l : list A) i x,
    List.length (replaceAt i x l) = List.length l.
Proof.
  intros A. induction l as [|y l IH]; intros [|i] x; cbn; auto.
Qed.

Lemma replaceAt_other :
  forall (A : Type) (l : list A) i j x,
    j <> i -> nth_error (replaceAt i x l) j = nth_error l j.
Proof.
  intros A. induction l as [|y l IH]; intros [|i] [|j] x N; cbn; auto.
  - now elim N.
Qed.

Lemma replaceAt_same :
  forall (A : Type) (l : list A) i x y,
    nth_error l i = Some y -> nth_error (replaceAt i x l) i = Some x.
Proof.
  intros A. induction l as [|z l IH]; intros [|i] x y H; cbn in *;
    try discriminate; [reflexivity|].
  now apply (IH i x y).
Qed.

Lemma send_unqueued :
  forall env type data priority s,
    is_high priority = false ->
    Websocket.pendingMessages
      (snd (Websocket.send cfg env type data priority s))
    = Websocket.pendingMessages s.
Proof.
  intros env type data priority s P. unfold Websocket.send.
  destruct (sendFrom_contract cfg (Websocket.transport s) env type data
              priority s) as (Pq & _).
  cbv zeta in Pq. rewrite Pq, P. apply app_nil_r.
Qed.

(** X12.  One firing of a task's job changes no other task object, no
    aggregate and no job, and never adds to the pending queue (a result
    produced while the connection is closed is not kept for later).  After
    a check that returned, the task object carries the result and a run
    time, with every other field as before; after a check that threw, the
    task objects and the file are as before, and a job registered by
    addMonitoringTask changes nothing at all. *)
Theorem task_run_touches_only_its_task :
  forall host ref reportsErrors w,
    let w' := taskJob cfg host ref reportsErrors w in
    monitoringData w' = monitoringData w
    /\ cronJobs w' = cronJobs w
    /\ List.length (objects w') = List.length (objects w)
    /\ Websocket.pendingMessages (socket w')
       = Websocket.pendingMessages (socket w)
    /\ (forall other,
          other <> ref ->
          nth_error (objects w') other = nth_error (objects w) other)
    /\ (forall task,
          nth_error (objects w) ref = Some task ->
          match executeMonitoringTask host task with
          | inl result =>
              exists task',
                nth_error (objects w') ref = Some task'
                /\ ranWith task result task'
          | inr _ =>
              objects w' = objects w /\ file w' = file w
              /\ (reportsErrors = false -> w' = w)
          end)
    /\ (nth_error (objects w) ref = None -> w' = w).
Proof.
  intros host ref b w w'. subst w'. unfold taskJob.
  destruct (nth_error (objects w) ref) as [task|] eqn:N.
  2: { repeat split; try reflexivity. intros task E. discriminate. }
  destruct (executeMonitoringTask host task) as [result|message] eqn:X.
  - match goal with
    | |- context [persistData host ?a] =>
        destruct (persistData_frame host a) as (A1 & A2 & A3);
          pose proof (persistData_data host a) as A4
    end.
    rewrite A1, A2, A3, A4.
    cbn [set_objects set_socket objects socket cronJobs monitoringData].
    split; [reflexivity|]. split; [reflexivity|].
    split; [apply replaceAt_length|].
    split; [now apply send_unqueued|].
    split; [intros other D; now apply replaceAt_other|].
    split; [|discriminate].
    intros task' E. injection E as <-. rewrite X.
    eexists. split; [now apply (replaceAt_same _ _ _ _ task)|].
    unfold ranWith. cbn. repeat split. discriminate.
  - assert (Q : Websocket.pendingMessages
                  (socket
                     (if b
                      then set_socket
                             (snd (Websocket.send cfg (wsEnv host)
                                     "taskError"
                                     (PTaskError (t_id task) (t_type task)
                                        (t_target task) message
                                        (clock host))
                                     normal (socket w)))
                             w
                      else w))
                = Websocket.pendingMessages (socket w))
      by (destruct b; [now apply send_unqueued|reflexivity]).
    destruct b; cbn [set_socket objects socket cronJobs monitoringData
                     file] in *;
      (repeat split; try reflexivity; try exact Q; try discriminate);
      intros task' E; injection E as <-; rewrite X;
      repeat split; discriminate.
Qed.

(* Failure handling *)

Lemma broken_collect :
  forall host w,
    f_cpu (monitoring_metrics cfg) = true ->
    cpuBroken host ->
    collectMetrics cfg host w
    = Threw "Cannot read properties of undefined (reading 'model')".
Proof.
  intros host w Fc ((load & Hl) & Hc). unfold collectMetrics.
  now rewrite Fc, Hl, Hc.
Qed.

Lemma handleMetricsError_frame :
  forall host e w,
    let w' := handleMetricsError cfg host e w in
    history (monitoringData w') = history (monitoringData w)
    /\ metrics (monitoringData w') = metrics (monitoringData w)
    /\ monitoringTasks (monitoringData w')
       = monitoringTasks (monitoringData w)
    /\ startTime (monitoringData w') = startTime (monitoringData w)
    /\ lastRewardTime (monitoringData w')
       = lastRewardTime (monitoringData w)
    /\ file w' = file w
    /\ objects w' = objects w
    /\ cronJobs w' = cronJobs w
    /\ Websocket.pendingMessages (socket w')
       = Websocket.pendingMessages (socket w)
    /\ Websocket.wire (socket w') = Websocket.wire (socket w).
Proof.
  intros host e w w'. subst w'. unfold handleMetricsError.
  destruct (_ && _); cbn; repeat split;
    destruct (connect_queue cfg (wsEnv host) (socket w)) as (P & _ & W);
    assumption.
Qed.

(** X13.  While the cpu collection keeps throwing, every metrics tick
    adds one to the error counter and nothing else is recorded: no history
    point, no change of the current metrics, nothing written to the file,
    nothing sent or queued.  The status reported by getMetrics stops being
    healthy once the counter reaches 3, and a tick that brings the counter
    to 5 or more while the connection is closed calls [connect]; no other
    failing tick touches the connection. *)
Theorem failure_streak :
  f_cpu (monitoring_metrics cfg) = true ->
  forall hosts w,
    Forall cpuBroken hosts ->
    let w' := tickAll cfg hosts w in
    errorCount w' = errorCount w + Z.of_nat (List.length hosts)
    /\ st_healthy (rp_status (report w'))
       = (errorCount w + Z.of_nat (List.length hosts) <? 3)
    /\ history (monitoringData w') = history (monitoringData w)
    /\ metrics (monitoringData w') = metrics (monitoringData w)
    /\ file w' = file w
    /\ Websocket.pendingMessages (socket w')
       = Websocket.pendingMessages (socket w)
    /\ Websocket.wire (socket w') = Websocket.wire (socket w)
    /\ (forall host,
          cpuBroken host ->
          socket (metricsJob cfg host w')
          = (if (4 <=? errorCount w')
                && negb (Websocket.isConnected (socket w'))
             then Websocket.connect cfg (wsEnv host) (socket w')
             else socket w')).
Proof.
  intros Fc hosts w B w'. subst w'.
  assert (G : errorCount (tickAll cfg hosts w)
              = errorCount w + Z.of_nat (List.length hosts)
              /\ history (monitoringData (tickAll cfg hosts w))
                 = history (monitoringData w)
              /\ metrics (monitoringData (tickAll cfg hosts w))
                 = metrics (monitoringData w)
              /\ file (tickAll cfg hosts w) = file w
              /\ Websocket.pendingMessages (socket (tickAll cfg hosts w))
                 = Websocket.pendingMessages (socket w)
              /\ Websocket.wire (socket (tickAll cfg hosts w))
                 = Websocket.wire (socket w)).
  { revert w. induction B as [|host hosts Bh Bt IH]; intros w.
    - cbn. rewrite Z.add_0_r. repeat split.
    - unfold tickAll. cbn [fold_left].
      fold (tickAll cfg hosts (metricsJob cfg host w)).
      destruct (IH (metricsJob cfg host w)) as (A1 & A2 & A3 & A4 & A5 & A6).
      rewrite A1, A2, A3, A4, A5, A6.
      unfold metricsJob. rewrite (broken_collect host w Fc Bh).
      destruct (handleMetricsError_frame host
                  "Cannot read properties of undefined (reading 'model')"
                  w)
        as (F1 & F2 & _ & _ & _ & F3 & _ & _ & F4 & F5).
      cbv zeta in F1, F2, F3, F4, F5.
      rewrite F1, F2, F3, F4, F5, handleMetricsError_count.
      cbn [List.length]. repeat split. lia. }
  destruct G as (G1 & G2 & G3 & G4 & G5 & G6).
  split; [exact G1|].
  split; [unfold report; cbn; fold (errorCount (tickAll cfg hosts w));
          now rewrite G1|].
  repeat (split; [assumption|]).
  intros host Bh. set (w' := tickAll cfg hosts w).
  unfold metricsJob. rewrite (broken_collect host w' Fc Bh).
  unfold handleMetricsError, Websocket.isSocketConnected, errorCount. cbn.
  replace (5 <=? count (errors (monitoringData w')) + 1)
    with (4 <=? count (errors (monitoringData w')))
    by (destruct (4 <=? _) eqn:P; symmetry;
        [apply Z.leb_le; apply Z.leb_le in P
        |apply Z.leb_gt; apply Z.leb_gt in P]; lia).
  destruct (_ && _); reflexivity.
Qed.

(* Rewards *)

(** X15.  Once a reward has been issued at a time other than 0, every
    evaluation made less than the reward interval later stops at the
    first test: it returns without computing an uptime, without calling
    the issuer and without changing anything. *)
Theorem no_second_reward_within_interval :
  forall host w amount tx,
    fst (distributeRewards cfg host w) = Rewarded amount tx ->
    clock host <> 0 ->
    let w' := snd (distributeRewards cfg host w) in
    lastRewardTime (monitoringData w') = Some (clock host)
    /\ (forall host',
          clock host' - clock host < solana_rewardInterval cfg ->
          distributeRewards cfg host' w' = (NotYetTime, w')).
Proof.
  intros host w amount tx R NZ w'. subst w'. revert R.
  unfold distributeRewards.
  destruct (notYetTime cfg (clock host) (monitoringData w));
    [discriminate|].
  destruct (uptimePercentage (clock host) (monitoringData w)) as [pct|];
    [|discriminate].
  destruct (geb pct (Fin 90)); [|discriminate].
  destruct (solana_sendReward host (rewardAmountFor cfg pct)) as [t|];
    [|discriminate].
  intros _. cbn [snd]. split; [reflexivity|].
  intros host' L.
  assert (T : notYetTime cfg (clock host')
                (monitoringData
                   (updateData (set_lastRewardTime (Some (clock host))) w))
              = true).
  { unfold notYetTime. cbn. apply andb_true_iff. split.
    - apply negb_true_iff. now apply Z.eqb_neq.
    - now apply Z.ltb_lt. }
  now rewrite T.
Qed.

(* Start-up *)

Lemma schedule_appended :
  forall (l pre : list Task) w,
    objects w = pre ++ l ->
    fold_left (scheduleOne true) (seq (List.length pre) (List.length l)) w
    = set_cronJobs (cronJobs w ++ reportingJobs (List.length pre) l) w.
Proof.
  induction l as [|task l IH]; intros pre w O.
  - cbn. rewrite app_nil_r. now destruct w.
  - cbn [List.length seq fold_left].
    assert (N : nth_error (objects w) (List.length pre) = Some task).
    { rewrite O, nth_error_app2 by lia. now rewrite Nat.sub_diag. }
    unfold scheduleOne at 2. rewrite N.
    specialize (IH (pre ++ [task])
                  (register (taskCadence (t_interval task))
                     (TaskJob (List.length pre) true) w)).
    rewrite length_app in IH. cbn [List.length] in IH.
    rewrite Nat.add_1_r in IH. rewrite IH.
    + unfold register. cbn. rewrite <- app_assoc. reflexivity.
    + cbn. rewrite O, <- app_assoc. reflexivity.
Qed.

Ltac processMetrics_cases m w :=
  unfold processMetrics;
  destruct (m_uptime m); [|reflexivity];
  cbn;
  destruct (Websocket.isSocketConnected (socket w));
  destruct (usageOf (m_cpu m));
  destruct (usagePercentageOf (m_memory m));
  reflexivity.

Lemma processMetrics_frame :
  forall host m w,
    cronJobs (snd (processMetrics cfg host m w)) = cronJobs w
    /\ objects (snd (processMetrics cfg host m w)) = objects w
    /\ monitoringTasks (monitoringData (snd (processMetrics cfg host m w)))
       = monitoringTasks (monitoringData w).
Proof.
  intros host m w. repeat split; processMetrics_cases m w.
Qed.

(** X16.  With a positive metrics interval and tasks with numeric
    intervals on file (the expressions node-cron accepts), init, run on
    fresh module variables, registers the metrics job with the step
    [ceil(interval / 60000)], then one job per task read from the file, in
    file order and each reporting its errors to the aggregator, then the
    [*/30] persist job, and no other cron job; the task list is the one of
    the file.  init itself never writes the file. *)
Theorem init_registers_jobs :
  forall host boot f,
    let tasks :=
      match f with
      | FileData data =>
          match p_monitoringTasks data with Some l => l | None => [] end
      | _ => []
      end in
    plainInterval (IntervalMs (monitoring_interval cfg)) ->
    (0 < monitoring_interval cfg)%Q ->
    Forall (fun task => plainInterval (t_interval task)) tasks ->
    let w := init cfg host (initialWorld boot f) in
    cronJobs w
    = {| job_cadence :=
           EveryMinutes (Qceiling (monitoring_interval cfg / 60000));
         job_action := MetricsJob |}
      :: reportingJobs 0 tasks
      ++ [{| job_cadence := EveryMinutes 30; job_action := PersistJob |}]
    /\ tasksOf w = tasks
    /\ file w = f.
Proof.
  intros host boot f tasks _ _ _ w. subst w.
  set (mj := {| job_cadence :=
                  EveryMinutes (Qceiling (monitoring_interval cfg / 60000));
                job_action := MetricsJob |}).
  set (pj := {| job_cadence := EveryMinutes 30; job_action := PersistJob |}).
  assert (S : exists w4,
             cronJobs w4 = mj :: reportingJobs 0 tasks ++ [pj]
             /\ tasksOf w4 = tasks /\ file w4 = f
             /\ init cfg host (initialWorld boot f)
                = match collectMetrics cfg host w4 with
                  | Returned m =>
                      let '(threw, w') := processMetrics cfg host m w4 in
                      match threw with
                      | Some e => handleMetricsError cfg host e w'
                      | None => w'
                      end
                  | Threw e => handleMetricsError cfg host e w4
                  | Hangs => w4
                  end).
  { unfold init. eexists. split; [|split; [|split; [|reflexivity]]].
    - subst tasks. unfold loadPersistedData, initialWorld. cbn [file].
      destruct f as [| | |data]; try reflexivity.
      cbn -[seq]. destruct (p_monitoringTasks data) as [l|]; [|reflexivity].
      destruct l as [|task l]; [reflexivity|].
      change (seq 0 (List.length (task :: l)))
        with (seq (List.length (@nil Task)) (List.length (task :: l))).
      destruct (seq _ _) eqn:Q; [discriminate|]. rewrite <- Q.
      unfold scheduleMonitoringTasks. cbn [monitoringData register
        set_cronJobs]. rewrite Q. rewrite <- Q.
      rewrite schedule_appended by reflexivity. reflexivity.
    - subst tasks. unfold loadPersistedData, initialWorld. cbn [file].
      destruct f as [| | |data]; try reflexivity.
      cbn -[seq]. destruct (p_monitoringTasks data) as [l|]; [|reflexivity].
      destruct l as [|task l]; [reflexivity|].
      change (seq 0 (List.length (task :: l)))
        with (seq (List.length (@nil Task)) (List.length (task :: l))).
      destruct (seq _ _) eqn:Q; [discriminate|]. rewrite <- Q.
      unfold scheduleMonitoringTasks. cbn [monitoringData register
        set_cronJobs]. rewrite Q. rewrite <- Q.
      rewrite schedule_appended by reflexivity.
      unfold tasksOf. cbn [monitoringData objects set_cronJobs register].
      exact (deref_appended [] (task :: l)).
    - unfold loadPersistedData, initialWorld. cbn [file].
      destruct f as [| | |data]; try reflexivity.
      cbn -[seq scheduleMonitoringTasks].
      destruct (match p_monitoringTasks data with
                | Some l => seq 0 (List.length l) | None => []
                end); [reflexivity|].
      match goal with
      | |- file (scheduleMonitoringTasks ?a) = _ =>
          destruct (scheduleMonitoringTasks_data a) as (_ & E)
      end.
      exact E. }
  destruct S as (w4 & J & T & F & ->).
  destruct (collectMetrics cfg host w4) as [m|e|].
  - destruct (processMetrics_frame host m w4) as (P1 & P2 & P3).
    pose proof (processMetrics_file cfg host m w4) as P4.
    destruct (processMetrics cfg host m w4) as [[e|] w5]; cbn [snd] in *.
    + destruct (handleMetricsError_frame host e w5)
        as (_ & _ & H1 & _ & _ & H2 & H3 & H4 & _).
      cbv zeta in H1, H2, H3, H4. unfold tasksOf.
      rewrite H1, H2, H3, H4, P1, P2, P3, P4. now repeat split.
    + unfold tasksOf. rewrite P1, P2, P3, P4. now repeat split.
  - destruct (handleMetricsError_frame host e w4)
      as (_ & _ & H1 & _ & _ & H2 & H3 & H4 & _).
    cbv zeta in H1, H2, H3, H4. unfold tasksOf.
    rewrite H1, H2, H3, H4. now repeat split.
  - now repeat split.
Qed.


End MonitorExtras.

(* ------------------------------------------------------------------ *)
(** * Further properties of the connectivity manager: what it sends on
      request *)

Section InboundExtras.
Import Websocket.
Variable cfg : Config.

(** X14.  sendMetrics sends nothing at all for an unregistered node.  For
    a registered node it returns [true] exactly when the connection is
    open and the transport takes the snapshot, which then goes out with
    the node's id and key; a snapshot that cannot be sent is dropped:
    sendMetrics never adds to the pending queue. *)
Theorem sendMetrics_contract :
  forall env metrics s,
    let message :=
      messageFor env "metrics"
        (PMetrics (nodeId (user env)) (publicKey (user env)) metrics)
        normal in
    let r := sendMetrics cfg env metrics s in
    pendingMessages (snd r) = pendingMessages s
    /\ (fst r = true <->
        registered (user env) = true /\ isConnected s = true
        /\ hd true (transport s) = true)
    /\ (fst r = true -> wire (snd r) = wire s ++ [message])
    /\ (registered (user env) = false ->
        wire (snd r) = wire s /\ transport (snd r) = transport s)
    /\ (fst r = false ->
        exists pings, wire (snd r) = wire s ++ pings /\ Forall isPing pings).
Proof.
  intros env metrics s message r. subst r. unfold sendMetrics.
  destruct (registered (user env)) eqn:R; cbn [negb].
  - unfold send.
    destruct (sendFrom_contract cfg (transport s) env "metrics"
                (PMetrics (nodeId (user env)) (publicKey (user env)) metrics)
                normal s) as (Pq & Acc & Wt & Wf).
    cbv zeta in Pq, Acc, Wt, Wf. cbn [is_high andb] in Pq.
    rewrite app_nil_r in Pq.
    split; [exact Pq|]. split; [|split; [exact Wt|split; [discriminate|]]].
    + rewrite Acc. tauto.
    + exact Wf.
  - cbn. split; [reflexivity|].
    split; [split; [discriminate|intros (F & _); discriminate]|].
    split; [discriminate|]. split; [now split|].
    intros _. exists []. rewrite app_nil_r. split; constructor.
Qed.

(** X17.  A task assignment is answered with a high-priority taskResult
    once the collection it may await has settled: the answer either goes
    out at once or joins the pending queue, whatever the task type and the
    state of the connection.  The answer reports success only for a
    metrics collection that returned and for a configuration update that
    carries a configuration. *)
Theorem task_assignment_is_answered :
  forall env taskId task s,
    let answer :=
      messageFor env "taskResult"
        (PRemoteTaskResult (remoteTaskResult env taskId task)) high in
    let s' := handleMessage cfg env (InTask taskId task) s in
    ((wire s' = wire s ++ [answer]
      /\ pendingMessages s' = pendingMessages s)
     \/ pendingMessages s' = pendingMessages s ++ [answer])
    /\ (rt_success (remoteTaskResult env taskId task) = true <->
        (exists m, task = RtCollectMetrics (inl m))
        \/ task = RtUpdateConfig true)
    /\ rt_taskId (remoteTaskResult env taskId task) = taskId
    /\ rt_nodeId (remoteTaskResult env taskId task) = nodeId (user env).
Proof.
  intros env taskId task s answer s'. subst s'. split.
  - cbn [handleMessage]. unfold send.
    set (s0 := logger info _ _).
    destruct (sendFrom_contract cfg (transport s0) env "taskResult"
                (PRemoteTaskResult (remoteTaskResult env taskId task))
                high s0) as (Pq & _ & Wt & _).
    cbv zeta in Pq, Wt. fold answer in Pq, Wt. cbn [is_high andb] in Pq.
    destruct (fst (sendFrom cfg (transport s0) env "taskResult"
                     (PRemoteTaskResult (remoteTaskResult env taskId task))
                     high s0)) eqn:F.
    + left. split; [exact (Wt eq_refl)|].
      cbn in Pq. now rewrite app_nil_r in Pq.
    + right. exact Pq.
  - split; [|destruct task as [[m|e]| |c|name]; now split].
    destruct task as [[m|e]| |[|]|name]; cbn; split;
      try discriminate; try (intros _; now eauto);
      intros [(m' & E)|E]; discriminate.
Qed.

Lemma pow2_from_5 :
  forall k, 5 <= k -> (32 <= 2 ^ k)%Q.
Proof.
  intros k H. apply Qle_trans with (2 ^ 5)%Q; [discriminate|].
  apply Qpower_le_compat_l; [exact H|discriminate].
Qed.

(** X18.  A serverShutdown notice raises the attempt counter to at least
    5 and touches nothing else of the connection.  The close that follows
    is counted as attempt 6 or later, and the reconnect timer it arms has,
    with a base interval of a second or more, a delay of at least 30
    seconds.  (This bounds the timer only: connect is also called by
    handleMetricsError, which looks at no timer.) *)
Theorem shutdown_notice_raises_backoff :
  forall env env' s,
    let s1 := handleMessage cfg env InServerShutdown s in
    let s2 := handleClose cfg env' s1 in
    reconnectAttempts s1 = Z.max (reconnectAttempts s) 5
    /\ isConnected s1 = isConnected s
    /\ reconnectTimeout s1 = reconnectTimeout s
    /\ pendingMessages s1 = pendingMessages s
    /\ wire s1 = wire s
    /\ reconnectAttempts s2 = Z.max (reconnectAttempts s) 5 + 1
    /\ ((1000 <= websocket_reconnectInterval cfg)%Q ->
        (0 <= random env')%Q ->
        exists tm,
          reconnectTimeout s2 = Some tm /\ tm_live tm = true
          /\ (30000 <= tm_delay tm)%Q).
Proof.
  intros env env' s s1 s2. subst s2 s1.
  cbn [handleMessage]. repeat (split; [reflexivity|]).
  unfold handleClose, scheduleReconnect.
  cbn [reconnectAttempts set_reconnectAttempts set_reconnectTimeout
       set_isConnected set_pingInterval logger set_log].
  set (a := Z.max (reconnectAttempts s) 5).
  destruct (a + 1 <=? websocket_maxReconnectAttempts cfg);
    cbn [reconnectAttempts set_reconnectAttempts set_reconnectTimeout
         reconnectTimeout logger set_log];
    (split; [reflexivity|]); intros B R; eexists;
    (split; [reflexivity|]); (split; [reflexivity|]);
    cbn [tm_delay]; [|discriminate].
  unfold backoffDelay.
  set (base := websocket_reconnectInterval cfg) in *.
  assert (P : (32 <= 2 ^ (a + 1 - 1))%Q) by (apply pow2_from_5; lia).
  assert (M : (30000 <= base * 2 ^ (a + 1 - 1))%Q) by nra.
  rewrite (Q.min_l 30000 (base * 2 ^ (a + 1 - 1))) by exact M.
  apply Q.min_glb; [|discriminate].
  assert (J : (0 <= random env' * (3 # 10) * 30000)%Q) by nra.
  lra.
Qed.

(** X26.  An error that arrives less than five seconds after the start
    of a connection attempt costs two extra attempts: the close that
    follows is scheduled as attempt [n + 3] instead of [n + 1], with the
    backoff delay of that attempt, or with the five-minute cooldown when
    that exceeds the cap.  An error that arrives later, or with no
    recorded start, changes nothing but the log. *)
Theorem early_error_skips_two_attempts :
  forall env env' s,
    let early :=
      match connectionStartTime s with
      | Some t0 => negb (t0 =? 0) && (now env - t0 <? 5000)
      | None => false
      end in
    let n := reconnectAttempts s + (if early then 3 else 1) in
    let s' := handleClose cfg env' (handleError env s) in
    reconnectAttempts s' = n
    /\ reconnectTimeout s'
       = Some
           (if n <=? websocket_maxReconnectAttempts cfg
            then {| tm_kind := Backoff;
                    tm_delay := backoffDelay cfg n (random env');
                    tm_live := true |}
            else {| tm_kind := Cooldown; tm_delay := 300000;
                    tm_live := true |})
    /\ isConnected s' = false
    /\ (early = false ->
        handleError env s = logger error "WebSocket error" s).
Proof.
  intros env env' s early n s'. subst s' n early.
  unfold handleError, handleClose, scheduleReconnect.
  cbn [connectionStartTime logger set_log].
  destruct (connectionStartTime s) as [t0|].
  - destruct (negb (t0 =? 0) && (now env - t0 <? 5000));
      cbn [reconnectAttempts set_reconnectAttempts set_reconnectTimeout
           set_isConnected set_pingInterval logger set_log];
      rewrite <- ?Z.add_assoc; cbn [Z.add Pos.add Pos.succ];
      match goal with
      | |- context [?a <=? websocket_maxReconnectAttempts cfg] =>
          destruct (a <=? websocket_maxReconnectAttempts cfg)
      end; cbn; repeat split; discriminate.
  - cbn [reconnectAttempts set_reconnectAttempts set_reconnectTimeout
         set_isConnected set_pingInterval logger set_log].
    destruct (reconnectAttempts s + 1
              <=? websocket_maxReconnectAttempts cfg);
      cbn; repeat split.
Qed.

End InboundExtras.

(* ------------------------------------------------------------------ *)
(** * Which routines the agent enters *)

Lemma reached_runs :
  forall n l,
    (forall r, In r l -> Agent.runs r) ->
    forall r, In r (reached n l) -> Agent.runs r.
Proof.
  induction n as [|n IH]; intros l H r I; [now apply H|].
  cbn [reached] in I. apply (IH _) in I; [exact I|].
  intros r' I'. apply nodup_In in I'. apply in_app_or in I'.
  destruct I' as [I'|I']; [now apply H|].
  apply in_flat_map in I'. destruct I' as (caller & Ic & Ii).
  exact (Agent.runs_invoked caller r' (H caller Ic) Ii).
Qed.

Lemma dormant_closed :
  forall r r', ~ In r dormant -> In r' (Agent.invokes r) -> ~ In r' dormant.
Proof.
  intros r r' N I D. apply N. clear N.
  destruct r; cbn in I;
    repeat (destruct I as [<-|I];
            [cbn in D;
             repeat (destruct D as [D|D]; [discriminate|]); destruct D|]);
    try destruct I; cbn; tauto.
Qed.

(** X20.  The routines that the program entry reaches through calls and
    registered callbacks are exactly the ones outside [dormant].  So no
    execution of the agent adds, schedules singly or removes a monitoring
    task, although [services/monitor.js] exports addMonitoringTask and
    removeMonitoringTask: the task list of a running agent only ever comes
    from the persisted file.  The reward transfer functions and the legacy
    socket.io client are not entered either. *)
Theorem entered_routines :
  (forall r, Agent.runs r <-> ~ In r dormant)
  /\ In Agent.addMonitoringTask Agent.monitor_exports
  /\ In Agent.removeMonitoringTask Agent.monitor_exports
  /\ ~ Agent.runs Agent.addMonitoringTask
  /\ ~ Agent.runs Agent.removeMonitoringTask.
Proof.
  assert (F : forall r, Agent.runs r -> ~ In r dormant).
  { induction 1 as [|r r' R IH I].
    - cbn. intros D.
      repeat (destruct D as [D|D]; [discriminate|]). exact D.
    - exact (dormant_closed r r' IH I). }
  split; [|split; [cbn; tauto|split; [cbn; tauto|split]]].
  - intros r. split; [apply F|]. intros N.
    apply (reached_runs 8 [Agent.index_main]).
    + intros r' [<-|[]]. constructor.
    + destruct r;
        first [ exfalso; apply N; cbn; tauto
              | vm_compute; repeat (first [left; reflexivity|right]) ].
  - intros R. apply (F _ R). cbn. tauto.
  - intros R. apply (F _ R). cbn. tauto.
Qed.

(* ------------------------------------------------------------------ *)
(** * Properties of the registration service *)

Section UserFacts.
Variable cfg : Config.

(** X21.  registerUser is all or nothing.  It succeeds exactly when the
    main application answers with a truthy [success]; it then marks the
    node registered under the caller's key and the node id of the answer,
    whether or not the profile could be written.  In every other case it
    returns an error message and leaves both the profile and the file as
    they were. *)
Theorem registerUser_all_or_nothing :
  forall net key st,
    let r := User.registerUser net key st in
    (User.rr_success (fst r) = true <->
     exists node message, User.post net = User.PostAnswered true node message)
    /\ (User.rr_success (fst r) = false ->
        snd r = st /\ User.rr_nodeId (fst r) = None
        /\ exists text, User.rr_error (fst r) = Some text)
    /\ (forall node message,
          User.post net = User.PostAnswered true node message ->
          User.rr_nodeId (fst r) = node
          /\ User.rr_error (fst r) = None
          /\ User.isRegistered (snd r) = Some true
          /\ User.view (User.getUserData (snd r))
             = {| registered := true; nodeId := node; publicKey := key |}
          /\ User.file (snd r)
             = (if User.fs_writeOk net
                then match User.userData (snd r) with
                     | Some p => User.FileData p
                     | None => User.FileNull
                     end
                else User.file st)).
Proof.
  intros net key st r. subst r. unfold User.registerUser.
  destruct (User.post net) as [m|[e|]|[|] node m]; cbn [fst snd];
    (split; [split; [try discriminate; intros _; eauto
                    |try reflexivity; intros (? & ? & E); discriminate]|]);
    (split; [try discriminate; intros _; cbn; eauto|]);
    intros node' m' E; try discriminate.
  injection E as <- <-. unfold User.saveUserData.
  destruct (User.fs_writeOk net); cbn; repeat split.
Qed.

(** X22.  A registration whose write succeeded survives a restart: init
    on fresh module variables reads back exactly the profile registerUser
    left.  When the write failed the restart sees what the file held
    before, so the registration is gone. *)
Theorem registration_across_restart :
  forall net key st disk node message,
    User.post net = User.PostAnswered true node message ->
    (User.dataDirExists disk = true \/ User.mkdirThrows disk = false) ->
    let st' := snd (User.registerUser net key st) in
    exists restarted,
      User.init disk (User.initial (User.file st')) = Some restarted
      /\ (User.fs_writeOk net = true ->
          User.userData restarted = User.userData st')
      /\ (User.fs_writeOk net = false ->
          User.init disk (User.initial (User.file st)) = Some restarted).
Proof.
  intros net key st disk node message E D st'. subst st'.
  unfold User.registerUser. rewrite E. cbn [snd].
  assert (G : negb (User.dataDirExists disk) && User.mkdirThrows disk
              = false)
    by (destruct D as [-> | ->];
        [reflexivity|apply andb_false_r]).
  unfold User.init. rewrite G. eexists. split; [reflexivity|].
  unfold User.saveUserData. destruct (User.fs_writeOk net); cbn.
  - split; [reflexivity|discriminate].
  - split; [discriminate|reflexivity].
Qed.

(** X23.  updateStatus (for a profile that is an object) posts nothing
    unless the node is registered and has a non-empty node id; it then
    posts exactly one status request, which carries the node id, the key,
    the status "active" and the time of the call.  It returns [true]
    exactly when, in addition, the main application answers with a truthy
    [success]; it then changes [lastPing] and nothing else of the profile.
    In every other case it returns [false] and changes nothing. *)
Theorem updateStatus_contract :
  forall net st p,
    User.userData st = Some p ->
    let posted := fst (User.updateStatus net st) in
    let r := snd (User.updateStatus net st) in
    let eligible :=
      User.registered p = true /\ User.lacksNodeId p = false in
    (posted <> [] <-> eligible)
    /\ (eligible ->
        posted
        = [{| User.sd_nodeId := User.nodeId p;
              User.sd_publicKey := User.publicKey p;
              User.sd_status := "active";
              User.sd_timestamp := User.now net |}])
    /\ (fst r = Some true <->
        eligible
        /\ exists node message,
             User.post net = User.PostAnswered true node message)
    /\ (fst r <> Some true -> fst r = Some false /\ snd r = st)
    /\ (fst r = Some true ->
        User.userData (snd r)
        = Some {| User.registered := User.registered p;
                  User.publicKey := User.publicKey p;
                  User.nodeId := User.nodeId p;
                  User.geolocation := User.geolocation p;
                  User.registrationTime := User.registrationTime p;
                  User.lastPing := Some (User.later net) |})
    /\ User.view (User.getUserData (snd r)) = User.view p.
Proof.
  intros net st p U posted r eligible. subst posted r eligible.
  unfold User.updateStatus. rewrite U.
  destruct (User.registered p) eqn:R; cbn [negb orb].
  2: { cbn. unfold User.getUserData. rewrite U.
       repeat split; try discriminate; try tauto;
         try (intros (F & _); discriminate);
         try (intros ((F & _) & _); discriminate);
         try (intros F; now elim F). }
  destruct (User.lacksNodeId p) eqn:L.
  { cbn. unfold User.getUserData. rewrite U.
    repeat split; try discriminate; try tauto;
      try (intros (_ & F); discriminate);
      try (intros ((_ & F) & _); discriminate);
      try (intros F; now elim F). }
  destruct (User.post net) as [m|e|[|] node m]; cbn [fst snd];
    try (unfold User.getUserData; rewrite U;
         repeat split; try discriminate; try tauto;
         intros (_ & ? & ? & F); discriminate).
  unfold User.saveUserData, User.getUserData, User.view.
  destruct (User.fs_writeOk net); cbn; rewrite ?R;
    repeat split; try tauto; try discriminate; eauto;
    try (intros F; now elim F).
Qed.

Lemma step_keeps_registration :
  forall net c st p,
    User.userData st = Some p -> User.registered p = true ->
    exists p',
      User.userData (User.step net c st) = Some p'
      /\ User.registered p' = true.
Proof.
  intros net c st p U R. destruct c as [key| |]; cbn [User.step].
  - unfold User.registerUser.
    destruct (User.post net) as [m|e|[|] node m]; cbn [snd]; eauto.
    unfold User.saveUserData. destruct (User.fs_writeOk net); cbn; eauto.
  - unfold User.updateStatus. rewrite U, R. cbn [negb orb].
    destruct (User.lacksNodeId p); cbn [snd]; eauto.
    destruct (User.post net) as [m|e|[|] node m]; cbn [snd]; eauto.
    unfold User.saveUserData. destruct (User.fs_writeOk net); cbn; eauto.
  - unfold User.statusTick, User.isRegistered. rewrite U, R.
    unfold User.updateStatus. rewrite U, R. cbn [negb orb].
    destruct (User.lacksNodeId p); cbn [snd]; eauto.
    destruct (User.post net) as [m|e|[|] node m]; cbn [snd]; eauto.
    unfold User.saveUserData. destruct (User.fs_writeOk net); cbn; eauto.
Qed.

(** X24.  Nothing the service does while the agent runs undoes a
    registration: once [registered] is true it stays true through every
    sequence of registrations, status updates and status ticks, whatever
    the main application answers. *)
Theorem registration_is_never_undone :
  forall calls st p,
    User.userData st = Some p -> User.registered p = true ->
    User.isRegistered (User.run calls st) = Some true.
Proof.
  induction calls as [|[net c] calls IH]; intros st p U R.
  - cbn. unfold User.isRegistered. now rewrite U, R.
  - cbn [User.run].
    destruct (step_keeps_registration net c st p U R) as (p' & U' & R').
    exact (IH _ p' U' R').
Qed.

(** X25.  Registration and the connection compose: after a successful
    registerUser, the next open signal authenticates with the node id of
    the answer and the caller's key; this high-priority message has gone
    out or is waiting in the pending queue when handleOpen returns,
    whatever the transport does. *)
Theorem registration_then_open_authenticates :
  forall net key st node message env s,
    User.post net = User.PostAnswered true node message ->
    Websocket.user env
    = User.view (User.getUserData (snd (User.registerUser net key st))) ->
    let hello := messageFor env "authenticate" (PAuthenticate node key) high in
    let s' := Websocket.handleOpen cfg env s in
    In hello (Websocket.wire s') \/ In hello (Websocket.pendingMessages s').
Proof.
  intros net key st node message env s E V hello s'. subst s'.
  assert (W : Websocket.user env
              = {| registered := true; nodeId := node; publicKey := key |}).
  { rewrite V. unfold User.registerUser. rewrite E. cbn [snd].
    unfold User.saveUserData. destruct (User.fs_writeOk net); reflexivity. }
  unfold Websocket.handleOpen. rewrite W. cbn [registered nodeId publicKey].
  unfold Websocket.authenticate, Websocket.send.
  match goal with
  | |- context [Websocket.sendFrom cfg ?o env ?t ?d ?p ?s0] =>
      destruct (sendFrom_contract cfg o env t d p s0) as (Pq & _ & Wt & _);
        set (r := Websocket.sendFrom cfg o env t d p s0) in *
  end.
  cbv zeta in Pq, Wt. fold hello in Pq, Wt. cbn [is_high andb] in Pq.
  destruct (flushPending_spec (snd r)) as (Fw & Fp & _).
  cbv zeta in Fw, Fp. rewrite Fw, Fp.
  destruct (fst r) eqn:F.
  - left. rewrite (Wt eq_refl). apply in_or_app. left.
    apply in_or_app. right. now left.
  - cbn [negb] in Pq.
    destruct (kept_by_flush (Websocket.pendingMessages (snd r))
                (Websocket.transport (snd r)) hello) as [D|D].
    + rewrite Pq. apply in_or_app. right. now left.
    + reflexivity.
    + left. apply in_or_app. now right.
    + now right.
Qed.

End UserFacts.

(* ------------------------------------------------------------------ *)
(** * Samples of the further properties *)

(** A sample of X1: a task answer sent before the first connection is
    refused and queued. *)
Lemma send_contract_witness :
  let r :=
    Websocket.send default_config calm "taskResult" (msg_data earlyAnswer)
      high Websocket.initial in
  fst r = false
  /\ Websocket.pendingMessages (snd r) = [earlyAnswer].
Proof.
  pose proof (send_contract default_config calm "taskResult"
                (msg_data earlyAnswer) high Websocket.initial) as H.
  cbv zeta in H. destruct H as (_ & _ & F).
  split; [reflexivity|]. exact (proj1 (F eq_refl)).
Defined.

(** A sample of X2: the queue of the state in which that answer waits. *)
Lemma pending_queue_is_high_only_witness :
  Websocket.reachable default_config waiting
  /\ allHigh (Websocket.pendingMessages waiting).
Proof.
  assert (R : Websocket.reachable default_config waiting)
    by (apply Websocket.reach_step, Websocket.reach_initial).
  split; [exact R|].
  exact (proj1 (pending_queue_is_high_only default_config) waiting R).
Defined.

(** A sample of X3: the waiting answer, at the open signal. *)
Lemma open_loses_no_pending_message_witness :
  In earlyAnswer (Websocket.pendingMessages waiting)
  /\ (In earlyAnswer
        (Websocket.wire (Websocket.handleOpen default_config calm waiting))
      \/ In earlyAnswer
           (Websocket.pendingMessages
              (Websocket.handleOpen default_config calm waiting))).
Proof.
  assert (I : In earlyAnswer (Websocket.pendingMessages waiting))
    by (left; reflexivity).
  split; [exact I|].
  apply (open_loses_no_pending_message default_config waiting);
    [apply Websocket.reach_step, Websocket.reach_initial|exact I].
Defined.

(** A sample of X4: the first open signal, then an error event. *)
Lemma connected_flag_follows_open_and_close_witness :
  let s := Websocket.step default_config calm Websocket.EvOpen
             Websocket.initial in
  Websocket.isConnected s = true
  /\ Websocket.isConnected
       (Websocket.step default_config calm Websocket.EvError s) = true.
Proof.
  cbv zeta. split.
  - exact (connected_flag_follows_open_and_close default_config calm
             Websocket.EvOpen Websocket.initial (Forall_nil _)).
  - exact (connected_flag_follows_open_and_close default_config calm
             Websocket.EvError
             (Websocket.step default_config calm Websocket.EvOpen
                Websocket.initial)
             (Forall_nil _)).
Defined.

(** A sample of X5: the cooldown timer armed by the eleventh failure. *)
Lemma backoff_restarts_after_cooldown_witness :
  cooldownArmed capped = true
  /\ Websocket.reconnectAttempts capped = 11
  /\ Websocket.reconnectAttempts
       (Websocket.timerFired default_config calm capped) = 0
  /\ Websocket.reconnectAttempts
       (Websocket.handleClose default_config calm
          (Websocket.timerFired default_config calm capped)) = 1.
Proof.
  pose proof (backoff_restarts_after_cooldown default_config calm calm
                capped eq_refl eq_refl) as H.
  cbv zeta in H. destruct H as (A & _ & _ & _ & _ & B & _).
  split; [reflexivity|]. split; [reflexivity|]. split; [exact A|exact B].
Defined.

(** A sample of X6: the delays of attempts 1 and 3 with the shipped
    configuration. *)
Lemma backoffDelay_capped_and_monotone_witness :
  (Websocket.backoffDelay default_config 1 (1 # 2)
   <= Websocket.backoffDelay default_config 3 (1 # 2))%Q
  /\ (Websocket.backoffDelay default_config 3 (1 # 2) <= 39000)%Q.
Proof.
  destruct (backoffDelay_capped_and_monotone default_config) as (C & M).
  split.
  - assert (B : (0 <= websocket_reconnectInterval default_config)%Q)
      by discriminate.
    assert (L : 1 <= 3) by discriminate.
    assert (R : (0 <= 1 # 2)%Q) by discriminate.
    exact (proj2 (M B 1 3 (1 # 2) L R)).
  - apply C; [discriminate|reflexivity].
Defined.

(** A sample of X7: a connection check after the backoff timer of the
    first close has fired. *)
Lemma checkConnection_on_closed_connection_witness :
  let s :=
    Websocket.timerFired default_config calm
      (Websocket.handleClose default_config calm Websocket.initial) in
  Websocket.isConnected s = false
  /\ Websocket.checkConnection default_config calm s
     = (false,
        Websocket.logger Websocket.info
          "Connection check: WebSocket is disconnected" s).
Proof.
  cbv zeta.
  set (s0 := Websocket.handleClose default_config calm Websocket.initial).
  set (s := Websocket.timerFired default_config calm s0).
  assert (D : Websocket.isConnected s = false) by reflexivity.
  split; [exact D|].
  pose proof (checkConnection_on_closed_connection default_config calm s D)
    as H.
  cbv zeta in H. destruct H as (F & _ & _ & T).
  rewrite (surjective_pairing (Websocket.checkConnection default_config
                                 calm s)).
  rewrite F.
  rewrite (T calm s0
             {| Websocket.tm_kind := Websocket.Backoff;
                Websocket.tm_delay :=
                  Websocket.backoffDelay default_config 1 (1 # 2);
                Websocket.tm_live := true |}
             eq_refl eq_refl eq_refl eq_refl eq_refl).
  reflexivity.
Defined.

(** A sample of X8: the first snapshot, written and read back 50 s
    later. *)
Lemma persist_then_load_witness :
  let w := afterFirstSnapshot 60000 in
  let w' :=
    Monitor.loadPersistedData
      (Monitor.initialWorld 1699999110000
         (Monitor.file (snd (Monitor.persistData laptop w)))) in
  Monitor.fs_writeOk laptop = true
  /\ Monitor.history (Monitor.monitoringData w')
     = Monitor.history (Monitor.monitoringData w)
  /\ Monitor.startTime (Monitor.monitoringData w') = 1699999000000.
Proof.
  pose proof (persist_then_load laptop 1699999110000
                (afterFirstSnapshot 60000)) as H.
  cbv zeta in H. destruct H as (_ & H).
  destruct (H eq_refl) as (_ & _ & Hh & _ & _ & Hs & _).
  cbv zeta. split; [reflexivity|]. split.
  - apply Hh. repeat constructor.
  - rewrite Hs. reflexivity.
Defined.

(** A sample of X9: a task added to an empty list and removed again. *)
Lemma added_task_can_be_removed_witness :
  let added := Monitor.addMonitoringTask laptop httpTask bootWorld in
  let removed :=
    Monitor.removeMonitoringTask laptop (fst added) (snd added) in
  fst added = Some "task_1700000000000_abc"%string
  /\ fst removed = true
  /\ Monitor.monitoringTasks (Monitor.monitoringData (snd removed)) = []
  /\ List.length (Monitor.cronJobs (snd removed)) = 1%nat.
Proof.
  assert (P : plainInterval (t_interval httpTask))
    by (vm_compute; discriminate).
  pose proof (added_task_can_be_removed laptop laptop httpTask bootWorld P)
    as H.
  cbv zeta in H. destruct H as (I & _ & R & J & T).
  cbv zeta. split; [exact I|]. split; [exact R|]. split.
  - exact (proj1 (T (Forall_nil _))).
  - rewrite J. reflexivity.
Defined.

(** A sample of X10: an interval of two hours gets the step 120, and
    the job fires again after one hour. *)
Lemma task_cadence_and_period_witness :
  exists n,
    Monitor.taskCadence (IntervalMs 7200000) = Monitor.EveryMinutes n
    /\ n = 120
    /\ firesAt n 0 = true /\ firesAt n 60 = true.
Proof.
  destruct (task_cadence_and_period 7200000)
    as (n & E & _ & _ & _ & _ & _ & H).
  exists n. split; [exact E|].
  cbn in E. injection E as <-.
  assert (G : 60 < 120) by reflexivity.
  split; [reflexivity|].
  split; apply (proj2 (H G _)); [now exists 0|now exists 1].
Defined.

(** A sample of X11: the answer 200 "ok" in 35 ms to a task that asks
    for the keyword "ok" within 500 ms. *)
Lemma http_check_verdict_witness :
  r_success (Monitor.checkHttpEndpoint laptop httpTask) = true.
Proof.
  apply (proj1 (http_check_verdict laptop httpTask)).
  exists 200, (Some "ok"%string), 35.
  split; [reflexivity|]. split; [now left|]. split.
  - intros keyword text K B. injection K as <-. injection B as <-.
    now exists EmptyString, EmptyString.
  - intros limit L _. injection L as <-. discriminate.
Defined.

(** A sample of X12: the one task of a list runs. *)
Lemma task_run_touches_only_its_task_witness :
  let w := snd (Monitor.addMonitoringTask laptop httpTask bootWorld) in
  let w' := Monitor.taskJob default_config laptop 0 false w in
  (exists task result task',
     nth_error (Monitor.objects w) 0 = Some task
     /\ Monitor.executeMonitoringTask laptop task = inl result
     /\ nth_error (Monitor.objects w') 0 = Some task'
     /\ ranWith task result task')
  /\ Monitor.monitoringData w' = Monitor.monitoringData w.
Proof.
  pose proof (task_run_touches_only_its_task default_config laptop 0%nat
                false
                (snd (Monitor.addMonitoringTask laptop httpTask bootWorld)))
    as H.
  cbv zeta in H. destruct H as (D & _ & _ & _ & _ & T & _).
  cbv zeta. split; [|exact D].
  destruct (T _ eq_refl) as (task' & N & R).
  eexists. eexists. exists task'.
  split; [reflexivity|]. split; [reflexivity|]. split; [exact N|exact R].
Defined.

(** A sample of X13: three ticks on a host that reports no cpu. *)
Lemma failure_streak_witness :
  let broken := withCpus [] laptop in
  let w := tickAll default_config [broken; broken; broken] bootWorld in
  cpuBroken broken
  /\ errorCount w = 3
  /\ Monitor.st_healthy (Monitor.rp_status (Monitor.report w)) = false.
Proof.
  cbv zeta.
  assert (B : cpuBroken (withCpus [] laptop))
    by (split; [now exists (Fin (1 # 4))|reflexivity]).
  pose proof (failure_streak default_config eq_refl
                [withCpus [] laptop; withCpus [] laptop; withCpus [] laptop]
                bootWorld
                (Forall_cons _ B (Forall_cons _ B (Forall_cons _ B
                   (Forall_nil _))))) as H.
  cbv zeta in H. destruct H as (C & S & _).
  split; [exact B|]. split; [exact C|]. exact S.
Defined.

(** A sample of X16: a boot on a file that holds one task. *)
Lemma init_registers_jobs_witness :
  let w :=
    Monitor.init default_config laptop
      (Monitor.initialWorld 1700000000000 oneTaskFile) in
  Monitor.cronJobs w
  = [{| Monitor.job_cadence := Monitor.EveryMinutes 1;
        Monitor.job_action := Monitor.MetricsJob |};
     {| Monitor.job_cadence := Monitor.EveryMinutes 2;
        Monitor.job_action := Monitor.TaskJob 0 true |};
     persistJob]
  /\ Monitor.tasksOf w = [httpTask].
Proof.
  assert (P : plainInterval (IntervalMs (monitoring_interval default_config)))
    by (vm_compute; discriminate).
  assert (I : (0 < monitoring_interval default_config)%Q) by reflexivity.
  assert (T : Forall (fun task => plainInterval (t_interval task)) [httpTask])
    by (constructor; [vm_compute; discriminate|constructor]).
  pose proof (init_registers_jobs default_config laptop 1700000000000
                oneTaskFile P I T) as H.
  cbv zeta in H. destruct H as (J & K & _).
  cbv zeta. split; [rewrite J; reflexivity|exact K].
Defined.

(** A sample of X14: a snapshot offered by a node that is not
    registered, on an open connection. *)
Lemma sendMetrics_contract_witness :
  let s := Websocket.handleOpen default_config calm Websocket.initial in
  let r := Websocket.sendMetrics default_config calm blankSnapshot s in
  registered (Websocket.user calm) = false
  /\ Websocket.isConnected s = true
  /\ fst r = false
  /\ Websocket.wire (snd r) = Websocket.wire s.
Proof.
  pose proof (sendMetrics_contract default_config calm blankSnapshot
                (Websocket.handleOpen default_config calm Websocket.initial))
    as H.
  cbv zeta in H. destruct H as (_ & _ & _ & U & _).
  cbv zeta. split; [reflexivity|]. split; [reflexivity|].
  split; [reflexivity|]. exact (proj1 (U eq_refl)).
Defined.

(** A sample of X15: an hour after the reward of the sample of C2. *)
Lemma no_second_reward_within_interval_witness :
  let w := afterFirstSnapshot 900000 in
  let host := atTime (1699999000000 + 1000000) laptop in
  let host' := atTime (1699999000000 + 4600000) laptop in
  let w' := snd (Monitor.distributeRewards default_config host w) in
  issued (fst (Monitor.distributeRewards default_config host w)) = true
  /\ Monitor.distributeRewards default_config host' w'
     = (Monitor.NotYetTime, w').
Proof.
  cbv zeta. split; [reflexivity|].
  assert (NZ : Monitor.clock (atTime (1699999000000 + 1000000) laptop) <> 0)
    by discriminate.
  pose proof (no_second_reward_within_interval default_config
                (atTime (1699999000000 + 1000000) laptop)
                (afterFirstSnapshot 900000) _ "tx-1"%string eq_refl NZ)
    as H.
  cbv zeta in H. destruct H as (_ & H).
  apply H. reflexivity.
Defined.

(** A sample of X17: a configuration update that carries its
    configuration. *)
Lemma task_assignment_is_answered_witness :
  rt_success
    (Websocket.remoteTaskResult atHome (Some "job-2"%string)
       (RtUpdateConfig true)) = true
  /\ rt_nodeId
       (Websocket.remoteTaskResult atHome (Some "job-2"%string)
          (RtUpdateConfig true)) = Some "node-7"%string.
Proof.
  pose proof (task_assignment_is_answered default_config atHome
                (Some "job-2"%string) (RtUpdateConfig true)
                Websocket.initial) as H.
  cbv zeta in H. destruct H as (_ & S & _ & N).
  split; [apply (proj2 S); now right|exact N].
Defined.

(** A sample of X18: the shipped configuration, a close right after the
    notice. *)
Lemma shutdown_notice_raises_backoff_witness :
  let s :=
    Websocket.handleClose default_config calm
      (Websocket.handleMessage default_config calm
         Websocket.InServerShutdown
         (Websocket.handleOpen default_config calm Websocket.initial)) in
  Websocket.reconnectAttempts s = 6
  /\ exists tm,
       Websocket.reconnectTimeout s = Some tm
       /\ (30000 <= Websocket.tm_delay tm)%Q.
Proof.
  pose proof (shutdown_notice_raises_backoff default_config calm calm
                (Websocket.handleOpen default_config calm
                   Websocket.initial)) as H.
  cbv zeta in H. destruct H as (_ & _ & _ & _ & _ & A & D).
  assert (B : (1000 <= websocket_reconnectInterval default_config)%Q)
    by discriminate.
  assert (R : (0 <= Websocket.random calm)%Q) by discriminate.
  destruct (D B R) as (tm & T & _ & L).
  cbv zeta. split; [rewrite A; reflexivity|].
  exists tm. split; [exact T|exact L].
Defined.


(** A sample of X21: a refused registration, then an accepted one. *)
Lemma registerUser_all_or_nothing_witness :
  snd (User.registerUser refusing (Some "PK7"%string) freshUser) = freshUser
  /\ User.view
       (User.getUserData
          (snd (User.registerUser accepting (Some "PK7"%string) freshUser)))
     = node7.
Proof.
  split.
  - pose proof (registerUser_all_or_nothing refusing (Some "PK7"%string)
                  freshUser) as H.
    cbv zeta in H. destruct H as (_ & F & _).
    exact (proj1 (F eq_refl)).
  - pose proof (registerUser_all_or_nothing accepting (Some "PK7"%string)
                  freshUser) as H.
    cbv zeta in H. destruct H as (_ & _ & T).
    destruct (T _ _ eq_refl) as (_ & _ & _ & V & _). exact V.
Defined.

(** A sample of X22: the accepted registration, after a restart. *)
Lemma registration_across_restart_witness :
  let st := snd (User.registerUser accepting (Some "PK7"%string) freshUser) in
  exists restarted,
    User.init dataDir (User.initial (User.file st)) = Some restarted
    /\ User.userData restarted = User.userData st.
Proof.
  cbv zeta.
  destruct (registration_across_restart accepting (Some "PK7"%string)
              freshUser dataDir _ _ eq_refl (or_introl eq_refl))
    as (restarted & I & W & _).
  exists restarted. split; [exact I|exact (W eq_refl)].
Defined.

(** A sample of X23: a status update of the registered node, and one of
    a node that never registered. *)
Lemma updateStatus_contract_witness :
  (let st :=
     snd (User.registerUser accepting (Some "PK7"%string) freshUser) in
   let r := User.updateStatus accepting st in
   List.length (fst r) = 1%nat
   /\ fst (snd r) = Some true
   /\ User.view (User.getUserData (snd (snd r))) = node7)
  /\ fst (User.updateStatus accepting freshUser) = [].
Proof.
  cbv zeta. split.
  - pose proof (updateStatus_contract accepting
                  (snd (User.registerUser accepting (Some "PK7"%string)
                          freshUser))
                  _ eq_refl) as H.
    cbv zeta in H. destruct H as (_ & P & S & _ & _ & V).
    split; [rewrite P; [reflexivity|split; reflexivity]|].
    split; [|exact V].
    apply (proj2 S). split; [split; reflexivity|].
    eexists. eexists. reflexivity.
  - pose proof (updateStatus_contract accepting freshUser _ eq_refl) as H.
    cbv zeta in H. destruct H as (P & _).
    destruct (fst (User.updateStatus accepting freshUser)) as [|x l] eqn:E;
      [reflexivity|].
    assert (N : x :: l <> []) by discriminate.
    apply (proj1 P) in N. destruct N as (F & _). discriminate.
Defined.

(** A sample of X24: a refused re-registration and a refused status
    update after the accepted registration. *)
Lemma registration_is_never_undone_witness :
  let st := snd (User.registerUser accepting (Some "PK7"%string) freshUser) in
  User.isRegistered
    (User.run
       [(refusing, User.CallRegister None); (refusing, User.CallStatusTick)]
       st)
  = Some true.
Proof.
  cbv zeta.
  exact (registration_is_never_undone
           [(refusing, User.CallRegister None);
            (refusing, User.CallStatusTick)]
           (snd (User.registerUser accepting (Some "PK7"%string) freshUser))
           _ eq_refl eq_refl).
Defined.

(** A sample of X25: the first open signal after the accepted
    registration. *)
Lemma registration_then_open_authenticates_witness :
  let hello :=
    messageFor atHome "authenticate"
      (PAuthenticate (Some "node-7"%string) (Some "PK7"%string)) high in
  let s := Websocket.handleOpen default_config atHome Websocket.initial in
  In hello (Websocket.wire s) \/ In hello (Websocket.pendingMessages s).
Proof.
  cbv zeta.
  exact (registration_then_open_authenticates default_config accepting
           (Some "PK7"%string) freshUser (Some "node-7"%string) None atHome
           Websocket.initial eq_refl eq_refl).
Defined.

(** A sample of X26: the first attempt fails at once. *)
Lemma early_error_skips_two_attempts_witness :
  let s := Websocket.connect default_config calm Websocket.initial in
  Websocket.reconnectAttempts
    (Websocket.handleClose default_config calm
       (Websocket.handleError calm s)) = 3.
Proof.
  pose proof (early_error_skips_two_attempts default_config calm calm
                (Websocket.connect default_config calm Websocket.initial))
    as H.
  cbv zeta in H. destruct H as (A & _).
  cbv zeta. rewrite A. reflexivity.
Defined.
